(** * LeadLens: the lead scoring and classification core

    A shallow embedding of [run.py] ([_compute_lead_score],
    [quick_site_check], [classify_lead]) and of [_valid_website_href] from
    [scraper/maps_scraper.py], with the properties of the specification
    stated and proved over it.

    The second half covers the code around this core: [_extract_domain]
    and the job queue of [main] ([expand_jobs], the search string and the
    generated file name) in [run.py], and
    [extract_website_from_google_redirect], the choice of the website and
    the record of a card in [scrape_google_maps].

    Modelling conventions.
    - A Python [str] is a [string]: the UTF-8 bytes of the text.  Substring,
      prefix and suffix tests on the bytes agree with the tests on code
      points.  [str.lower] and [str.strip] work on the code points, with
      the case mappings, the final sigma rule and the white space of the
      Unicode character database.
    - A Python [float] is an IEEE 754 binary64 value, a [spec_float] with
      precision 53 and maximal exponent 1024; arithmetic is the correctly
      rounded arithmetic of the standard library's [SpecFloat].  Comparison
      is by exact value, as Python compares floats with floats and with
      integers.
    - A Python [int] is a [Z].
    - Code that can raise returns a [result]; [try ... except Exception] is
      [try_except].
    - What the interpreter and the libraries provide (string to number
      parsing, [urlparse], [requests.get], [BeautifulSoup]) is the
      environment [Env], a parameter of every function that uses it. *)

From Stdlib Require Import ZArith NArith List String Ascii Bool Lia.
From Stdlib Require Import Floats.SpecFloat Floats.PrimFloat Floats.FloatOps.
From stdpp Require Import base option gmap strings pretty.
Import ListNotations.

Local Open Scope string_scope.

(** ** Python strings

    A [str] is held as the UTF-8 bytes of its code points.  Tests for a
    substring, a prefix or a suffix can be made on the bytes; [lower] and
    [strip] work on the code points, with the tables of the Unicode
    character database 14.0.0 that CPython 3.11 is built with. *)

Module PyStr.

(** *** UTF-8 *)

Definition continuation (n : N) : bool := ((128 <=? n) && (n <? 192))%N.

(** The code points of a string.  A byte that starts no well-formed
    sequence (no text has one) is read as a code point of its own. *)
Fixpoint decode (s : string) : list N :=
  match s with
  | EmptyString => []
  | String a s1 =>
      let n0 := N_of_ascii a in
      if (n0 <? 192)%N then n0 :: decode s1
      else
        match s1 with
        | EmptyString => [n0]
        | String b s2 =>
            let n1 := N_of_ascii b in
            if negb (continuation n1) then n0 :: decode s1
            else if (n0 <? 224)%N then ((n0 - 192) * 64 + (n1 - 128))%N :: decode s2
            else
              match s2 with
              | EmptyString => n0 :: decode s1
              | String c s3 =>
                  let n2 := N_of_ascii c in
                  if negb (continuation n2) then n0 :: decode s1
                  else if (n0 <? 240)%N then
                    (((n0 - 224) * 64 + (n1 - 128)) * 64 + (n2 - 128))%N :: decode s3
                  else
                    match s3 with
                    | EmptyString => n0 :: decode s1
                    | String d s4 =>
                        let n3 := N_of_ascii d in
                        let cp :=
                          ((((n0 - 240) * 64 + (n1 - 128)) * 64 + (n2 - 128)) * 64
                           + (n3 - 128))%N in
                        if continuation n3 && (cp <? 1114112)%N then cp :: decode s4
                        else n0 :: decode s1
                    end
              end
        end
  end.

Definition encode_char (c : N) (rest : string) : string :=
  (let c1 := c / 64 in
   let c2 := c1 / 64 in
   let c3 := c2 / 64 in
   if c <? 128 then String (ascii_of_N c) rest
   else if c <? 2048 then
     String (ascii_of_N (192 + c1)) (String (ascii_of_N (128 + c mod 64)) rest)
   else if c <? 65536 then
     String (ascii_of_N (224 + c2))
       (String (ascii_of_N (128 + c1 mod 64))
          (String (ascii_of_N (128 + c mod 64)) rest))
   else
     String (ascii_of_N (240 + c3))
       (String (ascii_of_N (128 + c2 mod 64))
          (String (ascii_of_N (128 + c1 mod 64))
             (String (ascii_of_N (128 + c mod 64)) rest))))%N.

Definition encode (l : list N) : string := fold_right encode_char EmptyString l.

(** *** The character database *)

Definition in_ranges (c : N) (ranges : list (N * N)) : bool :=
  existsb (fun r => (fst r <=? c) && (c <=? snd r))%N ranges.

(** [str.isspace]: the characters [str.strip] removes. *)
Definition whitespace : list (N * N) :=
  [ (9, 13); (28, 32); (133, 133); (160, 160); (5760, 5760); (8192, 8202);
    (8232, 8233); (8239, 8239); (8287, 8287); (12288, 12288) ]%N.

(** The simple lowercase mappings: [(first, last, step, target)] maps
    [first], [first + step], ... up to [last] to [target], [target + step],
    ... *)
Definition lower_table : list (N * N * N * N) :=
  [
    (65, 90, 1, 97); (192, 214, 1, 224); (216, 222, 1, 248); (256, 302, 2, 257);
    (306, 310, 2, 307); (313, 327, 2, 314); (330, 374, 2, 331); (376, 376, 1, 255);
    (377, 381, 2, 378); (385, 385, 1, 595); (386, 388, 2, 387); (390, 390, 1, 596);
    (391, 391, 1, 392); (393, 394, 1, 598); (395, 395, 1, 396); (398, 398, 1, 477);
    (399, 399, 1, 601); (400, 400, 1, 603); (401, 401, 1, 402); (403, 403, 1, 608);
    (404, 404, 1, 611); (406, 406, 1, 617); (407, 407, 1, 616); (408, 408, 1, 409);
    (412, 412, 1, 623); (413, 413, 1, 626); (415, 415, 1, 629); (416, 420, 2, 417);
    (422, 422, 1, 640); (423, 423, 1, 424); (425, 425, 1, 643); (428, 428, 1, 429);
    (430, 430, 1, 648); (431, 431, 1, 432); (433, 434, 1, 650); (435, 437, 2, 436);
    (439, 439, 1, 658); (440, 440, 1, 441); (444, 444, 1, 445); (452, 452, 1, 454);
    (453, 453, 1, 454); (455, 455, 1, 457); (456, 456, 1, 457); (458, 458, 1, 460);
    (459, 475, 2, 460); (478, 494, 2, 479); (497, 497, 1, 499); (498, 500, 2, 499);
    (502, 502, 1, 405); (503, 503, 1, 447); (504, 542, 2, 505); (544, 544, 1, 414);
    (546, 562, 2, 547); (570, 570, 1, 11365); (571, 571, 1, 572); (573, 573, 1, 410);
    (574, 574, 1, 11366); (577, 577, 1, 578); (579, 579, 1, 384); (580, 580, 1, 649);
    (581, 581, 1, 652); (582, 590, 2, 583); (880, 882, 2, 881); (886, 886, 1, 887);
    (895, 895, 1, 1011); (902, 902, 1, 940); (904, 906, 1, 941); (908, 908, 1, 972);
    (910, 911, 1, 973); (913, 929, 1, 945); (931, 939, 1, 963); (975, 975, 1, 983);
    (984, 1006, 2, 985); (1012, 1012, 1, 952); (1015, 1015, 1, 1016); (1017, 1017, 1, 1010);
    (1018, 1018, 1, 1019); (1021, 1023, 1, 891); (1024, 1039, 1, 1104); (1040, 1071, 1, 1072);
    (1120, 1152, 2, 1121); (1162, 1214, 2, 1163); (1216, 1216, 1, 1231); (1217, 1229, 2, 1218);
    (1232, 1326, 2, 1233); (1329, 1366, 1, 1377); (4256, 4293, 1, 11520);
    (4295, 4295, 1, 11559); (4301, 4301, 1, 11565); (5024, 5103, 1, 43888);
    (5104, 5109, 1, 5112); (7312, 7354, 1, 4304); (7357, 7359, 1, 4349); (7680, 7828, 2, 7681);
    (7838, 7838, 1, 223); (7840, 7934, 2, 7841); (7944, 7951, 1, 7936); (7960, 7965, 1, 7952);
    (7976, 7983, 1, 7968); (7992, 7999, 1, 7984); (8008, 8013, 1, 8000); (8025, 8031, 2, 8017);
    (8040, 8047, 1, 8032); (8072, 8079, 1, 8064); (8088, 8095, 1, 8080); (8104, 8111, 1, 8096);
    (8120, 8121, 1, 8112); (8122, 8123, 1, 8048); (8124, 8124, 1, 8115); (8136, 8139, 1, 8050);
    (8140, 8140, 1, 8131); (8152, 8153, 1, 8144); (8154, 8155, 1, 8054); (8168, 8169, 1, 8160);
    (8170, 8171, 1, 8058); (8172, 8172, 1, 8165); (8184, 8185, 1, 8056); (8186, 8187, 1, 8060);
    (8188, 8188, 1, 8179); (8486, 8486, 1, 969); (8490, 8490, 1, 107); (8491, 8491, 1, 229);
    (8498, 8498, 1, 8526); (8544, 8559, 1, 8560); (8579, 8579, 1, 8580); (9398, 9423, 1, 9424);
    (11264, 11311, 1, 11312); (11360, 11360, 1, 11361); (11362, 11362, 1, 619);
    (11363, 11363, 1, 7549); (11364, 11364, 1, 637); (11367, 11371, 2, 11368);
    (11373, 11373, 1, 593); (11374, 11374, 1, 625); (11375, 11375, 1, 592);
    (11376, 11376, 1, 594); (11378, 11378, 1, 11379); (11381, 11381, 1, 11382);
    (11390, 11391, 1, 575); (11392, 11490, 2, 11393); (11499, 11501, 2, 11500);
    (11506, 11506, 1, 11507); (42560, 42604, 2, 42561); (42624, 42650, 2, 42625);
    (42786, 42798, 2, 42787); (42802, 42862, 2, 42803); (42873, 42875, 2, 42874);
    (42877, 42877, 1, 7545); (42878, 42886, 2, 42879); (42891, 42891, 1, 42892);
    (42893, 42893, 1, 613); (42896, 42898, 2, 42897); (42902, 42920, 2, 42903);
    (42922, 42922, 1, 614); (42923, 42923, 1, 604); (42924, 42924, 1, 609);
    (42925, 42925, 1, 620); (42926, 42926, 1, 618); (42928, 42928, 1, 670);
    (42929, 42929, 1, 647); (42930, 42930, 1, 669); (42931, 42931, 1, 43859);
    (42932, 42946, 2, 42933); (42948, 42948, 1, 42900); (42949, 42949, 1, 642);
    (42950, 42950, 1, 7566); (42951, 42953, 2, 42952); (42960, 42960, 1, 42961);
    (42966, 42968, 2, 42967); (42997, 42997, 1, 42998); (65313, 65338, 1, 65345);
    (66560, 66599, 1, 66600); (66736, 66771, 1, 66776); (66928, 66938, 1, 66967);
    (66940, 66954, 1, 66979); (66956, 66962, 1, 66995); (66964, 66965, 1, 67003);
    (68736, 68786, 1, 68800); (71840, 71871, 1, 71872); (93760, 93791, 1, 93792);
    (125184, 125217, 1, 125218) ]%N.

(** The properties Cased and Case_Ignorable, read by the rule for the
    final sigma. *)
Definition cased_ranges : list (N * N) :=
  [
    (65, 90); (97, 122); (170, 170); (181, 181); (186, 186); (192, 214); (216, 246); (248, 442);
    (444, 447); (452, 659); (661, 696); (704, 705); (736, 740); (837, 837); (880, 883);
    (886, 887); (890, 893); (895, 895); (902, 902); (904, 906); (908, 908); (910, 929);
    (931, 1013); (1015, 1153); (1162, 1327); (1329, 1366); (1376, 1416); (4256, 4293);
    (4295, 4295); (4301, 4301); (4304, 4346); (4349, 4351); (5024, 5109); (5112, 5117);
    (7296, 7304); (7312, 7354); (7357, 7359); (7424, 7615); (7680, 7957); (7960, 7965);
    (7968, 8005); (8008, 8013); (8016, 8023); (8025, 8025); (8027, 8027); (8029, 8029);
    (8031, 8061); (8064, 8116); (8118, 8124); (8126, 8126); (8130, 8132); (8134, 8140);
    (8144, 8147); (8150, 8155); (8160, 8172); (8178, 8180); (8182, 8188); (8305, 8305);
    (8319, 8319); (8336, 8348); (8450, 8450); (8455, 8455); (8458, 8467); (8469, 8469);
    (8473, 8477); (8484, 8484); (8486, 8486); (8488, 8488); (8490, 8493); (8495, 8500);
    (8505, 8505); (8508, 8511); (8517, 8521); (8526, 8526); (8544, 8575); (8579, 8580);
    (9398, 9449); (11264, 11492); (11499, 11502); (11506, 11507); (11520, 11557);
    (11559, 11559); (11565, 11565); (42560, 42605); (42624, 42653); (42786, 42887);
    (42891, 42894); (42896, 42954); (42960, 42961); (42963, 42963); (42965, 42969);
    (42997, 42998); (43000, 43002); (43824, 43866); (43868, 43880); (43888, 43967);
    (64256, 64262); (64275, 64279); (65313, 65338); (65345, 65370); (66560, 66639);
    (66736, 66771); (66776, 66811); (66928, 66938); (66940, 66954); (66956, 66962);
    (66964, 66965); (66967, 66977); (66979, 66993); (66995, 67001); (67003, 67004);
    (67456, 67456); (67459, 67461); (67463, 67504); (67506, 67514); (68736, 68786);
    (68800, 68850); (71840, 71903); (93760, 93823); (119808, 119892); (119894, 119964);
    (119966, 119967); (119970, 119970); (119973, 119974); (119977, 119980); (119982, 119993);
    (119995, 119995); (119997, 120003); (120005, 120069); (120071, 120074); (120077, 120084);
    (120086, 120092); (120094, 120121); (120123, 120126); (120128, 120132); (120134, 120134);
    (120138, 120144); (120146, 120485); (120488, 120512); (120514, 120538); (120540, 120570);
    (120572, 120596); (120598, 120628); (120630, 120654); (120656, 120686); (120688, 120712);
    (120714, 120744); (120746, 120770); (120772, 120779); (122624, 122633); (122635, 122654);
    (125184, 125251); (127280, 127305); (127312, 127337); (127344, 127369) ]%N.

Definition case_ignorable_ranges : list (N * N) :=
  [
    (39, 39); (46, 46); (58, 58); (94, 94); (96, 96); (168, 168); (173, 173); (175, 175);
    (180, 180); (183, 184); (688, 879); (884, 885); (890, 890); (900, 901); (903, 903);
    (1155, 1161); (1369, 1369); (1375, 1375); (1425, 1469); (1471, 1471); (1473, 1474);
    (1476, 1477); (1479, 1479); (1524, 1524); (1536, 1541); (1552, 1562); (1564, 1564);
    (1600, 1600); (1611, 1631); (1648, 1648); (1750, 1757); (1759, 1768); (1770, 1773);
    (1807, 1807); (1809, 1809); (1840, 1866); (1958, 1968); (2027, 2037); (2042, 2042);
    (2045, 2045); (2070, 2093); (2137, 2139); (2184, 2184); (2192, 2193); (2200, 2207);
    (2249, 2306); (2362, 2362); (2364, 2364); (2369, 2376); (2381, 2381); (2385, 2391);
    (2402, 2403); (2417, 2417); (2433, 2433); (2492, 2492); (2497, 2500); (2509, 2509);
    (2530, 2531); (2558, 2558); (2561, 2562); (2620, 2620); (2625, 2626); (2631, 2632);
    (2635, 2637); (2641, 2641); (2672, 2673); (2677, 2677); (2689, 2690); (2748, 2748);
    (2753, 2757); (2759, 2760); (2765, 2765); (2786, 2787); (2810, 2815); (2817, 2817);
    (2876, 2876); (2879, 2879); (2881, 2884); (2893, 2893); (2901, 2902); (2914, 2915);
    (2946, 2946); (3008, 3008); (3021, 3021); (3072, 3072); (3076, 3076); (3132, 3132);
    (3134, 3136); (3142, 3144); (3146, 3149); (3157, 3158); (3170, 3171); (3201, 3201);
    (3260, 3260); (3263, 3263); (3270, 3270); (3276, 3277); (3298, 3299); (3328, 3329);
    (3387, 3388); (3393, 3396); (3405, 3405); (3426, 3427); (3457, 3457); (3530, 3530);
    (3538, 3540); (3542, 3542); (3633, 3633); (3636, 3642); (3654, 3662); (3761, 3761);
    (3764, 3772); (3782, 3782); (3784, 3789); (3864, 3865); (3893, 3893); (3895, 3895);
    (3897, 3897); (3953, 3966); (3968, 3972); (3974, 3975); (3981, 3991); (3993, 4028);
    (4038, 4038); (4141, 4144); (4146, 4151); (4153, 4154); (4157, 4158); (4184, 4185);
    (4190, 4192); (4209, 4212); (4226, 4226); (4229, 4230); (4237, 4237); (4253, 4253);
    (4348, 4348); (4957, 4959); (5906, 5908); (5938, 5939); (5970, 5971); (6002, 6003);
    (6068, 6069); (6071, 6077); (6086, 6086); (6089, 6099); (6103, 6103); (6109, 6109);
    (6155, 6159); (6211, 6211); (6277, 6278); (6313, 6313); (6432, 6434); (6439, 6440);
    (6450, 6450); (6457, 6459); (6679, 6680); (6683, 6683); (6742, 6742); (6744, 6750);
    (6752, 6752); (6754, 6754); (6757, 6764); (6771, 6780); (6783, 6783); (6823, 6823);
    (6832, 6862); (6912, 6915); (6964, 6964); (6966, 6970); (6972, 6972); (6978, 6978);
    (7019, 7027); (7040, 7041); (7074, 7077); (7080, 7081); (7083, 7085); (7142, 7142);
    (7144, 7145); (7149, 7149); (7151, 7153); (7212, 7219); (7222, 7223); (7288, 7293);
    (7376, 7378); (7380, 7392); (7394, 7400); (7405, 7405); (7412, 7412); (7416, 7417);
    (7468, 7530); (7544, 7544); (7579, 7679); (8125, 8125); (8127, 8129); (8141, 8143);
    (8157, 8159); (8173, 8175); (8189, 8190); (8203, 8207); (8216, 8217); (8228, 8228);
    (8231, 8231); (8234, 8238); (8288, 8292); (8294, 8303); (8305, 8305); (8319, 8319);
    (8336, 8348); (8400, 8432); (11388, 11389); (11503, 11505); (11631, 11631); (11647, 11647);
    (11744, 11775); (11823, 11823); (12293, 12293); (12330, 12333); (12337, 12341);
    (12347, 12347); (12441, 12446); (12540, 12542); (40981, 40981); (42232, 42237);
    (42508, 42508); (42607, 42610); (42612, 42621); (42623, 42623); (42652, 42655);
    (42736, 42737); (42752, 42785); (42864, 42864); (42888, 42890); (42994, 42996);
    (43000, 43001); (43010, 43010); (43014, 43014); (43019, 43019); (43045, 43046);
    (43052, 43052); (43204, 43205); (43232, 43249); (43263, 43263); (43302, 43309);
    (43335, 43345); (43392, 43394); (43443, 43443); (43446, 43449); (43452, 43453);
    (43471, 43471); (43493, 43494); (43561, 43566); (43569, 43570); (43573, 43574);
    (43587, 43587); (43596, 43596); (43632, 43632); (43644, 43644); (43696, 43696);
    (43698, 43700); (43703, 43704); (43710, 43711); (43713, 43713); (43741, 43741);
    (43756, 43757); (43763, 43764); (43766, 43766); (43867, 43871); (43881, 43883);
    (44005, 44005); (44008, 44008); (44013, 44013); (64286, 64286); (64434, 64450);
    (65024, 65039); (65043, 65043); (65056, 65071); (65106, 65106); (65109, 65109);
    (65279, 65279); (65287, 65287); (65294, 65294); (65306, 65306); (65342, 65342);
    (65344, 65344); (65392, 65392); (65438, 65439); (65507, 65507); (65529, 65531);
    (66045, 66045); (66272, 66272); (66422, 66426); (67456, 67461); (67463, 67504);
    (67506, 67514); (68097, 68099); (68101, 68102); (68108, 68111); (68152, 68154);
    (68159, 68159); (68325, 68326); (68900, 68903); (69291, 69292); (69446, 69456);
    (69506, 69509); (69633, 69633); (69688, 69702); (69744, 69744); (69747, 69748);
    (69759, 69761); (69811, 69814); (69817, 69818); (69821, 69821); (69826, 69826);
    (69837, 69837); (69888, 69890); (69927, 69931); (69933, 69940); (70003, 70003);
    (70016, 70017); (70070, 70078); (70089, 70092); (70095, 70095); (70191, 70193);
    (70196, 70196); (70198, 70199); (70206, 70206); (70367, 70367); (70371, 70378);
    (70400, 70401); (70459, 70460); (70464, 70464); (70502, 70508); (70512, 70516);
    (70712, 70719); (70722, 70724); (70726, 70726); (70750, 70750); (70835, 70840);
    (70842, 70842); (70847, 70848); (70850, 70851); (71090, 71093); (71100, 71101);
    (71103, 71104); (71132, 71133); (71219, 71226); (71229, 71229); (71231, 71232);
    (71339, 71339); (71341, 71341); (71344, 71349); (71351, 71351); (71453, 71455);
    (71458, 71461); (71463, 71467); (71727, 71735); (71737, 71738); (71995, 71996);
    (71998, 71998); (72003, 72003); (72148, 72151); (72154, 72155); (72160, 72160);
    (72193, 72202); (72243, 72248); (72251, 72254); (72263, 72263); (72273, 72278);
    (72281, 72283); (72330, 72342); (72344, 72345); (72752, 72758); (72760, 72765);
    (72767, 72767); (72850, 72871); (72874, 72880); (72882, 72883); (72885, 72886);
    (73009, 73014); (73018, 73018); (73020, 73021); (73023, 73029); (73031, 73031);
    (73104, 73105); (73109, 73109); (73111, 73111); (73459, 73460); (78896, 78904);
    (92912, 92916); (92976, 92982); (92992, 92995); (94031, 94031); (94095, 94111);
    (94176, 94177); (94179, 94180); (110576, 110579); (110581, 110587); (110589, 110590);
    (113821, 113822); (113824, 113827); (118528, 118573); (118576, 118598); (119143, 119145);
    (119155, 119170); (119173, 119179); (119210, 119213); (119362, 119364); (121344, 121398);
    (121403, 121452); (121461, 121461); (121476, 121476); (121499, 121503); (121505, 121519);
    (122880, 122886); (122888, 122904); (122907, 122913); (122915, 122916); (122918, 122922);
    (123184, 123197); (123566, 123566); (123628, 123631); (125136, 125142); (125252, 125259);
    (127995, 127999); (917505, 917505); (917536, 917631); (917760, 917999) ]%N.

Definition is_space (c : N) : bool := in_ranges c whitespace.
Definition cased (c : N) : bool := in_ranges c cased_ranges.
Definition case_ignorable (c : N) : bool := in_ranges c case_ignorable_ranges.

Definition covers (entry : N * N * N * N) (c : N) : bool :=
  let '(first, last, step, _) := entry in
  ((first <=? c) && (c <=? last) && ((c - first) mod step =? 0))%N.

Definition lower_simple (c : N) : N :=
  match find (fun entry => covers entry c) lower_table with
  | Some (first, _, _, target) => (target + (c - first))%N
  | None => c
  end.

(** The full mapping: U+0130 alone lowers to two code points. *)
Definition lower_full (c : N) : list N :=
  if (c =? 304)%N then [105; 775]%N else [lower_simple c].

(** A cased letter follows, after case-ignorable characters only. *)
Fixpoint followed_by_cased (l : list N) : bool :=
  match l with
  | [] => false
  | c :: rest => if case_ignorable c then followed_by_cased rest else cased c
  end.

(** The code points lowered from left to right; [after_cased] tells that
    a cased letter precedes, but for case-ignorable characters.  A capital
    sigma U+03A3 between such a letter and the end of a word is lowered to
    the final sigma U+03C2, to U+03C3 anywhere else. *)
Fixpoint lower_from (after_cased : bool) (l : list N) : list N :=
  match l with
  | [] => []
  | c :: rest =>
      let lowered :=
        if (c =? 931)%N then
          [if after_cased && negb (followed_by_cased rest) then 962 else 963]%N
        else lower_full c in
      let after_cased := if case_ignorable c then after_cased else cased c in
      (lowered ++ lower_from after_cased rest)%list
  end.

(** [s.lower()] *)
Definition lower (s : string) : string := encode (lower_from false (decode s)).

Fixpoint drop_spaces (l : list N) : list N :=
  match l with
  | [] => []
  | c :: rest => if is_space c then drop_spaces rest else l
  end.

(** [s.strip()] *)
Definition strip (s : string) : string :=
  encode (rev (drop_spaces (rev (drop_spaces (decode s))))).

(** [s.startswith(p)] *)
Fixpoint startswith (p s : string) : bool :=
  match p with
  | EmptyString => true
  | String a p' =>
      match s with
      | EmptyString => false
      | String b s' => Ascii.eqb a b && startswith p' s'
      end
  end.

(** [s.endswith(p)] *)
Definition endswith (p s : string) : bool :=
  let n := String.length s in
  let k := String.length p in
  (k <=? n)%nat && String.eqb (String.substring (n - k) k s) p.

(** [needle in hay] *)
Fixpoint contains (needle hay : string) : bool :=
  startswith needle hay ||
  match hay with
  | EmptyString => false
  | String _ hay' => contains needle hay'
  end.

(** Truth value of a string: non-empty. *)
Definition nonempty (s : string) : bool :=
  match s with EmptyString => false | _ => true end.

(** *** Checks on the tables, for the properties of [lower] and [strip] *)

(** Code points lie below [bound]. *)
Definition bound : N := 1114112.

(** A mapping of the table applies to the code point. *)
Definition mapped (c : N) : bool := existsb (fun entry => covers entry c) lower_table.

(** A code point that lowering leaves as it is. *)
Definition fixedb (c : N) : bool :=
  (c <? bound)%N && negb (mapped c) && negb (c =? 304)%N.

(** The code points an entry of the table maps to, and the check that
    no mapping applies to any of them. *)
Definition entry_targets (entry : N * N * N * N) : list N :=
  let '(first, last, step, target) := entry in
  map (fun k => (target + N.of_nat k * step)%N)
      (seq 0 (S (N.to_nat ((last - first) / step)))).

Definition table_closed : bool :=
  forallb
    (fun entry =>
       let '(_, _, step, _) := entry in
       (0 <? step)%N && forallb fixedb (entry_targets entry))
    lower_table.

(** The first byte, if any, is below 128. *)
Definition starts_ascii (a : string) : bool :=
  match a with
  | EmptyString => true
  | String c _ => (N_of_ascii c <? 128)%N
  end.

(** Text of bytes below 128 that no mapping applies to. *)
Definition plain_ascii (b : string) : bool :=
  forallb (fun c => (N_of_ascii c <? 128)%N && fixedb (N_of_ascii c))
          (list_ascii_of_string b).







End PyStr.

(** ** Python floats (IEEE 754 binary64) *)

Module PyFloat.

Definition prec : Z := 53.
Definition emax : Z := 1024.

Definition add : spec_float -> spec_float -> spec_float := SFadd prec emax.
Definition mul : spec_float -> spec_float -> spec_float := SFmul prec emax.
Definition div : spec_float -> spec_float -> spec_float := SFdiv prec emax.

(** The float nearest to an integer (ties to even); an infinity when the
    integer is beyond the range of binary64. *)
Definition of_Z (z : Z) : spec_float := binary_normalize prec emax z 0 false.

(** The literals of the program, each the binary64 value Python reads. *)
Definition f0 : spec_float := S754_zero false.                               (* 0.0 *)
Definition f4_2 : spec_float :=
  Eval vm_compute in Prim2SF 0x1.0cccccccccccdp+2%float.                     (* 4.2 *)
Definition f5 : spec_float := Eval vm_compute in Prim2SF 5%float.            (* 5.0 *)
Definition f10 : spec_float := Eval vm_compute in Prim2SF 10%float.          (* 10.0 *)
Definition f20 : spec_float := Eval vm_compute in Prim2SF 20%float.          (* 20.0 *)
Definition f100 : spec_float := Eval vm_compute in Prim2SF 100%float.        (* 100.0 *)

(** The exact value of a number: [m * 2^e], an infinity or not a number. *)
Inductive xnum : Type :=
| XNan
| XInf (neg : bool)
| XFin (m e : Z).

Definition to_x (f : spec_float) : xnum :=
  match f with
  | S754_zero _ => XFin 0 0
  | S754_infinity s => XInf s
  | S754_nan => XNan
  | S754_finite s m e => XFin (cond_Zopp s (Zpos m)) e
  end.

Definition xcompare (a b : xnum) : option comparison :=
  match a, b with
  | XNan, _ | _, XNan => None
  | XInf s1, XInf s2 =>
      Some (match s1, s2 with
            | true, false => Lt
            | false, true => Gt
            | _, _ => Eq
            end)
  | XInf s, XFin _ _ => Some (if s then Lt else Gt)
  | XFin _ _, XInf s => Some (if s then Gt else Lt)
  | XFin m1 e1, XFin m2 e2 =>
      let e := Z.min e1 e2 in
      Some (Z.compare (m1 * 2 ^ (e1 - e)) (m2 * 2 ^ (e2 - e)))%Z
  end.

(** [a < b], [a > b], [a >= b]; all false when an operand is not a number. *)
Definition xlt (a b : xnum) : bool :=
  match xcompare a b with Some Lt => true | _ => false end.
Definition xgt (a b : xnum) : bool :=
  match xcompare a b with Some Gt => true | _ => false end.
Definition xge (a b : xnum) : bool :=
  match xcompare a b with Some Gt | Some Eq => true | _ => false end.

Definition ltb (f g : spec_float) : bool := xlt (to_x f) (to_x g).
Definition gtb (f g : spec_float) : bool := xgt (to_x f) (to_x g).

(** Truth value of a float: anything but a zero. *)
Definition nonzero (f : spec_float) : bool :=
  match f with S754_zero _ => false | _ => true end.

(** [min(a, b)] and [max(a, b)] of the builtins: the first argument is
    kept unless the second compares strictly smaller (larger). *)
Definition py_min (a b : spec_float) : spec_float := if ltb b a then b else a.
Definition py_max (a b : spec_float) : spec_float := if gtb b a then b else a.

(** The integer nearest to [m * 2^e], ties to the even one. *)
Definition round_half_even (m e : Z) : Z :=
  (if 0 <=? e then m * 2 ^ e
   else
     let d := 2 ^ (- e) in
     let q := m / d in
     let r := m mod d in
     match 2 * r ?= d with
     | Lt => q
     | Gt => q + 1
     | Eq => if Z.even q then q else q + 1
     end)%Z.

(** [m * 2^e] rounded towards zero, for [0 <= m]. *)
Definition trunc_pos (m e : Z) : Z :=
  (if 0 <=? e then m * 2 ^ e else m / 2 ^ (- e))%Z.

End PyFloat.

(** ** Exceptions and fallible computations *)

Inductive exn_kind : Type :=
| AttributeError
| TypeError
| ValueError
| OverflowError
| OtherException.   (* any other subclass of Exception, raised by a library *)

(** A raised exception: its class and [str(e)]. *)
Record exn : Type := Exn { exn_class : exn_kind; exn_str : string }.

Inductive result (A : Type) : Type :=
| Ok (a : A)
| Raise (e : exn).
Arguments Ok {A} a.
Arguments Raise {A} e.

Definition bind {A B : Type} (m : result A) (k : A -> result B) : result B :=
  match m with
  | Ok a => k a
  | Raise e => Raise e
  end.

Notation "'do' x <- m ; k" := (bind m (fun x => k))
  (at level 10, x name, m at level 100, k at level 200, only parsing).
Notation "'do' ' p <- m ; k" := (bind m (fun x => let 'p := x in k))
  (at level 10, p pattern, m at level 100, k at level 200, only parsing).

(** [try: body  except Exception as e: handler e] *)
Definition try_except {A : Type} (body : result A) (handler : exn -> result A)
  : result A :=
  match body with
  | Ok a => Ok a
  | Raise e => handler e
  end.

(** [try: x = body  except Exception: x = fallback]; with [fallback] the
    value [x] had before, this is [try: x = body  except Exception: pass]. *)
Definition try_or {A : Type} (body : result A) (fallback : A) : A :=
  match body with
  | Ok a => a
  | Raise _ => fallback
  end.

(** ** Python values *)

#[warnings="-register-all"] Inductive pyval : Type :=
| PNone
| PBool (b : bool)
| PInt (z : Z)
| PFloat (f : spec_float)
| PStr (s : string)
| PList (l : list pyval).

Definition type_name (v : pyval) : string :=
  match v with
  | PNone => "NoneType"
  | PBool _ => "bool"
  | PInt _ => "int"
  | PFloat _ => "float"
  | PStr _ => "str"
  | PList _ => "list"
  end.

(** [bool(v)] *)
Definition truthy (v : pyval) : bool :=
  match v with
  | PNone => false
  | PBool b => b
  | PInt z => negb (z =? 0)%Z
  | PFloat f => PyFloat.nonzero f
  | PStr s => PyStr.nonempty s
  | PList l => match l with [] => false | _ => true end
  end.

(** [a or b] *)
Definition py_or (a b : pyval) : pyval := if truthy a then a else b.

(** A [dict] with string keys: a record, the [details] of a site check. *)
Abbreviation py_dict := (gmap string pyval).

(** [row.get(k)] is [None] when the key is absent. *)
Definition row_get (row : py_dict) (k : string) : pyval :=
  default PNone (row !! k).

Definition no_attribute (v : pyval) (attr : string) : exn :=
  Exn AttributeError
      ("'" ++ type_name v ++ "' object has no attribute '" ++ attr ++ "'").

(** [v.lower()] and [v.strip()]: only a [str] has these methods. *)
Definition str_lower (v : pyval) : result string :=
  match v with
  | PStr s => Ok (PyStr.lower s)
  | _ => Raise (no_attribute v "lower")
  end.

Definition str_strip (v : pyval) : result string :=
  match v with
  | PStr s => Ok (PyStr.strip s)
  | _ => Raise (no_attribute v "strip")
  end.

(** The exact value of a number; [bool] is a subclass of [int]. *)
Definition num_x (v : pyval) : option PyFloat.xnum :=
  match v with
  | PBool b => Some (PyFloat.XFin (if b then 1 else 0) 0)
  | PInt z => Some (PyFloat.XFin z 0)
  | PFloat f => Some (PyFloat.to_x f)
  | _ => None
  end.

(** [v >= c] for a numeric literal [c]: numbers are compared by value, any
    other left operand is a [TypeError]. *)
Definition ge_literal (v c : pyval) : result bool :=
  match num_x v, num_x c with
  | Some a, Some b => Ok (PyFloat.xge a b)
  | _, _ =>
      Raise (Exn TypeError
               ("'>=' not supported between instances of '" ++ type_name v
                ++ "' and '" ++ type_name c ++ "'"))
  end.

(** Conversion of an [int] to [float], as in [float(n)] and in mixed
    arithmetic: an [OverflowError] beyond the range of binary64. *)
Definition int_to_float (z : Z) : result spec_float :=
  match PyFloat.of_Z z with
  | S754_infinity _ => Raise (Exn OverflowError "int too large to convert to float")
  | f => Ok f
  end.

(** [round(f)] of a float, an [int]. *)
Definition py_round (f : spec_float) : result Z :=
  match f with
  | S754_zero _ => Ok 0%Z
  | S754_finite s m e => Ok (PyFloat.round_half_even (cond_Zopp s (Zpos m)) e)
  | S754_nan => Raise (Exn ValueError "cannot convert float NaN to integer")
  | S754_infinity _ => Raise (Exn OverflowError "cannot convert float infinity to integer")
  end.

(** [int(f)] of a float: towards zero. *)
Definition float_to_int (f : spec_float) : result Z :=
  match f with
  | S754_zero _ => Ok 0%Z
  | S754_finite s m e => Ok (cond_Zopp s (PyFloat.trunc_pos (Zpos m) e))
  | S754_nan => Raise (Exn ValueError "cannot convert float NaN to integer")
  | S754_infinity _ => Raise (Exn OverflowError "cannot convert float infinity to integer")
  end.

(** ** The environment *)

(** The part of [urlparse]'s result the program reads. *)
Record url_parts : Type :=
  { url_scheme : string; url_netloc : string; url_path : string }.

(** The part of a [requests] response the program reads. *)
Record response : Type := { resp_status_code : Z; resp_text : string }.

(** A parsed page: [soup_find_meta n] tells whether
    [soup.find("meta", attrs={"name": n})] finds a tag, [soup_anchor_hrefs]
    lists [a["href"]] over [soup.find_all("a", href=True)]. *)
Record soup : Type :=
  { soup_find_meta : string -> bool; soup_anchor_hrefs : list string }.

Record Env : Type :=
  { WEBCHECK_AVAILABLE : bool;                      (* _WEBCHECK_AVAILABLE *)
    float_of_str : string -> result spec_float;     (* float(s) for a str *)
    int_of_str : string -> result Z;                (* int(s) for a str *)
    urlparse : string -> result url_parts;
    requests_get : string -> Z -> result response;  (* url, timeout *)
    BeautifulSoup : string -> result soup }.

(** [float(v)] *)
Definition py_float (env : Env) (v : pyval) : result spec_float :=
  match v with
  | PBool b => Ok (PyFloat.of_Z (if b then 1 else 0))
  | PInt z => int_to_float z
  | PFloat f => Ok f
  | PStr s => float_of_str env s
  | _ =>
      Raise (Exn TypeError
               ("float() argument must be a string or a real number, not '"
                ++ type_name v ++ "'"))
  end.

(** [int(v)] *)
Definition py_int (env : Env) (v : pyval) : result Z :=
  match v with
  | PBool b => Ok (if b then 1 else 0)%Z
  | PInt z => Ok z
  | PFloat f => float_to_int f
  | PStr s => int_of_str env s
  | _ =>
      Raise (Exn TypeError
               ("int() argument must be a string, a bytes-like object or a real number, not '"
                ++ type_name v ++ "'"))
  end.

(** ** run.py *)

Definition BRAND_KEYWORDS : list string :=
  [ "kajaria"; "somany"; "nitco"; "varmora";
    "orientbell"; "experience centre"; "boutique"; "infinity" ].


(** [quick_site_check(url, timeout)].  [min(score, 20)] is taken on integers,
    where [round] and [int] change nothing. *)
Definition quick_site_check (env : Env) (url : string) (timeout : Z)
  : result (Z * py_dict) :=
  let details : py_dict := ∅ in
  if negb (WEBCHECK_AVAILABLE env) || negb (PyStr.nonempty url) then
    Ok (0%Z, details)
  else
    try_except
      (do parsed <- urlparse env url;
       let score := 0%Z in
       let score :=
         if String.eqb (url_scheme parsed) "https" then (score + 4)%Z else score in
       do resp <- requests_get env url timeout;
       if negb (resp_status_code resp =? 200)%Z then
         Ok (0%Z, {[ "http_status" := PInt (resp_status_code resp) ]})
       else
         let html := resp_text resp in
         do soup <- BeautifulSoup env html;
         let score :=
           if soup_find_meta soup "viewport" then (score + 4)%Z else score in
         let score :=
           if soup_find_meta soup "description" then (score + 3)%Z else score in
         (* contact link *)
         let contact :=
           existsb
             (fun a_href =>
                let href := PyStr.lower a_href in
                PyStr.contains "mailto:" href || PyStr.contains "contact" href)
             (soup_anchor_hrefs soup) in
         let score := if contact then (score + 4)%Z else score in
         (* analytics *)
         let score :=
           if PyStr.contains "gtag(" html || PyStr.contains "analytics.js" html
              || PyStr.contains "ga('" html || PyStr.contains "google-analytics" html
           then (score + 5)%Z else score in
         let details : py_dict := {[ "site_score" := PInt score ]} in
         Ok (Z.min score 20, details))
      (fun e => Ok (0%Z, {[ "error" := PStr (exn_str e) ]})).

(** The loop over [BRAND_KEYWORDS]: the first keyword found in the name or
    in the website ends the scoring. *)
Fixpoint brand_loop (brands : list string) (name website : string)
  : option (Z * string) :=
  match brands with
  | [] => None
  | brand :: rest =>
      if PyStr.contains brand name then
        Some (0%Z, "DISQUALIFIED – Brand Showroom (name match)")
      else if PyStr.nonempty website && PyStr.contains brand (PyStr.lower website) then
        Some (0%Z, "DISQUALIFIED – Brand Showroom (website match)")
      else brand_loop rest name website
  end.

(** [(not has_website) and rating >= 4.2 and reviews >= 50], evaluated
    left to right and only as far as needed. *)
Definition strong_offline (has_website : bool) (rating reviews : pyval)
  : result bool :=
  if negb has_website then
    do r <- ge_literal rating (PFloat PyFloat.f4_2);
    if r then ge_literal reviews (PInt 50) else Ok false
  else Ok false.

(** Lines 70 to 75 of [_compute_lead_score]: the site check, run with the
    default timeout of 5 seconds when there is a website and the web checks
    are available; any exception leaves [site_score] at 0. *)
Definition site_score_of (env : Env) (website : string) : Z :=
  try_or
    (if PyStr.nonempty website && WEBCHECK_AVAILABLE env then
       do '(site_score, _) <- quick_site_check env website 5;
       Ok site_score
     else Ok 0%Z)
    0%Z.

(** Lines 63 to 108 of [_compute_lead_score]: the accumulation of the
    signals into the floating-point [score]. *)
Definition signals_total (env : Env) (has_website : bool) (website : string)
    (rating reviews : pyval) (phone : string) (photos : pyval) (category : string)
  : spec_float :=
  let score := PyFloat.f0 in
  (* Baseline: having a website *)
  let score :=
    if has_website then
      let score := PyFloat.add score (PyFloat.of_Z 10) in
      let site_score := site_score_of env website in
      PyFloat.add score (PyFloat.of_Z (Z.min site_score 20))
    else score in
  (* Rating *)
  let score :=
    try_or
      (do x <- py_float env rating;
       Ok (PyFloat.add score (PyFloat.mul (PyFloat.div x PyFloat.f5) (PyFloat.of_Z 20))))
      score in
  (* Reviews *)
  let score :=
    try_or
      (do reviews_val <- py_float env reviews;
       let reviews_score :=
         PyFloat.py_min (PyFloat.mul (PyFloat.div reviews_val PyFloat.f100) PyFloat.f20)
                        PyFloat.f20 in
       Ok (PyFloat.add score reviews_score))
      score in
  (* Phone *)
  let score :=
    if PyStr.nonempty phone then PyFloat.add score (PyFloat.of_Z 10) else score in
  (* Photos *)
  let score :=
    try_or
      (do photos_val <- py_int env photos;
       do photos_float <- int_to_float photos_val;
       let photos_score :=
         PyFloat.py_min (PyFloat.mul (PyFloat.div photos_float PyFloat.f10) PyFloat.f10)
                        PyFloat.f10 in
       Ok (PyFloat.add score photos_score))
      score in
  (* Category relevance *)
  if existsb (fun k => PyStr.contains k category) ["tile"; "tiles"; "ceramic"]
  then PyFloat.add score (PyFloat.of_Z 10) else score.

(** Lines 110 to 113: [max(0.0, min(score, 100.0))], then
    [int(round(score))]. *)
Definition clamp (score : spec_float) : spec_float :=
  PyFloat.py_max PyFloat.f0 (PyFloat.py_min score PyFloat.f100).

Definition score_signals (env : Env) (has_website : bool) (website : string)
    (rating reviews : pyval) (phone : string) (photos : pyval) (category : string)
  : result (Z * string) :=
  let score :=
    signals_total env has_website website rating reviews phone photos category in
  let score := clamp score in
  do rounded <- py_round score;
  Ok (rounded, "Score computed from maps signals").

Definition _compute_lead_score (env : Env) (row : py_dict)
  : result (Z * string) :=
  do name <- str_lower (py_or (row_get row "business_name") (PStr ""));
  let rating := py_or (row_get row "rating") (PInt 0) in
  let reviews := py_or (row_get row "reviews") (PInt 0) in
  let has_website := truthy (row_get row "has_website") in
  do website <- str_strip (py_or (row_get row "website") (PStr ""));
  do phone <-
    str_strip (py_or (py_or (row_get row "phone") (row_get row "phone_number")) (PStr ""));
  let photos := py_or (py_or (row_get row "photos") (row_get row "photo_count")) (PInt 0) in
  do category <- str_lower (py_or (row_get row "category") (PStr ""));
  (* Disqualify known brand showrooms *)
  match brand_loop BRAND_KEYWORDS name website with
  | Some disqualified => Ok disqualified
  | None =>
      (* Strong offline presence disqualification *)
      do offline <- strong_offline has_website rating reviews;
      if offline then Ok (0%Z, "DISQUALIFIED – Strong Offline Presence")
      else score_signals env has_website website rating reviews phone photos category
  end.

(** [classify_lead(row)]: (lead_type, classification_reason, lead_score). *)
Definition classify_lead (env : Env) (row : py_dict)
  : result (string * string * Z) :=
  do '(score, reason) <- _compute_lead_score env row;
  if (score =? 0)%Z && PyStr.startswith "DISQUALIFIED" reason then
    Ok (reason, reason, score)
  else if (70 <=? score)%Z then
    Ok ("PURSUE – High Priority",
        "High opportunity (score=" ++ pretty score ++ "). " ++ reason, score)
  else if (40 <=? score)%Z then
    Ok ("POTENTIAL – Medium Priority",
        "Medium opportunity (score=" ++ pretty score ++ "). " ++ reason, score)
  else
    Ok ("LOW – Low Priority",
        "Low opportunity (score=" ++ pretty score ++ "). " ++ reason, score).

(** ** scraper/maps_scraper.py *)

Definition blacklist : list string :=
  [ "google.com"; "googleusercontent.com"; "gstatic.com"; "fonts.gstatic.com";
    "accounts.google.com"; "ggpht.com"; "googleapis.com"; "doubleclick.net";
    "g.co" ].

Definition asset_extensions : list string :=
  [ ".woff"; ".woff2"; ".ttf"; ".svg"; ".css"; ".js" ].

Definition _valid_website_href (env : Env) (href : string) : result bool :=
  if negb (PyStr.nonempty href) || negb (PyStr.startswith "http" href) then Ok false
  else
    match (do parsed <- urlparse env href; Ok (PyStr.lower (url_netloc parsed))) with
    | Raise _ => Ok false            (* except Exception: return False *)
    | Ok domain =>
        if existsb (fun b => PyStr.contains b domain) blacklist then Ok false
        else if existsb (fun ext => PyStr.endswith ext (PyStr.lower href)) asset_extensions
        then Ok false
        else Ok true
    end.

(** ** Concrete environments

    The theorems below hold for every environment.  To run the program on
    concrete records and links, this section gives [int] and [float] of a
    string after the grammar of CPython, [urllib.parse.urlparse] on links
    with a plain network location, and environments built from them with a
    fixed answer of the network. *)

Module Builtins.

Definition is_digit (c : ascii) : bool :=
  let n := N_of_ascii c in ((48 <=? n) && (n <=? 57))%N.

(** The text before and after the first occurrence of [c]. *)
Fixpoint split_at (c : ascii) (s : string) : string * option string :=
  match s with
  | EmptyString => (EmptyString, None)
  | String d s' =>
      if Ascii.eqb c d then (EmptyString, Some s')
      else let (a, b) := split_at c s' in (String d a, b)
  end.

(** The first of each run of ten decimal digits of the character
    database (the characters with a decimal value). *)
Definition decimal_starts : list N :=
  [ 48; 1632; 1776; 1984; 2406; 2534; 2662; 2790; 2918; 3046; 3174; 3302; 3430; 3558; 3664;
    3792; 3872; 4160; 4240; 6112; 6160; 6470; 6608; 6784; 6800; 6992; 7088; 7232; 7248; 42528;
    43216; 43264; 43472; 43504; 43600; 44016; 65296; 66720; 68912; 69734; 69872; 69942; 70096;
    70384; 70736; 70864; 71248; 71360; 71472; 71904; 72016; 72784; 73040; 73120; 92768; 92864;
    93008; 120782; 120792; 120802; 120812; 120822; 123200; 123632; 125264; 130032 ]%N.

Definition decimal_value (c : N) : option N :=
  match find (fun first => (first <=? c) && (c <=? first + 9))%N decimal_starts with
  | Some first => Some (c - first)%N
  | None => None
  end.

(** What [int] and [float] read of a string: the code points below 127 as
    they are, a space for any other white space, the ASCII digit for any
    other decimal digit; the text ends in a question mark at the first
    character that is none of these. *)
Fixpoint transform (l : list N) : list N :=
  match l with
  | [] => []
  | c :: rest =>
      if (c <? 127)%N then c :: transform rest
      else if PyStr.is_space c then 32%N :: transform rest
      else
        match decimal_value c with
        | Some d => (48 + d)%N :: transform rest
        | None => [63%N]
        end
  end.

(** The white space of C: space, tab, line feed, vertical tab, form feed
    and carriage return. *)
Definition c_space (c : N) : bool := ((c =? 32) || (9 <=? c) && (c <=? 13))%N.

Definition digit (c : N) : bool := ((48 <=? c) && (c <=? 57))%N.

Fixpoint drop_while (p : N -> bool) (l : list N) : list N :=
  match l with
  | [] => []
  | c :: rest => if p c then drop_while p rest else l
  end.

(** The longest prefix of digits, and what follows it. *)
Fixpoint span_digits (l : list N) : list N * list N :=
  match l with
  | [] => ([], [])
  | c :: rest =>
      if digit c then let (ds, after) := span_digits rest in (c :: ds, after)
      else ([], l)
  end.

Definition digits_value (ds : list N) : Z :=
  fold_left (fun acc c => 10 * acc + Z.of_N (c - 48))%Z ds 0%Z.

(** An optional sign in front of the rest. *)
Definition split_sign (l : list N) : bool * list N :=
  match l with
  | 45%N :: rest => (true, rest)
  | 43%N :: rest => (false, rest)
  | _ => (false, l)
  end.

(** Underscores are allowed between two digits only; the text without
    them. *)
Fixpoint without_underscores (prev : N) (l : list N) : option (list N) :=
  match l with
  | [] => if (prev =? 95)%N then None else Some []
  | c :: rest =>
      if (c =? 95)%N then
        if digit prev then without_underscores c rest else None
      else if (prev =? 95)%N && negb (digit c) then None
      else option_map (cons c) (without_underscores c rest)
  end.

(** [int(s)] for a string: an optional sign and decimal digits, single
    underscores between digits, white space around; at most 4300 digits.
    The message of the [ValueError] is given without the text. *)
Definition int_of_str (s : string) : result Z :=
  let bad := Raise (Exn ValueError "invalid literal for int() with base 10") in
  let (neg, body) := split_sign (drop_while c_space (transform (PyStr.decode s))) in
  match without_underscores 0%N (rev (drop_while c_space (rev body))) with
  | Some ds =>
      match ds with
      | [] => bad
      | _ =>
          if negb (forallb digit ds) then bad
          else if (4300 <? length ds)%nat then
            Raise (Exn ValueError
                     "Exceeds the limit (4300 digits) for integer string conversion")
          else Ok (cond_Zopp neg (digits_value ds))
      end
  | None => bad
  end.

Definition float_sign (neg : bool) (f : spec_float) : spec_float :=
  if neg then SFopp f else f.

(** The float nearest to [m * 10^e] for [0 < m], ties to even.  A
    quotient is cut below the last bit a float can hold, with one more bit
    that tells whether anything was cut off. *)
Definition decimal_float (m e : Z) : spec_float :=
  (if 309 <=? e then S754_infinity false
   else if Z.log2 m / 3 + 1 + e <=? -330 then S754_zero false
   else if 0 <=? e then PyFloat.of_Z (m * 10 ^ e)
   else
     let d := 10 ^ (- e) in
     let s := 1081 + Z.log2 d in
     let n := m * 2 ^ s in
     let sticky := if n mod d =? 0 then 0 else 1 in
     binary_normalize PyFloat.prec PyFloat.emax (2 * (n / d) + sticky) (- s - 1) false)%Z.

Definition lower_ascii (c : N) : N :=
  if ((65 <=? c) && (c <=? 90))%N then (c + 32)%N else c.

Definition is_word (word : string) (l : list N) : bool :=
  bool_decide (map lower_ascii l = map N_of_ascii (list_ascii_of_string word)).

(** The exponent that may follow the digits: [e] or [E], an optional
    sign, digits; nothing may follow. *)
Definition exponent (l : list N) : option Z :=
  match l with
  | [] => Some 0%Z
  | c :: rest =>
      if ((c =? 101) || (c =? 69))%N then
        let (neg, rest) := split_sign rest in
        match span_digits rest with
        | (d :: ds, []) => Some (cond_Zopp neg (digits_value (d :: ds)))
        | _ => None
        end
      else None
  end.

(** [float(s)] for a string: white space around, an optional sign, then
    [inf], [infinity] or [nan] in any case, or digits with an optional
    point and exponent, single underscores between digits; the value is
    rounded correctly.  The message of the [ValueError] is given without
    the text. *)
Definition float_of_str (s : string) : result spec_float :=
  let bad := Raise (Exn ValueError "could not convert string to float") in
  let text := drop_while c_space (transform (PyStr.decode s)) in
  match without_underscores 0%N (rev (drop_while c_space (rev text))) with
  | None => bad
  | Some text =>
      let (neg, body) := split_sign text in
      if is_word "inf" body || is_word "infinity" body then Ok (S754_infinity neg)
      else if is_word "nan" body then Ok S754_nan
      else
        let (int_part, rest) := span_digits body in
        let (frac_part, rest) :=
          match rest with
          | 46%N :: rest => span_digits rest
          | _ => ([], rest)
          end in
        match int_part, frac_part with
        | [], [] => bad
        | _, _ =>
            match exponent rest with
            | None => bad
            | Some e =>
                let m := digits_value (int_part ++ frac_part) in
                if (m =? 0)%Z then Ok (S754_zero neg)
                else Ok (float_sign neg (decimal_float m (e - Z.of_nat (length frac_part))))
            end
        end
  end.

End Builtins.

Module Urllib.

Definition is_alpha (c : ascii) : bool :=
  let n := N_of_ascii c in
  ((65 <=? n) && (n <=? 90) || (97 <=? n) && (n <=? 122))%N.

(** [scheme_chars]: letters, digits, [+], [-] and [.]. *)
Definition scheme_char (c : ascii) : bool :=
  is_alpha c || Builtins.is_digit c
  || Ascii.eqb c "+" || Ascii.eqb c "-" || Ascii.eqb c ".".

Fixpoint all_chars (p : ascii -> bool) (s : string) : bool :=
  match s with
  | EmptyString => true
  | String c s' => p c && all_chars p s'
  end.

Fixpoint has_char (c : ascii) (s : string) : bool :=
  match s with
  | EmptyString => false
  | String d s' => Ascii.eqb c d || has_char c s'
  end.

(** The text up to the first of [/], [?] and [#], and the rest. *)
Fixpoint splitnetloc (s : string) : string * string :=
  match s with
  | EmptyString => (EmptyString, EmptyString)
  | String c s' =>
      if Ascii.eqb c "/" || Ascii.eqb c "?" || Ascii.eqb c "#" then (EmptyString, s)
      else let (a, b) := splitnetloc s' in (String c a, b)
  end.

(** The control characters and the space that [urlsplit] strips from the
    left, the tab, carriage return and line feed that it removes
    everywhere. *)
Fixpoint lstrip_control (s : string) : string :=
  match s with
  | EmptyString => EmptyString
  | String c s' => if (N_of_ascii c <=? 32)%N then lstrip_control s' else s
  end.

Fixpoint remove_unsafe (s : string) : string :=
  match s with
  | EmptyString => EmptyString
  | String c s' =>
      let n := N_of_ascii c in
      if ((n =? 9) || (n =? 10) || (n =? 13))%N then remove_unsafe s'
      else String c (remove_unsafe s')
  end.

(** [uses_params] *)
Definition uses_params : list string :=
  [ ""; "ftp"; "hdl"; "prospero"; "http"; "imap"; "https"; "shttp"; "rtsp"; "rtspu";
    "sip"; "sips"; "mms"; "sftp"; "tel" ].

(** The path without the parameters of its last segment: the text up to
    the first [;] after the last [/]. *)
Fixpoint last_segment_from (s : string) : string * string :=
  match s with
  | EmptyString => (EmptyString, EmptyString)
  | String c s' =>
      if has_char "/" s' then
        let (before, segment) := last_segment_from s' in (String c before, segment)
      else if Ascii.eqb c "/" then (String c EmptyString, s')
      else (EmptyString, s)
  end.

Definition without_params (path : string) : string :=
  let (before, segment) := last_segment_from path in
  before ++ fst (Builtins.split_at ";" segment).

(** [urlparse(url)] after CPython's [urlsplit] and [urlparse]: control
    characters and unsafe bytes removed, the scheme up to the first colon
    when it is made of scheme characters, the network location after [//],
    then fragment, query and parameters cut off the path.  The second
    component is the query.  Two checks of the network location are left
    out, the address between brackets and the normal form of characters
    beyond ASCII: the model is exact on links whose network location is
    ASCII without a pair of brackets. *)
Definition urlsplit (url : string) : result (url_parts * string) :=
  let url := remove_unsafe (lstrip_control url) in
  let (scheme, rest) :=
    match Builtins.split_at ":" url with
    | (String c0 pre, Some post) =>
        if is_alpha c0 && all_chars scheme_char (String c0 pre)
        then (PyStr.lower (String c0 pre), post)
        else (EmptyString, url)
    | _ => (EmptyString, url)
    end in
  let (netloc, rest) :=
    match rest with
    | String "/" (String "/" after) => splitnetloc after
    | _ => (EmptyString, rest)
    end in
  if xorb (has_char "[" netloc) (has_char "]" netloc) then
    Raise (Exn ValueError "Invalid IPv6 URL")
  else
    let rest := fst (Builtins.split_at "#" rest) in
    let (path, query) := Builtins.split_at "?" rest in
    let path :=
      if existsb (String.eqb scheme) uses_params then without_params path else path in
    Ok ({| url_scheme := scheme; url_netloc := netloc; url_path := path |},
        default EmptyString query).

Definition urlparse (url : string) : result url_parts :=
  do '(parts, _) <- urlsplit url; Ok parts.

End Urllib.

(** A network that answers every request the same way. *)
Definition fixed_env (available : bool) (answer : result response)
    (page : result soup) : Env :=
  {| WEBCHECK_AVAILABLE := available;
     float_of_str := Builtins.float_of_str;
     int_of_str := Builtins.int_of_str;
     urlparse := Urllib.urlparse;
     requests_get := fun _ _ => answer;
     BeautifulSoup := fun _ => page |}.

(** No web checks: [requests] or [bs4] could not be imported. *)
Definition offline_env : Env :=
  fixed_env false
    (Raise (Exn OtherException "requests is not available"))
    (Raise (Exn OtherException "bs4 is not available")).

(** A page with the five signals of the site check. *)
Definition full_page : soup :=
  {| soup_find_meta := fun n => String.eqb n "viewport" || String.eqb n "description";
     soup_anchor_hrefs := ["/about"; "/Contact-Us"] |}.

Definition full_page_env : Env :=
  fixed_env true
    (Ok {| resp_status_code := 200; resp_text := "<script>gtag('js')</script>" |})
    (Ok full_page).

(** A page with every signal but the analytics snippet: over HTTPS the site
    check gives 15, the value the test suite stubs. *)
Definition plain_page_env : Env :=
  fixed_env true
    (Ok {| resp_status_code := 200; resp_text := "<html><body>Tiles</body></html>" |})
    (Ok full_page).

(** A server that answers 404, and a connection that times out. *)
Definition not_found_env : Env :=
  fixed_env true (Ok {| resp_status_code := 404; resp_text := "" |}) (Ok full_page).

Definition timeout_env : Env :=
  fixed_env true (Raise (Exn OtherException "Read timed out.")) (Ok full_page).

(** ** run.py: the domain helper and the job queue of [main] *)

(** [_extract_domain(url)] *)
Definition _extract_domain (env : Env) (url : string) : string :=
  try_or (do parsed <- urlparse env url; Ok (PyStr.lower (url_netloc parsed))) "".

(** The characters of a string: a byte from 128 to 191 continues the
    character of the byte before it. *)
Definition is_continuation (c : ascii) : bool :=
  let n := N_of_ascii c in ((128 <=? n) && (n <=? 191))%N.

Fixpoint utf8_chars (s : string) : list string :=
  match s with
  | EmptyString => []
  | String c s' =>
      match s' with
      | String d _ =>
          if is_continuation d then
            match utf8_chars s' with
            | first :: rest => String c first :: rest
            | [] => [String c EmptyString]
            end
          else String c EmptyString :: utf8_chars s'
      | EmptyString => [String c EmptyString]
      end
  end.

(** [for x in v]: a list gives its elements, a string its characters, any
    other value modelled here is not iterable. *)
Definition py_iter (v : pyval) : result (list pyval) :=
  match v with
  | PList l => Ok l
  | PStr s => Ok (map PStr (utf8_chars s))
  | _ => Raise (Exn TypeError ("'" ++ type_name v ++ "' object is not iterable"))
  end.

(** [str(v)], as an f-string formats a value.  The text of a float and of a
    list is the interpreter's, the parameter [repr]. *)
Definition py_str (repr : pyval -> string) (v : pyval) : string :=
  match v with
  | PStr s => s
  | PInt z => pretty z
  | PBool true => "True"
  | PBool false => "False"
  | PNone => "None"
  | _ => repr v
  end.

(** [a + b] for a string [b]: only a string can be the left operand. *)
Definition py_concat (a : pyval) (b : string) : result pyval :=
  match a with
  | PStr s => Ok (PStr (s ++ b))
  | _ =>
      Raise (Exn TypeError
               ("unsupported operand type(s) for +: '" ++ type_name a ++ "' and 'str'"))
  end.

(** A loop that appends to [expanded]: the jobs of each round in order, up to
    the first exception. *)
Fixpoint for_each {A B : Type} (body : A -> result (list B)) (l : list A)
  : result (list B) :=
  match l with
  | [] => Ok []
  | a :: rest =>
      do first <- body a;
      do others <- for_each body rest;
      Ok (first ++ others)%list
  end.

(** The body of the loop of [expand_jobs]: the jobs one raw job expands
    to.  [dict(job)] followed by [pop] and item assignment is [delete] and
    insertion on a copy. *)
Definition expand_job (repr : pyval -> string) (job : py_dict) : result (list py_dict) :=
  let cats := py_or (row_get job "categories") (row_get job "category_list") in
  let cities := py_or (row_get job "cities") (row_get job "city_list") in
  if truthy cats && truthy cities then
    (* both lists provided -> cartesian product (category x city) *)
    do cat_list <- py_iter cats;
    for_each
      (fun cat =>
         do city_list <- py_iter cities;
         Ok (map
               (fun city =>
                  let new : py_dict :=
                    delete "city_list"
                      (delete "cities" (delete "category_list" (delete "categories" job))) in
                  <[ "city" := city ]> (<[ "query" := cat ]> new))
               city_list))
      cat_list
  else if truthy cats then
    (* multi-category, single city *)
    let city := py_or (row_get job "city") (row_get job "city_name") in
    if truthy city then
      do cat_list <- py_iter cats;
      Ok (map
            (fun cat =>
               let new : py_dict := delete "category_list" (delete "categories" job) in
               <[ "city" := city ]> (<[ "query" := cat ]> new))
            cat_list)
    else
      (* no city provided: each category is a search string of its own *)
      do cat_list <- py_iter cats;
      Ok (map
            (fun cat =>
               let new : py_dict := delete "category_list" (delete "categories" job) in
               <[ "search" := cat ]> new)
            cat_list)
  else if truthy cities then
    (* multi-city, same category/query *)
    let q := py_or (py_or (row_get job "query") (row_get job "category"))
                   (row_get job "search") in
    if truthy q then
      do city_list <- py_iter cities;
      Ok (map
            (fun city =>
               let new : py_dict := delete "city_list" (delete "cities" job) in
               <[ "city" := city ]> (<[ "query" := q ]> new))
            city_list)
    else
      do city_list <- py_iter cities;
      for_each
        (fun city =>
           let new : py_dict := delete "city_list" (delete "cities" job) in
           do search <-
             py_concat (py_or (row_get job "search") (PStr "")) (" in " ++ py_str repr city);
           Ok [ <[ "search" := search ]> new ])
        city_list
  else
    (* default: pass-through *)
    Ok [job].

(** [expand_jobs(raw_jobs)] *)
Definition expand_jobs (repr : pyval -> string) (raw_jobs : list py_dict)
  : result (list py_dict) :=
  for_each (expand_job repr) raw_jobs.

(** The search string [main] runs for a job (lines 339 to 345). *)
Definition search_query_of (repr : pyval -> string) (job : py_dict) : pyval :=
  if truthy (row_get job "search") then row_get job "search"
  else
    let q := py_or (py_or (row_get job "query") (row_get job "q")) (PStr "tiles shop") in
    let c := py_or (row_get job "city") (PStr "jaipur") in
    if truthy c then PStr (py_str repr q ++ " in " ++ py_str repr c) else q.

(** [s.replace(a, b)] for single characters [a] and [b]. *)
Fixpoint replace_char (a b : ascii) (s : string) : string :=
  match s with
  | EmptyString => EmptyString
  | String c s' => String (if Ascii.eqb c a then b else c) (replace_char a b s')
  end.

(** The file name [main] generates for a job without output path (lines 355
    to 358); [ts] is the time stamp. *)
Definition generated_name (search_query : pyval) (ts : string) : result string :=
  match search_query with
  | PStr s =>
      let safe := replace_char "/" "_" (replace_char " " "_" s) in
      Ok ("leads_" ++ safe ++ "_" ++ ts ++ ".csv")
  | v => Raise (no_attribute v "replace")
  end.

(** ** scraper/maps_scraper.py: redirect links and the choice of the website *)

(** What [extract_website_from_google_redirect] needs beyond [Env]: the
    query component of [urlparse(href)], [parse_qs] and [unquote]. *)
Record LinkEnv : Type :=
  { link_env : Env;
    urlparse_query : string -> string;             (* urlparse(href).query *)
    parse_qs : string -> gmap string (list string);
    unquote : string -> string }.

(** [extract_website_from_google_redirect(href)]; the result [None] is
    Python's [None].  [urlparse] is called outside any [try]. *)
Definition extract_website_from_google_redirect (lenv : LinkEnv) (href : string)
  : result (option string) :=
  if negb (PyStr.nonempty href) then Ok None
  else
    do parsed <- urlparse (link_env lenv) href;
    if PyStr.contains "google.com" (url_netloc parsed)
       && PyStr.startswith "/url" (url_path parsed)
    then
      let qs := parse_qs lenv (urlparse_query lenv href) in
      match qs !! "q" with
      | Some (q0 :: _) => Ok (Some (unquote lenv q0))
      | _ => Ok (Some href)
      end
    else Ok (Some href).

(** Truth value of [website], which is [None] or a string. *)
Definition has_link (website : option string) : bool :=
  match website with
  | Some w => PyStr.nonempty w
  | None => false
  end.

(** The loop over the links of methods 2 and 3.  Each link answers
    [get_attribute('href')] with a string, with [None], or raises.  The
    result is the first candidate that is not empty and that
    [_valid_website_href] accepts; an exception ends the loop. *)
Fixpoint scan_links (lenv : LinkEnv) (links : list (result (option string)))
  : result (option string) :=
  match links with
  | [] => Ok None
  | link :: rest =>
      do href <- link;
      if has_link href then
        do candidate <- extract_website_from_google_redirect lenv (default "" href);
        do valid <-
          (if has_link candidate
           then _valid_website_href (link_env lenv) (default "" candidate)
           else Ok false);
        if valid then Ok candidate else scan_links lenv rest
      else scan_links lenv rest
  end.

(** The loop over the buttons of method 2: a button answers with the links
    next to it, or raises. *)
Fixpoint scan_buttons (lenv : LinkEnv)
    (buttons : list (result (list (result (option string)))))
  : result (option string) :=
  match buttons with
  | [] => Ok None
  | button :: rest =>
      do links <- button;
      do found <- scan_links lenv links;
      if has_link found then Ok found else scan_buttons lenv rest
  end.

(** What the page answers while a card is open. *)
Inductive authority : Type :=
| AuthorityMissing                       (* NoSuchElementException *)
| AuthorityFailed (e : exn)              (* any other exception *)
| AuthorityHref (href : option string).  (* get_attribute('href') *)

Record card_page : Type :=
  { page_opened : result unit;           (* scrolling to the card and the click *)
    page_authority : authority;          (* method 1 *)
    page_buttons : result (list (result (list (result (option string)))));  (* method 2 *)
    page_main_links : result (list (result (option string))) }.             (* method 3 *)

(** Method 1: the link of the authority button is stored as it comes out of
    the redirect; the result of [_valid_website_href] only decides whether
    a line is printed.  [Raise] is an exception that leaves the block of
    the detail panel. *)
Definition method_1 (lenv : LinkEnv) (a : authority) : result (option string) :=
  match a with
  | AuthorityMissing => Ok None
  | AuthorityFailed e => Raise e
  | AuthorityHref href =>
      if has_link href
      then extract_website_from_google_redirect lenv (default "" href)
      else Ok None
  end.

(** Methods 2 and 3 run only while there is no website, and keep [website]
    as it was when nothing is found or an exception is caught. *)
Definition method_2 (lenv : LinkEnv) (website : option string)
    (buttons : result (list (result (list (result (option string))))))
  : option string :=
  if has_link website then website
  else
    match (do bs <- buttons; scan_buttons lenv bs) with
    | Ok found => if has_link found then found else website
    | Raise _ => website
    end.

Definition method_3 (lenv : LinkEnv) (website : option string)
    (links : result (list (result (option string))))
  : option string :=
  if has_link website then website
  else
    match (do ls <- links; scan_links lenv ls) with
    | Ok found => if has_link found then found else website
    | Raise _ => website
    end.

(** The value of [website] when the record of a card is appended (lines 92
    to 163): an exception that leaves the block of the detail panel
    leaves [website] at [None]. *)
Definition select_website (lenv : LinkEnv) (page : card_page) : option string :=
  match page_opened page with
  | Raise _ => None
  | Ok _ =>
      match method_1 lenv (page_authority page) with
      | Raise _ => None
      | Ok website =>
          let website := method_2 lenv website (page_buttons page) in
          method_3 lenv website (page_main_links page)
      end
  end.

(** The record appended for a card (lines 190 to 199). *)
Definition option_val {A : Type} (f : A -> pyval) (o : option A) : pyval :=
  match o with
  | Some a => f a
  | None => PNone
  end.

Definition card_record (name category : string) (rating : option spec_float)
    (reviews : option Z) (has_website : bool) (website phone address : option string)
  : py_dict :=
  list_to_map
    [ ("business_name", PStr name); ("category", PStr category);
      ("rating", option_val PFloat rating); ("reviews", option_val PInt reviews);
      ("has_website", PBool has_website); ("website", option_val PStr website);
      ("phone", option_val PStr phone); ("address", option_val PStr address) ].

(** Executable stand-ins for the query functions of [urllib.parse], for
    running the link handling on concrete links. *)

Module UrllibQuery.

(** The query component of [urlparse(url)]. *)
Definition query (url : string) : string :=
  match Urllib.urlsplit url with
  | Ok (_, query) => query
  | Raise _ => EmptyString
  end.

Definition hex_value (c : ascii) : option N :=
  let n := N_of_ascii c in
  if ((48 <=? n) && (n <=? 57))%N then Some (n - 48)%N
  else if ((65 <=? n) && (n <=? 70))%N then Some (n - 55)%N
  else if ((97 <=? n) && (n <=? 102))%N then Some (n - 87)%N
  else None.

(** [unquote(s)]: each [%XX] with two hexadecimal digits is the byte of
    that value; the bytes are kept as they are (Python replaces byte
    sequences that are not UTF-8). *)
Fixpoint unquote (s : string) : string :=
  match s with
  | EmptyString => EmptyString
  | String c s' =>
      match c, s' with
      | "%"%char, String a (String b rest) =>
          match hex_value a, hex_value b with
          | Some x, Some y => String (ascii_of_N (16 * x + y)) (unquote rest)
          | _, _ => String c (unquote s')
          end
      | _, _ => String c (unquote s')
      end
  end.

(** The pieces of [s] between occurrences of [c]. *)
Fixpoint split_on (c : ascii) (s : string) : list string :=
  match s with
  | EmptyString => [EmptyString]
  | String d s' =>
      if Ascii.eqb c d then EmptyString :: split_on c s'
      else
        match split_on c s' with
        | first :: rest => String d first :: rest
        | [] => [String d EmptyString]
        end
  end.

Definition decode (s : string) : string := unquote (replace_char "+" " " s).

(** [parse_qs(query)] with its default arguments: fields are separated by
    [&], a field without [=] or with an empty value is dropped, names and
    values are decoded, the values of a name are listed in order. *)
Definition parse_qs (query : string) : gmap string (list string) :=
  fold_left
    (fun (qs : gmap string (list string)) field =>
       match Builtins.split_at "=" field with
       | (name, Some (String c value)) =>
           let name := decode name in
           <[ name := (default [] (qs !! name) ++ [decode (String c value)])%list ]> qs
       | _ => qs
       end)
    (split_on "&" query) ∅.

End UrllibQuery.

(** The link environment over [offline_env]. *)
Definition link_stand_in : LinkEnv :=
  {| link_env := offline_env;
     urlparse_query := UrllibQuery.query;
     parse_qs := UrllibQuery.parse_qs;
     unquote := UrllibQuery.unquote |}.

(** ** Names for the statements *)

(** The four reasons [_compute_lead_score] can return. *)
Definition name_match : string := "DISQUALIFIED – Brand Showroom (name match)".
Definition website_match : string := "DISQUALIFIED – Brand Showroom (website match)".
Definition offline_presence : string := "DISQUALIFIED – Strong Offline Presence".
Definition maps_signals : string := "Score computed from maps signals".

(** The accumulated total of a record whose text fields read [website],
    [phone] and [category]. *)
Definition total_of (env : Env) (row : py_dict) (website phone category : string)
  : spec_float :=
  signals_total env
    (truthy (row_get row "has_website")) website
    (py_or (row_get row "rating") (PInt 0))
    (py_or (row_get row "reviews") (PInt 0))
    phone
    (py_or (py_or (row_get row "photos") (row_get row "photo_count")) (PInt 0))
    category.

(** The three priority categories of [classify_lead]. *)
Definition high_priority : string := "PURSUE – High Priority".
Definition medium_priority : string := "POTENTIAL – Medium Priority".
Definition low_priority : string := "LOW – Low Priority".

(** The test of [classify_lead] on the scorer's result:
    [score == 0 and reason.startswith("DISQUALIFIED")]. *)
Definition is_disqualified (score : Z) (reason : string) : bool :=
  (score =? 0)%Z && PyStr.startswith "DISQUALIFIED" reason.

(** The text a field holds: the string itself, or the empty string when
    the field is missing or falsy ([None], [0], [False], an empty string);
    nothing when the field holds a truthy value that is not a string. *)
Definition field_text (v : pyval) : option string :=
  match py_or v (PStr "") with
  | PStr s => Some s
  | _ => None
  end.

(** The number a field holds: its exact value, or 0 when the field is
    missing or falsy; nothing when the field holds a truthy value that is
    not a number. *)
Definition field_number (v : pyval) : option PyFloat.xnum :=
  num_x (py_or v (PInt 0)).

(** The thresholds of the offline disqualifier, as exact values. *)
Definition x4_2 : PyFloat.xnum := PyFloat.to_x PyFloat.f4_2.
Definition x50 : PyFloat.xnum := PyFloat.XFin 50 0.

(** The five additive awards of the site check, as the specification
    lists them: HTTPS 4, viewport meta 4, meta description 3, contact
    affordance 4, analytics snippet 5. *)
Definition site_awards (https viewport description contact analytics : bool) : Z :=
  ((if https then 4 else 0) + (if viewport then 4 else 0)
   + (if description then 3 else 0) + (if contact then 4 else 0)
   + (if analytics then 5 else 0))%Z.

(** A contact affordance: an anchor whose lowercased target contains
    [mailto:] or [contact]. *)
Definition has_contact (page : soup) : bool :=
  existsb
    (fun a_href =>
       PyStr.contains "mailto:" (PyStr.lower a_href)
       || PyStr.contains "contact" (PyStr.lower a_href))
    (soup_anchor_hrefs page).

(** One of the analytics markers occurs in the page text. *)
Definition has_analytics (html : string) : bool :=
  PyStr.contains "gtag(" html || PyStr.contains "analytics.js" html
  || PyStr.contains "ga('" html || PyStr.contains "google-analytics" html.







(** The host of a network location: what follows the user information,
    up to the port, in lower case. *)
Fixpoint after_last (c : ascii) (s : string) : string :=
  match s with
  | EmptyString => EmptyString
  | String d s' => if Urllib.has_char c s' then after_last c s'
                   else if Ascii.eqb c d then s' else s
  end.

Definition host_of (netloc : string) : string :=
  PyStr.lower (fst (Builtins.split_at ":" (after_last "@" netloc))).

(** [isAcceptableWebsiteLink] as the specification words it: the link is
    not empty, begins with an HTTP(S) scheme, its host contains no entry of
    the denylist and its path ends with none of the asset extensions; a
    link that cannot be parsed is not acceptable. *)
Definition isAcceptableWebsiteLink_spec (env : Env) (href : string) : bool :=
  match urlparse env href with
  | Raise _ => false
  | Ok parsed =>
      PyStr.nonempty href
      && (String.eqb (url_scheme parsed) "http" || String.eqb (url_scheme parsed) "https")
      && negb (existsb (fun b => PyStr.contains b (host_of (url_netloc parsed))) blacklist)
      && negb (existsb (fun ext => PyStr.endswith ext (PyStr.lower (url_path parsed)))
                 asset_extensions)
  end.

(** The keys of a job that hold lists to expand. *)
Definition list_keys : list string :=
  [ "categories"; "category_list"; "cities"; "city_list" ].


(** The keys [_compute_lead_score] reads. *)
Definition record_keys : list string :=
  [ "business_name"; "rating"; "reviews"; "has_website"; "website";
    "phone"; "phone_number"; "photos"; "photo_count"; "category" ].

(** ** Sample records *)

(** Float literals used in the sample records. *)
Definition f4_0 : spec_float := Eval vm_compute in Prim2SF 4%float.              (* 4.0 *)
Definition f4_19 : spec_float :=
  Eval vm_compute in Prim2SF 0x1.0c28f5c28f5c3p+2%float.                         (* 4.19 *)
Definition f4_3 : spec_float :=
  Eval vm_compute in Prim2SF 0x1.1333333333333p+2%float.                         (* 4.3 *)
Definition f4_75 : spec_float := Eval vm_compute in Prim2SF 0x1.3p+2%float.      (* 4.75 *)

(** The records of [tests/test_classifier.py]. *)
Definition kajaria_row : py_dict :=
  list_to_map
    [ ("business_name", PStr "Kajaria Tiles Jaipur"); ("rating", PFloat f4_0);
      ("reviews", PInt 10); ("has_website", PBool false) ].

Definition local_store_row : py_dict :=
  list_to_map
    [ ("business_name", PStr "Some Local Store"); ("rating", PFloat f4_3);
      ("reviews", PInt 60); ("has_website", PBool false) ].

Definition local_tiles_row : py_dict :=
  list_to_map
    [ ("business_name", PStr "Local Tiles"); ("rating", PFloat f4_0);
      ("reviews", PInt 20); ("has_website", PBool true);
      ("website", PStr "https://example.com") ].


(** A local store at the thresholds of the offline disqualifier. *)
Definition offline_row (rating reviews : pyval) : py_dict :=
  list_to_map
    [ ("business_name", PStr "Some Local Store"); ("rating", rating);
      ("reviews", reviews); ("has_website", PBool false) ].

(** Records that score 70, 69, 40 and 39 when no site check runs. *)
Definition listing (rating : pyval) (reviews photos : Z) : py_dict :=
  list_to_map
    [ ("business_name", PStr "Corner Shop"); ("rating", rating);
      ("reviews", PInt reviews); ("has_website", PBool true);
      ("phone", PStr "0141 555 0100"); ("photos", PInt photos) ].

Definition row_70 : py_dict := listing (PInt 5) 100 10.
Definition row_69 : py_dict := listing (PFloat f4_75) 100 10.
Definition row_40 : py_dict := listing (PInt 5) 0 0.
Definition row_39 : py_dict := listing (PFloat f4_75) 0 0.


(** A rating that is not a number, on a record without and with a
    website. *)
Definition text_rating_row : py_dict :=
  list_to_map [ ("business_name", PStr "Corner Shop"); ("rating", PStr "n/a") ].

Definition text_rating_site_row : py_dict :=
  list_to_map
    [ ("business_name", PStr "Corner Shop"); ("rating", PStr "n/a");
      ("has_website", PBool true) ].




Definition blank_phone_row : py_dict :=
  list_to_map
    [ ("business_name", PStr "Corner Shop"); ("has_website", PBool true);
      ("phone", PStr " ") ].

(** Jobs of the queue. *)
Definition tiles_marble_job : py_dict :=
  list_to_map
    [ ("categories", PList [PStr "tiles shop"; PStr "marble dealer"]);
      ("cities", PList [PStr "jaipur"; PStr "delhi"]); ("scrolls", PInt 3) ].

Definition search_and_lists_job : py_dict :=
  list_to_map
    [ ("search", PStr "tiles shop in jaipur");
      ("categories", PList [PStr "tiles shop"; PStr "marble dealer"]);
      ("cities", PList [PStr "jaipur"; PStr "delhi"]) ].

Definition string_categories_job : py_dict :=
  list_to_map [ ("categories", PStr "tiles") ].

Definition number_categories_job : py_dict :=
  list_to_map [ ("categories", PInt 3); ("city", PStr "jaipur") ].

(** Links met on a detail panel. *)
Definition redirect_link : string :=
  "https://www.google.com/url?q=https%3A%2F%2Fshop.example%2Ftiles&sa=U".
Definition bare_redirect_link : string := "https://www.google.com/url?sa=U".
Definition maps_link : string := "https://maps.google.com/maps/place/corner-shop".
Definition broken_link : string := "http://[shop.example/".

(** A detail panel whose authority button leads to the map itself, with a
    proper link among the links of the main panel. *)
Definition maps_authority_page : card_page :=
  {| page_opened := Ok tt;
     page_authority := AuthorityHref (Some maps_link);
     page_buttons := Ok [];
     page_main_links := Ok [ Ok (Some "https://shop.example/") ] |}.

(** A detail panel without authority button: method 2 meets a stale button,
    method 3 finds the link behind a redirect. *)
Definition redirect_page : card_page :=
  {| page_opened := Ok tt;
     page_authority := AuthorityMissing;
     page_buttons := Ok [ Raise (Exn OtherException "stale element reference") ];
     page_main_links :=
       Ok [ Ok None; Ok (Some bare_redirect_link);
            Ok (Some "https://fonts.gstatic.com/s/roboto.woff2");
            Ok (Some redirect_link) ] |}.

(** A job without any key. *)
Definition empty_job : py_dict := ∅.

(** A stand-in for the interpreter's text of floats and lists. *)
Definition plain_repr (v : pyval) : string := "<" ++ type_name v ++ ">".

(** The first test record with the address the scraper adds. *)
Definition kajaria_address_row : py_dict :=
  <[ "address" := PStr "MI Road, Jaipur" ]> kajaria_row.

(** One shop as two listings spell it. *)
Definition spelled_row (name category : string) : py_dict :=
  list_to_map
    [ ("business_name", PStr name); ("category", PStr category);
      ("rating", PFloat f4_0); ("reviews", PInt 20); ("has_website", PBool true) ].

(** * Properties *)

(** ** Floats: comparison, clamp and rounding *)

Module PyFloatFacts.
Import PyFloat.

Lemma xlt_fin m1 e1 m2 e2 :
  xlt (XFin m1 e1) (XFin m2 e2)
  = (m1 * 2 ^ (e1 - Z.min e1 e2) <? m2 * 2 ^ (e2 - Z.min e1 e2))%Z.
Proof.
  unfold xlt, xcompare, Z.ltb.
  destruct (_ ?= _)%Z; reflexivity.
Qed.

Lemma xgt_fin m1 e1 m2 e2 :
  xgt (XFin m1 e1) (XFin m2 e2)
  = (m2 * 2 ^ (e2 - Z.min e1 e2) <? m1 * 2 ^ (e1 - Z.min e1 e2))%Z.
Proof.
  unfold xgt, xcompare. rewrite Z.ltb_antisym, Z.leb_compare.
  destruct (_ ?= _)%Z; reflexivity.
Qed.

Lemma xge_fin m1 e1 m2 e2 :
  xge (XFin m1 e1) (XFin m2 e2)
  = (m2 * 2 ^ (e2 - Z.min e1 e2) <=? m1 * 2 ^ (e1 - Z.min e1 e2))%Z.
Proof.
  unfold xge, xcompare. rewrite Z.leb_antisym, Z.ltb_compare.
  destruct (_ ?= _)%Z; reflexivity.
Qed.

(** Rounding a value between 0 and 100 gives an integer between 0 and
    100. *)
Lemma round_half_even_range m e :
  (0 <= m)%Z ->
  (0 <= e -> m * 2 ^ e <= 100)%Z ->
  (e < 0 -> m <= 100 * 2 ^ (- e))%Z ->
  (0 <= round_half_even m e <= 100)%Z.
Proof.
  intros Hm Hpos Hneg. unfold round_half_even.
  destruct (Z.leb_spec 0 e) as [He | He].
  - split; [ | auto ].
    apply Z.mul_nonneg_nonneg; [ lia | apply Z.pow_nonneg; lia ].
  - specialize (Hneg He). set (d := (2 ^ (- e))%Z) in *.
    assert (Hd : (0 < d)%Z) by (apply Z.pow_pos_nonneg; lia).
    pose proof (Z.div_mod m d ltac:(lia)) as Hdm.
    pose proof (Z.mod_pos_bound m d Hd) as Hr.
    assert (Hq0 : (0 <= m / d)%Z) by (apply Z.div_pos; lia).
    assert (Hq : (m / d <= 99 \/ m / d = 100)%Z).
    { assert (m / d <= 100)%Z by (apply Z.div_le_upper_bound; lia). lia. }
    destruct (2 * (m mod d) ?= d)%Z eqn:C.
    + apply Z.compare_eq in C.
      destruct (Z.even (m / d)); destruct Hq as [Hq | Hq]; try lia;
        rewrite Hq in Hdm; lia.
    + lia.
    + apply Z.compare_gt_iff in C.
      destruct Hq as [Hq | Hq]; [ lia | rewrite Hq in Hdm; lia ].
Qed.

(** A positive finite float that 100.0 is not below has a value of at
    most 100. *)
Lemma not_above_100 (m : positive) e :
  ltb f100 (S754_finite false m e) = false ->
  ((0 <= e -> Zpos m * 2 ^ e <= 100)
   /\ (e < 0 -> Zpos m <= 100 * 2 ^ (- e)))%Z.
Proof.
  unfold ltb.
  change (to_x f100) with (XFin (100 * 2 ^ 46) (-46)).
  cbn [to_x cond_Zopp]. rewrite xlt_fin.
  intros H. apply Z.ltb_ge in H.
  generalize dependent (Zpos m). clear m. intros m H.
  assert (P46 : (0 < 2 ^ 46)%Z) by (apply Z.pow_pos_nonneg; lia).
  destruct (Z.le_gt_cases (-46) e) as [He | He].
  - rewrite Z.min_l in H by lia.
    replace (-46 - -46)%Z with 0%Z in H by lia.
    rewrite Z.pow_0_r, Z.mul_1_r in H.
    split; intros He'.
    + replace (e - -46)%Z with (e + 46)%Z in H by lia.
      rewrite Z.pow_add_r in H by lia.
      assert (0 < 2 ^ e)%Z by (apply Z.pow_pos_nonneg; lia).
      nia.
    + assert (E : (2 ^ 46 = 2 ^ (e - -46) * 2 ^ (- e))%Z).
      { rewrite <- Z.pow_add_r by lia. f_equal. lia. }
      rewrite E in H.
      assert (0 < 2 ^ (e - -46))%Z by (apply Z.pow_pos_nonneg; lia).
      assert (0 < 2 ^ (- e))%Z by (apply Z.pow_pos_nonneg; lia).
      nia.
  - rewrite Z.min_r in H by lia.
    replace (e - e)%Z with 0%Z in H by lia.
    rewrite Z.pow_0_r, Z.mul_1_r in H.
    split; intros He'; [ lia | ].
    replace (- e)%Z with (46 + (-46 - e))%Z by lia.
    rewrite Z.pow_add_r by lia. lia.
Qed.

Lemma gtb_zero_finite s m e :
  gtb (S754_finite s m e) f0 = negb s.
Proof.
  unfold gtb. cbn [to_x f0]. rewrite xgt_fin.
  assert (0 < 2 ^ (e - Z.min e 0))%Z by (apply Z.pow_pos_nonneg; lia).
  destruct s; cbn [cond_Zopp negb].
  - apply Z.ltb_ge. rewrite Z.mul_0_l. nia.
  - apply Z.ltb_lt. rewrite Z.mul_0_l. nia.
Qed.

(** The number of bits of a mantissa. *)
Lemma digits2_pos_bounds (m : positive) :
  (2 ^ (Zpos (digits2_pos m) - 1) <= Zpos m < 2 ^ Zpos (digits2_pos m))%Z.
Proof.
  induction m as [ m IH | m IH | ]; cbn [digits2_pos].
  - rewrite !Pos2Z.inj_succ.
    replace (Z.succ (Zpos (digits2_pos m)) - 1)%Z with (Z.succ (Zpos (digits2_pos m) - 1)) by lia.
    rewrite !Z.pow_succ_r by lia. lia.
  - rewrite !Pos2Z.inj_succ.
    replace (Z.succ (Zpos (digits2_pos m)) - 1)%Z with (Z.succ (Zpos (digits2_pos m) - 1)) by lia.
    rewrite !Z.pow_succ_r by lia. lia.
  - cbn. lia.
Qed.

(** A valid binary64 mantissa has at most 53 bits, and exactly 53 unless the
    exponent is the least one. *)
Lemma bounded_inv m e :
  bounded prec emax m e = true ->
  (-1074 <= e)%Z /\ (Zpos m < 2 ^ 53)%Z /\ (e = (-1074)%Z \/ (2 ^ 52 <= Zpos m)%Z).
Proof.
  unfold bounded, canonical_mantissa, fexp, SpecFloat.emin, prec, emax.
  intros H. apply andb_true_iff in H as [ H _ ]. apply Z.eqb_eq in H.
  pose proof (digits2_pos_bounds m) as [ Hlo Hhi ].
  assert (Hd : (Zpos (digits2_pos m) <= 53)%Z) by lia.
  split; [ lia | ]. split.
  - eapply Z.lt_le_trans; [ exact Hhi | ]. apply Z.pow_le_mono_r; lia.
  - destruct (Z.eq_dec e (-1074)%Z) as [ He | He ]; [ now left | right ].
    assert (Zpos (digits2_pos m) = 53)%Z as Hd53 by lia.
    rewrite Hd53 in Hlo. exact Hlo.
Qed.

(** Valid floats of one sign are ordered by exponent, then by mantissa. *)
Lemma compare_pos_agrees m1 e1 m2 e2 :
  bounded prec emax m1 e1 = true ->
  bounded prec emax m2 e2 = true ->
  (Zpos m1 * 2 ^ (e1 - Z.min e1 e2) ?= Zpos m2 * 2 ^ (e2 - Z.min e1 e2))%Z
  = match (e1 ?= e2)%Z with
    | Lt => Lt
    | Gt => Gt
    | Eq => Pos.compare_cont Eq m1 m2
    end.
Proof.
  intros H1 H2.
  apply bounded_inv in H1 as (Hmin1 & Hhi1 & Hlo1).
  apply bounded_inv in H2 as (Hmin2 & Hhi2 & Hlo2).
  destruct (Z.compare_spec e1 e2) as [ -> | Hlt | Hgt ].
  - rewrite Z.min_id, Z.sub_diag, Z.pow_0_r, !Z.mul_1_r. reflexivity.
  - rewrite Z.min_l by lia. rewrite Z.sub_diag, Z.pow_0_r, Z.mul_1_r.
    apply Z.compare_lt_iff.
    destruct Hlo2 as [ -> | Hlo2 ]; [ lia | ].
    assert (2 ^ 1 <= 2 ^ (e2 - e1))%Z by (apply Z.pow_le_mono_r; lia).
    change (2 ^ 1)%Z with 2%Z in *. change (2 ^ 53)%Z with (2 ^ 52 * 2)%Z in Hhi1.
    nia.
  - rewrite Z.min_r by lia. rewrite Z.sub_diag, Z.pow_0_r, Z.mul_1_r.
    apply Z.compare_gt_iff.
    destruct Hlo1 as [ -> | Hlo1 ]; [ lia | ].
    assert (2 ^ 1 <= 2 ^ (e1 - e2))%Z by (apply Z.pow_le_mono_r; lia).
    change (2 ^ 1)%Z with 2%Z in *. change (2 ^ 53)%Z with (2 ^ 52 * 2)%Z in Hhi2.
    nia.
Qed.

(** On valid binary64 values the comparison by exact value is the
    comparison of the standard library. *)
Lemma compare_agrees f g :
  valid_binary prec emax f = true ->
  valid_binary prec emax g = true ->
  xcompare (to_x f) (to_x g) = SFcompare f g.
Proof.
  destruct f as [ s1 | s1 | | s1 m1 e1 ], g as [ s2 | s2 | | s2 m2 e2 ];
    cbn [valid_binary to_x xcompare SFcompare]; intros H1 H2; try reflexivity;
    try (destruct s1, s2; reflexivity).
  - f_equal. rewrite Z.mul_0_l.
    assert (0 < 2 ^ (e2 - Z.min 0 e2))%Z by (apply Z.pow_pos_nonneg; lia).
    destruct s2; cbn [cond_Zopp]; [ apply Z.compare_gt_iff | apply Z.compare_lt_iff ]; nia.
  - f_equal. rewrite Z.mul_0_l.
    assert (0 < 2 ^ (e1 - Z.min e1 0))%Z by (apply Z.pow_pos_nonneg; lia).
    destruct s1; cbn [cond_Zopp]; [ apply Z.compare_lt_iff | apply Z.compare_gt_iff ]; nia.
  - f_equal.
    pose proof (compare_pos_agrees m1 e1 m2 e2 H1 H2) as Hpos.
    assert (0 < 2 ^ (e1 - Z.min e1 e2))%Z by (apply Z.pow_pos_nonneg; lia).
    assert (0 < 2 ^ (e2 - Z.min e1 e2))%Z by (apply Z.pow_pos_nonneg; lia).
    destruct s1, s2; cbn [cond_Zopp].
    + rewrite !Z.mul_opp_l, Z.compare_opp, Z.compare_antisym, Hpos.
      destruct (e1 ?= e2)%Z; reflexivity.
    + apply Z.compare_lt_iff. nia.
    + apply Z.compare_gt_iff. nia.
    + exact Hpos.
Qed.

End PyFloatFacts.

(** The clamped total rounds to an integer between 0 and 100, whatever the
    total is: a float of any size, an infinity or not a number. *)
Lemma py_round_clamp (score : spec_float) :
  exists z, py_round (clamp score) = Ok z /\ (0 <= z <= 100)%Z.
Proof.
  unfold clamp, PyFloat.py_max, PyFloat.py_min.
  destruct (PyFloat.ltb PyFloat.f100 score) eqn:Hhi.
  - exists 100%Z. split; [ vm_compute; reflexivity | lia ].
  - destruct (PyFloat.gtb score PyFloat.f0) eqn:Hlo.
    + destruct score as [s | s | | s m e]; try discriminate Hlo.
      * destruct s; discriminate.
      * rewrite PyFloatFacts.gtb_zero_finite in Hlo.
        destruct s; [ discriminate | ].
        destruct (PyFloatFacts.not_above_100 m e Hhi) as [Hp Hn].
        eexists. split; [ reflexivity | ].
        cbn [cond_Zopp]. apply PyFloatFacts.round_half_even_range; auto; lia.
    + exists 0%Z. split; [ reflexivity | lia ].
Qed.

(** ** The scorer *)

Lemma brand_loop_Some brands name website r :
  brand_loop brands name website = Some r ->
  r = (0%Z, name_match) \/ r = (0%Z, website_match).
Proof.
  induction brands as [ | brand rest IH ]; cbn [brand_loop]; [ discriminate | ].
  destruct (PyStr.contains brand name); [ intros [= <-]; now left | ].
  destruct (PyStr.nonempty website && _); [ intros [= <-]; now right | exact IH ].
Qed.

(** Past the two disqualifiers the scorer always returns: a score between 0
    and 100 with the ordinary reason. *)
Lemma score_signals_returns env has_website website rating reviews phone photos category :
  exists z,
    score_signals env has_website website rating reviews phone photos category
    = Ok (z, maps_signals) /\ (0 <= z <= 100)%Z.
Proof.
  unfold score_signals.
  destruct (py_round_clamp
              (signals_total env has_website website rating reviews phone photos category))
    as (z & Hz & Hrange).
  exists z. rewrite Hz. split; [ reflexivity | exact Hrange ].
Qed.

(** What a call of [_compute_lead_score] that returns has returned. *)
Lemma compute_lead_score_cases env row score reason :
  _compute_lead_score env row = Ok (score, reason) ->
  (score = 0%Z /\ (reason = name_match \/ reason = website_match \/ reason = offline_presence))
  \/ (reason = maps_signals
      /\ exists website phone category,
          py_round (clamp (total_of env row website phone category)) = Ok score).
Proof.
  unfold _compute_lead_score.
  destruct (str_lower _) as [ name | ]; [ | discriminate ].
  destruct (str_strip _) as [ website | ]; [ | discriminate ].
  destruct (str_strip _) as [ phone | ]; [ | discriminate ].
  destruct (str_lower _) as [ category | ]; [ | discriminate ].
  cbn [bind].
  destruct (brand_loop _ _ _) as [ d | ] eqn:Hb.
  - intros [= ->]. left.
    destruct (brand_loop_Some _ _ _ _ Hb) as [ [= -> ->] | [= -> ->] ]; auto.
  - destruct (strong_offline _ _ _) as [ [ | ] | ]; cbn [bind]; [ | | discriminate ].
    + intros [= <- <-]. left. auto.
    + unfold score_signals.
      destruct (py_round _) as [ z | ] eqn:Hz; cbn [bind]; [ | discriminate ].
      intros [= <- <-]. right. split; [ reflexivity | ].
      exists website, phone, category. exact Hz.
Qed.

(** C1. Whatever the record, a score that [_compute_lead_score] returns is an
    integer between 0 and 100: it is the 0 of a disqualification, or the
    accumulated floating-point total clamped to [0, 100] and then rounded. *)
Theorem compute_lead_score_range env row score reason :
  _compute_lead_score env row = Ok (score, reason) ->
  (0 <= score <= 100)%Z
  /\ (score = 0%Z
      \/ exists website phone category,
          py_round (clamp (total_of env row website phone category)) = Ok score).
Proof.
  intros H.
  destruct (compute_lead_score_cases _ _ _ _ H)
    as [ [-> _] | (_ & website & phone & category & Hz) ].
  - split; [ lia | now left ].
  - split; [ | right; eauto ].
    destruct (py_round_clamp (total_of env row website phone category))
      as (z & Hz' & Hrange).
    rewrite Hz in Hz'. injection Hz' as ->. exact Hrange.
Qed.

Lemma compute_lead_score_range_witness :
  (0 <= 50 <= 100)%Z
  /\ (50%Z = 0%Z
      \/ exists website phone category,
          py_round (clamp (total_of full_page_env local_tiles_row website phone category))
          = Ok 50%Z).
Proof.
  apply (compute_lead_score_range full_page_env local_tiles_row 50 maps_signals).
  vm_compute. reflexivity.
Defined.

(** ** The classifier *)

Lemma contains_prefix x s : PyStr.startswith x s = true -> PyStr.contains x s = true.
Proof. destruct s; cbn [PyStr.contains]; intros ->; reflexivity. Qed.

Lemma startswith_append x s : PyStr.startswith x (x ++ s) = true.
Proof.
  induction x as [ | c x IH ]; [ reflexivity | ].
  change (String c x ++ s) with (String c (x ++ s)). cbn [PyStr.startswith].
  rewrite Ascii.eqb_refl. exact IH.
Qed.

Lemma contains_append x a b : PyStr.contains x b = true -> PyStr.contains x (a ++ b) = true.
Proof.
  intros H. induction a as [ | c a IH ]; [ exact H | ].
  change (String c a ++ b) with (String c (a ++ b)).
  cbn [PyStr.contains]. rewrite IH. apply orb_true_r.
Qed.

Lemma contains_middle x a b : PyStr.contains x (a ++ x ++ b) = true.
Proof. apply contains_append, contains_prefix, startswith_append. Qed.

Lemma contains_self x : PyStr.contains x x = true.
Proof.
  apply contains_prefix. induction x as [ | c x IH ]; [ reflexivity | ].
  cbn [PyStr.startswith]. rewrite Ascii.eqb_refl. exact IH.
Qed.

(** [classify_lead] on a record whose score and reason are known. *)
Lemma classify_lead_of_score env row score reason :
  _compute_lead_score env row = Ok (score, reason) ->
  classify_lead env row
  = if is_disqualified score reason then Ok (reason, reason, score)
    else if (70 <=? score)%Z then
      Ok (high_priority, "High opportunity (score=" ++ pretty score ++ "). " ++ reason, score)
    else if (40 <=? score)%Z then
      Ok (medium_priority, "Medium opportunity (score=" ++ pretty score ++ "). " ++ reason, score)
    else
      Ok (low_priority, "Low opportunity (score=" ++ pretty score ++ "). " ++ reason, score).
Proof. unfold classify_lead. intros ->. reflexivity. Qed.

(** The label of a category does not occur in the explanation of a score
    between 0 and 100. *)
Lemma label_not_in_explanation score :
  (0 <= score <= 100)%Z ->
  PyStr.contains high_priority
    ("High opportunity (score=" ++ pretty score ++ "). " ++ maps_signals) = false
  /\ PyStr.contains medium_priority
       ("Medium opportunity (score=" ++ pretty score ++ "). " ++ maps_signals) = false
  /\ PyStr.contains low_priority
       ("Low opportunity (score=" ++ pretty score ++ "). " ++ maps_signals) = false.
Proof.
  intros Hscore.
  assert (Hall :
            forallb
              (fun n =>
                 let score := Z.of_nat n in
                 negb (PyStr.contains high_priority
                         ("High opportunity (score=" ++ pretty score ++ "). " ++ maps_signals))
                 && negb (PyStr.contains medium_priority
                            ("Medium opportunity (score=" ++ pretty score ++ "). "
                             ++ maps_signals))
                 && negb (PyStr.contains low_priority
                            ("Low opportunity (score=" ++ pretty score ++ "). "
                             ++ maps_signals)))
              (seq 0 101) = true) by (vm_compute; reflexivity).
  rewrite forallb_forall in Hall.
  specialize (Hall (Z.to_nat score) ltac:(apply in_seq; lia)). cbn zeta in Hall.
  rewrite Z2Nat.id in Hall by lia.
  apply andb_true_iff in Hall as [ Hall Hlow ]. apply andb_true_iff in Hall as [ Hhigh Hmid ].
  apply negb_true_iff in Hhigh, Hmid, Hlow. auto.
Qed.

(** C4, as the code has it.  A record that is not disqualified is
    classified by its score: 70 and above is high priority, 40 to 69 medium
    priority, below 40 low priority.  The explanation opens with the tier
    of the category (High, Medium or Low) and carries the score in decimal
    and the scorer's reason; the label of the category is not part of
    it. *)
Theorem classify_lead_thresholds env row score reason :
  _compute_lead_score env row = Ok (score, reason) ->
  is_disqualified score reason = false ->
  exists category explanation,
    classify_lead env row = Ok (category, explanation, score)
    /\ ((70 <= score)%Z ->
        category = high_priority
        /\ explanation = "High opportunity (score=" ++ pretty score ++ "). " ++ reason)
    /\ ((40 <= score < 70)%Z ->
        category = medium_priority
        /\ explanation = "Medium opportunity (score=" ++ pretty score ++ "). " ++ reason)
    /\ ((score < 40)%Z ->
        category = low_priority
        /\ explanation = "Low opportunity (score=" ++ pretty score ++ "). " ++ reason)
    /\ PyStr.contains (pretty score) explanation = true
    /\ PyStr.contains reason explanation = true
    /\ PyStr.contains category explanation = false.
Proof.
  intros Hscore Hq.
  assert (Hreason : reason = maps_signals /\ (0 <= score <= 100)%Z).
  { destruct (compute_lead_score_cases _ _ _ _ Hscore)
      as [ [-> [ -> | [ -> | -> ] ] ] | (-> & w & p & c & Hz) ]; try discriminate Hq.
    split; [ reflexivity | ].
    destruct (py_round_clamp (total_of env row w p c)) as (z & Hz' & Hr).
    rewrite Hz in Hz'. injection Hz' as ->. exact Hr. }
  destruct Hreason as [ -> Hrange ].
  destruct (label_not_in_explanation score Hrange) as (Hhigh & Hmid & Hlow).
  rewrite (classify_lead_of_score _ _ _ _ Hscore), Hq.
  destruct (Z.leb_spec 70 score) as [ H70 | H70 ];
    [ | destruct (Z.leb_spec 40 score) as [ H40 | H40 ] ];
    eexists; eexists; (split; [ reflexivity | ]);
    repeat split; try lia; try assumption;
    try apply contains_middle;
    do 3 apply contains_append; apply contains_self.
Qed.

Lemma classify_lead_thresholds_witness :
  classify_lead offline_env row_70
  = Ok (high_priority, "High opportunity (score=70). Score computed from maps signals", 70%Z)
  /\ classify_lead offline_env row_69
     = Ok (medium_priority, "Medium opportunity (score=69). Score computed from maps signals", 69%Z)
  /\ classify_lead offline_env row_40
     = Ok (medium_priority, "Medium opportunity (score=40). Score computed from maps signals", 40%Z)
  /\ classify_lead offline_env row_39
     = Ok (low_priority, "Low opportunity (score=39). Score computed from maps signals", 39%Z).
Proof.
  assert (H70 : _compute_lead_score offline_env row_70 = Ok (70%Z, maps_signals))
    by (vm_compute; reflexivity).
  assert (H69 : _compute_lead_score offline_env row_69 = Ok (69%Z, maps_signals))
    by (vm_compute; reflexivity).
  assert (H40 : _compute_lead_score offline_env row_40 = Ok (40%Z, maps_signals))
    by (vm_compute; reflexivity).
  assert (H39 : _compute_lead_score offline_env row_39 = Ok (39%Z, maps_signals))
    by (vm_compute; reflexivity).
  destruct (classify_lead_thresholds _ _ _ _ H70 eq_refl)
    as (c1 & e1 & -> & Hhi & _).
  destruct (classify_lead_thresholds _ _ _ _ H69 eq_refl)
    as (c2 & e2 & -> & _ & Hmid & _).
  destruct (classify_lead_thresholds _ _ _ _ H40 eq_refl)
    as (c3 & e3 & -> & _ & Hmid' & _).
  destruct (classify_lead_thresholds _ _ _ _ H39 eq_refl)
    as (c4 & e4 & -> & _ & _ & Hlo & _).
  destruct Hhi as [-> ->]; [ lia | ].
  destruct Hmid as [-> ->]; [ lia | ].
  destruct Hmid' as [-> ->]; [ lia | ].
  destruct Hlo as [-> ->]; [ lia | ].
  repeat split.
Defined.

(** C4 as stated fails in its last part: the explanation of the record
    that scores 70 does not contain the label of its category. *)
Lemma classify_lead_label_counterexample :
  classify_lead offline_env row_70
  = Ok (high_priority, "High opportunity (score=70). Score computed from maps signals", 70%Z)
  /\ PyStr.contains high_priority
       "High opportunity (score=70). Score computed from maps signals" = false.
Proof. vm_compute. split; reflexivity. Qed.

(** C5. A record the scorer disqualifies (score 0 and a reason that starts
    with DISQUALIFIED) is returned as it is: category and explanation are both
    the scorer's reason, the score stays 0, no threshold is applied. *)
Theorem classify_lead_disqualified env row reason :
  _compute_lead_score env row = Ok (0%Z, reason) ->
  PyStr.startswith "DISQUALIFIED" reason = true ->
  classify_lead env row = Ok (reason, reason, 0%Z).
Proof.
  intros Hscore Hreason.
  rewrite (classify_lead_of_score _ _ _ _ Hscore).
  unfold is_disqualified. rewrite Hreason. reflexivity.
Qed.

Lemma classify_lead_disqualified_witness :
  classify_lead offline_env kajaria_row = Ok (name_match, name_match, 0%Z)
  /\ classify_lead offline_env local_store_row = Ok (offline_presence, offline_presence, 0%Z).
Proof.
  split; apply classify_lead_disqualified; vm_compute; reflexivity.
Defined.

Lemma py_or_falsy v d : truthy v = false -> py_or v d = d.
Proof. unfold py_or. intros ->. reflexivity. Qed.

(** A record whose fields are all missing or falsy scores 0 with the
    ordinary reason, in every environment. *)
Lemma default_record_score env (row : py_dict) :
  Forall (fun k => truthy (row_get row k) = false) record_keys ->
  _compute_lead_score env row = Ok (0%Z, maps_signals).
Proof.
  intros H. unfold record_keys in H.
  repeat match goal with
         | H : Forall _ (_ :: _) |- _ =>
             let Hk := fresh "Hk" in
             apply Forall_cons_iff in H; destruct H as [Hk H]
         end.
  unfold _compute_lead_score.
  replace (py_or (row_get row "phone") (row_get row "phone_number"))
    with (row_get row "phone_number") by (symmetry; now apply py_or_falsy).
  replace (py_or (row_get row "photos") (row_get row "photo_count"))
    with (row_get row "photo_count") by (symmetry; now apply py_or_falsy).
  repeat match goal with
         | Hk : truthy (row_get row ?k) = false |- _ =>
             replace (py_or (row_get row k) (PStr "")) with (PStr "")
               by (symmetry; now apply py_or_falsy);
             replace (py_or (row_get row k) (PInt 0)) with (PInt 0)
               by (symmetry; now apply py_or_falsy);
             replace (truthy (row_get row k)) with false by (now symmetry);
             clear Hk
         end.
  vm_compute. reflexivity.
Qed.

Lemma empty_record_score env :
  _compute_lead_score env ∅ = Ok (0%Z, maps_signals).
Proof. apply default_record_score. repeat constructor. Qed.

(** C10. A score of 0 alone does not disqualify: a record that scores 0
    with the ordinary reason, as the record with every field empty or
    missing does, is classified low priority with that reason. *)
Theorem zero_score_is_low_priority env row :
  _compute_lead_score env row = Ok (0%Z, maps_signals) ->
  is_disqualified 0 maps_signals = false
  /\ classify_lead env row
     = Ok (low_priority, "Low opportunity (score=0). Score computed from maps signals", 0%Z).
Proof.
  intros Hscore. split; [ reflexivity | ].
  rewrite (classify_lead_of_score _ _ _ _ Hscore). reflexivity.
Qed.

Lemma zero_score_is_low_priority_witness :
  is_disqualified 0 maps_signals = false
  /\ classify_lead offline_env ∅
     = Ok (low_priority, "Low opportunity (score=0). Score computed from maps signals", 0%Z).
Proof.
  apply zero_score_is_low_priority. vm_compute. reflexivity.
Defined.

(** ** Strings: the properties of [lower] and [strip] *)

Module PyStrFacts.
Import PyStr.

(** [lower] and [strip] beyond ASCII: the Kelvin sign, the final sigma,
    the dotted capital I, and white space of one, two and three bytes. *)
Example lower_samples :
  lower "KAJARIA" = "kajaria"
  /\ lower "ΟΔΟΣ ΣΟΣ" = "οδος σος"
  /\ lower "İstanbul ÉTÉ" = "i̇stanbul été".
Proof. vm_compute. repeat split. Qed.

Example strip_samples :
  strip "    tiles shop 　" = "tiles shop"
  /\ strip " " = "".
Proof. vm_compute. split; reflexivity. Qed.

(** *** UTF-8: decoding what was encoded *)

(** Quotient and remainder by 64 as variables with their equation. *)
Ltac split_64 c q r :=
  pose proof (N.div_mod' c 64) as ?;
  pose proof (N.mod_lt c 64 ltac:(discriminate)) as ?;
  set (q := (c / 64)%N) in *;
  set (r := (c mod 64)%N) in *;
  clearbody q r.

Ltac bytes_back :=
  repeat match goal with
         | |- context [ N_of_ascii (ascii_of_N ?n) ] =>
             replace (N_of_ascii (ascii_of_N n)) with n
               by (symmetry; apply N_ascii_embedding; lia)
         end.

Ltac decide_tests :=
  repeat match goal with
         | |- context [ (?a <? ?b)%N ] => destruct (N.ltb_spec a b); try lia
         | |- context [ (?a <=? ?b)%N ] => destruct (N.leb_spec a b); try lia
         end.

Lemma decode_encode_char c rest :
  (c < bound)%N -> decode (encode_char c rest) = c :: decode rest.
Proof.
  unfold bound. intros Hc. unfold encode_char. cbn zeta.
  split_64 c c1 r0. split_64 c1 c2 r1. split_64 c2 c3 r2.
  destruct (N.ltb_spec c 128) as [ Hlt1 | Hge1 ];
    [ | destruct (N.ltb_spec c 2048) as [ Hlt2 | Hge2 ];
        [ | destruct (N.ltb_spec c 65536) as [ Hlt3 | Hge3 ] ] ];
    cbn [decode]; bytes_back; unfold continuation; decide_tests;
    cbn [negb andb]; f_equal; lia.
Qed.

Lemma decode_encode l :
  Forall (fun c => (c < bound)%N) l -> decode (encode l) = l.
Proof.
  induction 1 as [ | c l Hc _ IH ]; [ reflexivity | ].
  cbn [encode fold_right]. fold (encode l).
  rewrite decode_encode_char by exact Hc. now rewrite IH.
Qed.

(** Every decoded code point is below [bound]. *)
Lemma decode_bound s : Forall (fun c => (c < bound)%N) (decode s).
Proof.
  remember (String.length s) as n eqn:Hn.
  assert (Hlen : (String.length s <= n)%nat) by lia. clear Hn.
  revert s Hlen. induction n as [ | n IH ]; intros s Hlen.
  { destruct s; [ constructor | cbn in Hlen; lia ]. }
  assert (Hrec : forall t, (String.length t <= n)%nat ->
                           Forall (fun c => (c < bound)%N) (decode t)) by exact IH.
  assert (Hbyte : forall a, (N_of_ascii a < 256)%N) by (intros a; apply N_ascii_bounded).
  destruct s as [ | a s1 ]; [ constructor | ].
  cbn [String.length] in Hlen.
  assert (H1 : Forall (fun c => (c < bound)%N) (decode s1)) by (apply Hrec; lia).
  assert (H0 : (N_of_ascii a < bound)%N) by (specialize (Hbyte a); unfold bound; lia).
  cbn [decode].
  destruct (N.ltb_spec (N_of_ascii a) 192); [ now constructor | ].
  destruct s1 as [ | b s2 ]; [ now repeat constructor | ].
  unfold continuation.
  destruct (N.leb_spec 128 (N_of_ascii b)); cbn [andb negb]; [ | now constructor ].
  destruct (N.ltb_spec (N_of_ascii b) 192); cbn [andb negb]; [ | now constructor ].
  cbn [String.length] in Hlen.
  destruct (N.ltb_spec (N_of_ascii a) 224).
  { constructor; [ unfold bound; lia | apply Hrec; lia ]. }
  destruct s2 as [ | c s3 ]; [ now constructor | ].
  destruct (N.leb_spec 128 (N_of_ascii c)); cbn [andb negb]; [ | now constructor ].
  destruct (N.ltb_spec (N_of_ascii c) 192); cbn [andb negb]; [ | now constructor ].
  cbn [String.length] in Hlen.
  destruct (N.ltb_spec (N_of_ascii a) 240).
  { constructor; [ unfold bound; lia | apply Hrec; lia ]. }
  destruct s3 as [ | d s4 ]; [ now constructor | ].
  cbn zeta.
  destruct (N.leb_spec 128 (N_of_ascii d)); cbn [andb negb]; [ | now constructor ].
  destruct (N.ltb_spec (N_of_ascii d) 192); cbn [andb negb]; [ | now constructor ].
  cbn [String.length] in Hlen.
  match goal with
  | |- context [ (?cp <? 1114112)%N ] => destruct (N.ltb_spec cp 1114112)
  end; [ | now constructor ].
  constructor; [ unfold bound; lia | apply Hrec; lia ].
Qed.

(** *** Lowering twice is lowering once *)

Lemma table_closed_true : table_closed = true.
Proof. vm_compute. reflexivity. Qed.

Lemma lower_simple_unmapped c : mapped c = false -> lower_simple c = c.
Proof.
  unfold mapped, lower_simple. intros H.
  destruct (find _ lower_table) as [ [[[first last] step] target] | ] eqn:Hfind;
    [ | reflexivity ].
  apply find_some in Hfind as [ Hin Hcovers ].
  assert (existsb (fun entry => covers entry c) lower_table = true)
    by (apply existsb_exists; eauto).
  congruence.
Qed.

Lemma lower_simple_fixed c :
  (c < bound)%N -> c <> 304%N -> fixedb (lower_simple c) = true.
Proof.
  intros Hc H304. unfold lower_simple.
  destruct (find _ lower_table) as [ [[[first last] step] target] | ] eqn:Hfind.
  - apply find_some in Hfind as [ Hin Hcovers ].
    pose proof table_closed_true as Hclosed. unfold table_closed in Hclosed.
    rewrite forallb_forall in Hclosed. specialize (Hclosed _ Hin). cbn beta iota in Hclosed.
    apply andb_true_iff in Hclosed as [ Hstep Htargets ].
    apply N.ltb_lt in Hstep.
    rewrite forallb_forall in Htargets. apply Htargets.
    unfold covers in Hcovers.
    apply andb_true_iff in Hcovers as [ Hrange Hmod ].
    apply andb_true_iff in Hrange as [ Hlo Hhi ].
    apply N.leb_le in Hlo, Hhi. apply N.eqb_eq in Hmod.
    unfold entry_targets. apply in_map_iff.
    exists (N.to_nat ((c - first) / step)). split.
    + rewrite N2Nat.id.
      pose proof (N.div_mod' (c - first) step) as Hdiv.
      rewrite Hmod, N.add_0_r in Hdiv.
      rewrite (N.mul_comm _ step), <- Hdiv. reflexivity.
    + apply in_seq.
      assert (Hle : ((c - first) / step <= (last - first) / step)%N)
        by (apply N.Div0.div_le_mono; lia).
      revert Hle. generalize ((c - first) / step)%N, ((last - first) / step)%N.
      intros q q' Hle. lia.
  - unfold fixedb.
    assert (Hmapped : mapped c = false).
    { unfold mapped. destruct (existsb _ lower_table) eqn:He; [ | reflexivity ].
      apply existsb_exists in He as (entry & Hin & Hcovers).
      pose proof (find_none _ _ Hfind entry Hin) as Hnone. cbn beta in Hnone. congruence. }
    rewrite Hmapped.
    destruct (N.ltb_spec c bound); [ | lia ].
    destruct (N.eqb_spec c 304); [ congruence | reflexivity ].
Qed.

Lemma lower_full_fixed c :
  (c < bound)%N -> Forall (fun o => fixedb o = true) (lower_full c).
Proof.
  intros Hc. unfold lower_full. destruct (N.eqb_spec c 304) as [ -> | H304 ].
  - repeat constructor; vm_compute; reflexivity.
  - constructor; [ now apply lower_simple_fixed | constructor ].
Qed.

Lemma lower_from_outputs after_cased l :
  Forall (fun c => (c < bound)%N) l ->
  Forall (fun o => fixedb o = true) (lower_from after_cased l).
Proof.
  intros H. revert after_cased. induction H as [ | c l Hc _ IH ]; intros after_cased.
  - constructor.
  - cbn [lower_from]. apply List.Forall_app. split; [ | apply IH ].
    destruct (c =? 931)%N; [ | now apply lower_full_fixed ].
    destruct (after_cased && _); repeat constructor; vm_compute; reflexivity.
Qed.

(** Lowering changes nothing in code points no mapping applies to. *)
Lemma lower_from_fixed after_cased l :
  Forall (fun c => fixedb c = true) l -> lower_from after_cased l = l.
Proof.
  intros H. revert after_cased. induction H as [ | c l Hc _ IH ]; intros after_cased.
  - reflexivity.
  - cbn [lower_from]. rewrite IH.
    unfold fixedb in Hc.
    apply andb_true_iff in Hc as [ Hc H304 ]. apply andb_true_iff in Hc as [ _ Hmapped ].
    apply negb_true_iff in Hmapped, H304.
    destruct (N.eqb_spec c 931) as [ -> | _ ]; [ vm_compute in Hmapped; discriminate | ].
    unfold lower_full. rewrite H304, (lower_simple_unmapped c Hmapped). reflexivity.
Qed.

(** [s.lower().lower() == s.lower()] *)
Lemma lower_idempotent s : lower (lower s) = lower s.
Proof.
  unfold lower.
  pose proof (lower_from_outputs false (decode s) (decode_bound s)) as Hfixed.
  rewrite decode_encode.
  - now rewrite lower_from_fixed.
  - eapply List.Forall_impl; [ | exact Hfixed ].
    intros o Ho. cbn beta in Ho. unfold fixedb in Ho.
    apply andb_true_iff in Ho as [ Ho _ ]. apply andb_true_iff in Ho as [ Ho _ ].
    now apply N.ltb_lt.
Qed.

(** *** Lowering keeps plain ASCII text *)

(** One step of [decode]. *)
Lemma decode_cons a s1 :
  decode (String a s1)
  = ltac:(let body := eval cbn [decode] in (decode (String a s1)) in exact body).
Proof. reflexivity. Qed.

(** Decoding goes through a boundary in front of a byte below 128. *)
Lemma decode_app p a :
  starts_ascii a = true -> decode (p ++ a) = (decode p ++ decode a)%list.
Proof.
  intros Ha.
  remember (String.length p) as n eqn:Hn.
  assert (Hlen : (String.length p <= n)%nat) by lia. clear Hn.
  revert p Hlen. induction n as [ | n IH ]; intros p Hlen.
  { destruct p; [ reflexivity | cbn in Hlen; lia ]. }
  assert (Hrec : forall t, (String.length t <= n)%nat ->
                           decode (t ++ a) = (decode t ++ decode a)%list) by exact IH.
  clear IH.
  assert (Hnext : match a with
                  | EmptyString => True
                  | String c _ => continuation (N_of_ascii c) = false
                  end).
  { destruct a as [ | c a' ]; [ exact I | ].
    cbn [starts_ascii] in Ha. apply N.ltb_lt in Ha. unfold continuation.
    destruct (N.leb_spec 128 (N_of_ascii c)); [ lia | reflexivity ]. }
  destruct p as [ | b0 p1 ]; [ reflexivity | ].
  cbn [String.length] in Hlen.
  change (String b0 p1 ++ a) with (String b0 (p1 ++ a)).
  rewrite (decode_cons b0 (p1 ++ a)), (decode_cons b0 p1).
  pose proof (Hrec p1 ltac:(lia)) as H1. rewrite H1.
  destruct (N_of_ascii b0 <? 192)%N; [ reflexivity | ].
  destruct p1 as [ | b1 p2 ].
  { change ("" ++ a) with a. destruct a as [ | c a' ]; [ reflexivity | ].
    rewrite Hnext. reflexivity. }
  change (String b1 p2 ++ a) with (String b1 (p2 ++ a)). cbv beta iota.
  destruct (negb (continuation (N_of_ascii b1))); [ reflexivity | ].
  cbn [String.length] in Hlen.
  destruct (N_of_ascii b0 <? 224)%N; [ rewrite (Hrec p2) by lia; reflexivity | ].
  destruct p2 as [ | b2 p3 ].
  { change ("" ++ a) with a. destruct a as [ | c a' ]; [ reflexivity | ].
    rewrite Hnext. reflexivity. }
  change (String b2 p3 ++ a) with (String b2 (p3 ++ a)). cbv beta iota.
  destruct (negb (continuation (N_of_ascii b2))); [ reflexivity | ].
  cbn [String.length] in Hlen.
  destruct (N_of_ascii b0 <? 240)%N; [ rewrite (Hrec p3) by lia; reflexivity | ].
  destruct p3 as [ | b3 p4 ].
  { change ("" ++ a) with a. destruct a as [ | c a' ]; [ reflexivity | ].
    cbv zeta. rewrite Hnext. reflexivity. }
  change (String b3 p4 ++ a) with (String b3 (p4 ++ a)). cbv beta iota zeta.
  cbn [String.length] in Hlen.
  destruct (continuation (N_of_ascii b3) && _); [ rewrite (Hrec p4) by lia | ]; reflexivity.
Qed.

Lemma decode_plain b q :
  plain_ascii b = true ->
  decode (b ++ q) = (map N_of_ascii (list_ascii_of_string b) ++ decode q)%list.
Proof.
  intros Hb. induction b as [ | c b IH ]; [ reflexivity | ].
  unfold plain_ascii in Hb. cbn [list_ascii_of_string forallb] in Hb.
  apply andb_true_iff in Hb as [ Hc Hb ]. apply andb_true_iff in Hc as [ Hc _ ].
  change (String c b ++ q) with (String c (b ++ q)).
  rewrite decode_cons.
  apply N.ltb_lt in Hc.
  destruct (N.ltb_spec (N_of_ascii c) 192); [ | lia ].
  rewrite (IH Hb). reflexivity.
Qed.

Lemma plain_starts_ascii b q : plain_ascii b = true -> b <> "" -> starts_ascii (b ++ q) = true.
Proof.
  destruct b as [ | c b ]; [ congruence | ]. intros H _.
  unfold plain_ascii in H. cbn [list_ascii_of_string forallb] in H.
  apply andb_true_iff in H as [ Hc _ ]. apply andb_true_iff in Hc as [ Hc _ ]. exact Hc.
Qed.

Lemma plain_fixed b :
  plain_ascii b = true ->
  Forall (fun c => fixedb c = true) (map N_of_ascii (list_ascii_of_string b)).
Proof.
  unfold plain_ascii. induction b as [ | c b IH ]; [ constructor | ].
  cbn [list_ascii_of_string forallb map]. intros H.
  apply andb_true_iff in H as [ Hc Hb ]. apply andb_true_iff in Hc as [ _ Hc ].
  constructor; [ exact Hc | exact (IH Hb) ].
Qed.

Lemma lower_from_plain after_cased l rest :
  Forall (fun c => fixedb c = true) l ->
  exists after_cased', lower_from after_cased (l ++ rest) = (l ++ lower_from after_cased' rest)%list.
Proof.
  intros H. revert after_cased. induction H as [ | c l Hc _ IH ]; intros after_cased.
  - exists after_cased. reflexivity.
  - change ((c :: l) ++ rest)%list with (c :: (l ++ rest))%list. cbn [lower_from].
    destruct (IH (if case_ignorable c then after_cased else cased c)) as (after_cased' & ->).
    exists after_cased'.
    unfold fixedb in Hc.
    apply andb_true_iff in Hc as [ Hc H304 ]. apply andb_true_iff in Hc as [ _ Hmapped ].
    apply negb_true_iff in Hmapped, H304.
    destruct (N.eqb_spec c 931) as [ -> | _ ]; [ vm_compute in Hmapped; discriminate | ].
    unfold lower_full. rewrite H304, (lower_simple_unmapped c Hmapped). reflexivity.
Qed.

Lemma lower_from_app after_cased l1 l2 :
  exists lowered after_cased',
    lower_from after_cased (l1 ++ l2) = (lowered ++ lower_from after_cased' l2)%list.
Proof.
  revert after_cased. induction l1 as [ | c l1 IH ]; intros after_cased.
  - exists [], after_cased. reflexivity.
  - change ((c :: l1) ++ l2)%list with (c :: (l1 ++ l2))%list. cbn [lower_from].
    destruct (IH (if case_ignorable c then after_cased else cased c))
      as (lowered & after_cased' & ->).
    eexists (_ ++ lowered)%list, after_cased'. rewrite <- List.app_assoc. reflexivity.
Qed.

Lemma encode_app l1 l2 : encode (l1 ++ l2) = encode l1 ++ encode l2.
Proof.
  induction l1 as [ | c l1 IH ]; [ reflexivity | ].
  change ((c :: l1) ++ l2)%list with (c :: (l1 ++ l2))%list.
  unfold encode in *. cbn [fold_right]. rewrite IH.
  unfold encode_char. cbv zeta.
  destruct (c <? 128)%N; [ reflexivity | ].
  destruct (c <? 2048)%N; [ reflexivity | ].
  destruct (c <? 65536)%N; reflexivity.
Qed.

Lemma encode_plain b :
  plain_ascii b = true -> encode (map N_of_ascii (list_ascii_of_string b)) = b.
Proof.
  unfold plain_ascii. induction b as [ | c b IH ]; [ reflexivity | ].
  cbn [list_ascii_of_string forallb map]. intros H.
  apply andb_true_iff in H as [ Hc Hb ]. apply andb_true_iff in Hc as [ Hc _ ].
  unfold encode in *. cbn [fold_right]. rewrite (IH Hb).
  unfold encode_char. cbv zeta. rewrite Hc, ascii_N_embedding. reflexivity.
Qed.

Lemma startswith_split b s : startswith b s = true -> exists q, s = b ++ q.
Proof.
  revert s. induction b as [ | c b IH ]; intros s; [ now exists s | ].
  destruct s as [ | d s ]; [ discriminate | ]. cbn [startswith]. intros H.
  apply andb_true_iff in H as [ Hc Hb ]. apply Ascii.eqb_eq in Hc as ->.
  destruct (IH s Hb) as (q & ->). now exists q.
Qed.

Lemma contains_split b s : contains b s = true -> exists p q, s = p ++ b ++ q.
Proof.
  induction s as [ | d s IH ]; cbn [contains]; intros H;
    apply orb_true_iff in H as [ H | H ]; try discriminate.
  - destruct (startswith_split _ _ H) as (q & ->). now exists "", q.
  - destruct (startswith_split _ _ H) as (q & ->). now exists "", q.
  - destruct (IH H) as (p & q & ->). now exists (String d p), q.
Qed.

(** Lowering keeps every occurrence of plain lower-case ASCII text. *)
Lemma contains_lower_plain b s :
  plain_ascii b = true -> contains b s = true -> contains b (lower s) = true.
Proof.
  intros Hb Hs.
  destruct b as [ | c0 b0 ] eqn:Eb; [ destruct (lower s); reflexivity | ].
  rewrite <- Eb in *.
  assert (Hne : b <> "") by (subst; discriminate).
  destruct (contains_split _ _ Hs) as (p & q & ->).
  unfold lower.
  rewrite (decode_app p (b ++ q)) by (now apply plain_starts_ascii).
  rewrite (decode_plain b q Hb).
  destruct (lower_from_app false (decode p)
              (map N_of_ascii (list_ascii_of_string b) ++ decode q))
    as (lowered & after_cased & ->).
  destruct (lower_from_plain after_cased _ (decode q) (plain_fixed b Hb))
    as (after_cased' & ->).
  rewrite !encode_app, (encode_plain b Hb).
  apply contains_middle.
Qed.

(** *** Stripping keeps the occurrences of a solid keyword *)


















End PyStrFacts.

(** ** The brand disqualifier *)

Lemma existsb_false_iff {A : Type} (f : A -> bool) (l : list A) :
  existsb f l = false <-> forall x, In x l -> f x = false.
Proof.
  split.
  - intros H x Hin. destruct (f x) eqn:Hfx; [ | reflexivity ].
    assert (existsb f l = true) by (apply existsb_exists; eauto). congruence.
  - intros H. destruct (existsb f l) eqn:He; [ | reflexivity ].
    apply existsb_exists in He as (x & Hin & Hfx). rewrite (H x Hin) in Hfx. discriminate.
Qed.

Lemma field_text_lower v s :
  field_text v = Some s -> str_lower (py_or v (PStr "")) = Ok (PyStr.lower s).
Proof.
  unfold field_text. destruct (py_or v (PStr "")); try discriminate.
  intros [= ->]. reflexivity.
Qed.

Lemma field_text_strip v s :
  field_text v = Some s -> str_strip (py_or v (PStr "")) = Ok (PyStr.strip s).
Proof.
  unfold field_text. destruct (py_or v (PStr "")); try discriminate.
  intros [= ->]. reflexivity.
Qed.



Lemma ge_literal_number v c a b :
  field_number v = Some a -> num_x c = Some b ->
  ge_literal (py_or v (PInt 0)) c = Ok (PyFloat.xge a b).
Proof.
  unfold field_number, ge_literal. intros -> ->. reflexivity.
Qed.



(** ** Records whose text fields hold text

    The four text fields of the record are read before anything else; the
    statements of this section are about a record in which each of them
    holds a string, or is missing or falsy. *)

Section TypedRecord.

Variables (env : Env) (row : py_dict) (name website phone category : string).

Hypothesis name_text : field_text (row_get row "business_name") = Some name.
Hypothesis website_text : field_text (row_get row "website") = Some website.
Hypothesis phone_text :
  field_text (py_or (row_get row "phone") (row_get row "phone_number")) = Some phone.
Hypothesis category_text : field_text (row_get row "category") = Some category.

(** The scorer on a record whose four text fields hold text. *)
Lemma compute_lead_score_text :
  _compute_lead_score env row
  = match brand_loop BRAND_KEYWORDS (PyStr.lower name) (PyStr.strip website) with
    | Some disqualified => Ok disqualified
    | None =>
        let has_website := truthy (row_get row "has_website") in
        let rating := py_or (row_get row "rating") (PInt 0) in
        let reviews := py_or (row_get row "reviews") (PInt 0) in
        let photos :=
          py_or (py_or (row_get row "photos") (row_get row "photo_count")) (PInt 0) in
        do offline <- strong_offline has_website rating reviews;
        if offline then Ok (0%Z, offline_presence)
        else score_signals env has_website (PyStr.strip website) rating reviews
               (PyStr.strip phone) photos (PyStr.lower category)
    end.
Proof.
  unfold _compute_lead_score.
  rewrite (field_text_lower _ _ name_text), (field_text_strip _ _ website_text),
    (field_text_strip _ _ phone_text), (field_text_lower _ _ category_text).
  reflexivity.
Qed.




(** C3. On a record without brand match and without website, whose rating
    is a number: a rating of at least 4.2 together with a number of reviews
    of at least 50 gives score 0 with the offline reason; a rating below 4.2
    (whatever the reviews), or a number of reviews below 50, does not: the
    scorer returns the ordinary reason.  Both thresholds are inclusive. *)
Theorem offline_disqualification rating :
  brand_loop BRAND_KEYWORDS (PyStr.lower name) (PyStr.strip website) = None ->
  truthy (row_get row "has_website") = false ->
  field_number (row_get row "rating") = Some rating ->
  (PyFloat.xge rating x4_2 = false ->
   exists score, _compute_lead_score env row = Ok (score, maps_signals))
  /\ (PyFloat.xge rating x4_2 = true ->
      forall reviews,
        field_number (row_get row "reviews") = Some reviews ->
        (PyFloat.xge reviews x50 = true ->
         _compute_lead_score env row = Ok (0%Z, offline_presence))
        /\ (PyFloat.xge reviews x50 = false ->
            exists score, _compute_lead_score env row = Ok (score, maps_signals))).
Proof.
  intros Hbrand Hsite Hrating.
  rewrite compute_lead_score_text, Hbrand, Hsite.
  cbn zeta. unfold strong_offline. cbn [negb].
  rewrite (ge_literal_number _ (PFloat PyFloat.f4_2) _ x4_2 Hrating eq_refl). cbn [bind].
  split.
  - intros ->.
    destruct (score_signals_returns env false (PyStr.strip website)
                (py_or (row_get row "rating") (PInt 0))
                (py_or (row_get row "reviews") (PInt 0)) (PyStr.strip phone)
                (py_or (py_or (row_get row "photos") (row_get row "photo_count")) (PInt 0))
                (PyStr.lower category)) as (z & -> & _).
    eauto.
  - intros -> reviews Hreviews.
    rewrite (ge_literal_number _ (PInt 50) _ x50 Hreviews eq_refl). cbn [bind].
    split; intros ->; [ reflexivity | ].
    destruct (score_signals_returns env false (PyStr.strip website)
                (py_or (row_get row "rating") (PInt 0))
                (py_or (row_get row "reviews") (PInt 0)) (PyStr.strip phone)
                (py_or (py_or (row_get row "photos") (row_get row "photo_count")) (PInt 0))
                (PyStr.lower category)) as (z & -> & _).
    eauto.
Qed.


(** The scorer returns on every record whose text fields hold text and
    whose rating and reviews are numbers, or missing. *)
Lemma compute_lead_score_returns rating reviews :
  field_number (row_get row "rating") = Some rating ->
  field_number (row_get row "reviews") = Some reviews ->
  exists score reason, _compute_lead_score env row = Ok (score, reason).
Proof.
  intros Hrating Hreviews. rewrite compute_lead_score_text.
  destruct (brand_loop _ _ _) as [ [score reason] | ]; [ eauto | ].
  cbn zeta. unfold strong_offline.
  rewrite (ge_literal_number _ (PFloat PyFloat.f4_2) _ x4_2 Hrating eq_refl).
  rewrite (ge_literal_number _ (PInt 50) _ x50 Hreviews eq_refl).
  destruct (score_signals_returns env (truthy (row_get row "has_website"))
              (PyStr.strip website)
              (py_or (row_get row "rating") (PInt 0))
              (py_or (row_get row "reviews") (PInt 0)) (PyStr.strip phone)
              (py_or (py_or (row_get row "photos") (row_get row "photo_count")) (PInt 0))
              (PyStr.lower category)) as (z & Hz & _).
  destruct (negb (truthy (row_get row "has_website"))); cbn [bind].
  - destruct (PyFloat.xge rating x4_2); cbn [bind];
      [ destruct (PyFloat.xge reviews x50) | ]; rewrite ?Hz; eauto.
  - rewrite Hz. eauto.
Qed.

End TypedRecord.



Lemma offline_disqualification_witness :
  _compute_lead_score offline_env (offline_row (PFloat PyFloat.f4_2) (PInt 50))
  = Ok (0%Z, offline_presence)
  /\ (exists score,
        _compute_lead_score offline_env (offline_row (PFloat f4_19) (PInt 50))
        = Ok (score, maps_signals))
  /\ (exists score,
        _compute_lead_score offline_env (offline_row (PFloat PyFloat.f4_2) (PInt 49))
        = Ok (score, maps_signals)).
Proof.
  split; [ | split ].
  - destruct (offline_disqualification offline_env
                (offline_row (PFloat PyFloat.f4_2) (PInt 50))
                "Some Local Store" "" "" ""
                ltac:(vm_compute; reflexivity) ltac:(vm_compute; reflexivity)
                ltac:(vm_compute; reflexivity) ltac:(vm_compute; reflexivity)
                x4_2) as [ _ H ];
      [ vm_compute; reflexivity .. | ].
    assert (Hrating : PyFloat.xge x4_2 x4_2 = true) by (vm_compute; reflexivity).
    destruct (H Hrating x50) as [ Hyes _ ]; [ vm_compute; reflexivity | ].
    apply Hyes. vm_compute. reflexivity.
  - destruct (offline_disqualification offline_env
                (offline_row (PFloat f4_19) (PInt 50))
                "Some Local Store" "" "" ""
                ltac:(vm_compute; reflexivity) ltac:(vm_compute; reflexivity)
                ltac:(vm_compute; reflexivity) ltac:(vm_compute; reflexivity)
                (PyFloat.to_x f4_19)) as [ H _ ];
      [ vm_compute; reflexivity .. | ].
    apply H. vm_compute. reflexivity.
  - destruct (offline_disqualification offline_env
                (offline_row (PFloat PyFloat.f4_2) (PInt 49))
                "Some Local Store" "" "" ""
                ltac:(vm_compute; reflexivity) ltac:(vm_compute; reflexivity)
                ltac:(vm_compute; reflexivity) ltac:(vm_compute; reflexivity)
                x4_2) as [ _ H ];
      [ vm_compute; reflexivity .. | ].
    assert (Hrating : PyFloat.xge x4_2 x4_2 = true) by (vm_compute; reflexivity).
    destruct (H Hrating (PyFloat.XFin 49 0)) as [ _ Hno ]; [ vm_compute; reflexivity | ].
    apply Hno. vm_compute. reflexivity.
Defined.



(** A phone that is white space is no phone. *)
Example blank_phone_not_counted :
  _compute_lead_score offline_env blank_phone_row = Ok (10%Z, maps_signals).
Proof. vm_compute. reflexivity. Qed.

(** ** Ill-typed fields *)

(** C7, at the failing input.  A rating that is not a number, on a record
    without website: the comparison [rating >= 4.2] of the offline
    disqualifier raises [TypeError] before the guarded conversion
    [float(rating)] is reached, and [classify_lead] raises with it.  This
    holds in every environment. *)
Theorem non_numeric_rating_raises env :
  _compute_lead_score env text_rating_row
  = Raise (Exn TypeError "'>=' not supported between instances of 'str' and 'float'")
  /\ classify_lead env text_rating_row
     = Raise (Exn TypeError "'>=' not supported between instances of 'str' and 'float'").
Proof.
  assert (H : _compute_lead_score env text_rating_row
              = Raise (Exn TypeError
                         "'>=' not supported between instances of 'str' and 'float'"))
    by (vm_compute; reflexivity).
  split; [ exact H | ]. unfold classify_lead. rewrite H. reflexivity.
Qed.

(** The same rating on a record with a website is tolerated: the comparison
    is skipped and the conversion fails inside its [try]. *)
Example non_numeric_rating_with_website :
  _compute_lead_score offline_env text_rating_site_row = Ok (10%Z, maps_signals).
Proof. vm_compute. reflexivity. Qed.

(** A text field that holds a number raises as well, at the extraction of
    the fields. *)
Example numeric_name_raises env :
  _compute_lead_score env {[ "business_name" := PInt 7 ]}
  = Raise (Exn AttributeError "'int' object has no attribute 'lower'").
Proof. vm_compute. reflexivity. Qed.

(** ** The site check *)

Lemma site_awards_range https viewport description contact analytics :
  (0 <= site_awards https viewport description contact analytics <= 20)%Z.
Proof.
  unfold site_awards.
  destruct https, viewport, description, contact, analytics; lia.
Qed.

(** The value of [quick_site_check] on each path through its body. *)
Lemma quick_site_check_disabled env url timeout :
  WEBCHECK_AVAILABLE env = false \/ PyStr.nonempty url = false ->
  quick_site_check env url timeout = Ok (0%Z, ∅).
Proof.
  unfold quick_site_check. intros [ -> | -> ]; [ reflexivity | ].
  rewrite orb_true_r. reflexivity.
Qed.

Lemma quick_site_check_bad_url env url timeout e :
  WEBCHECK_AVAILABLE env = true ->
  PyStr.nonempty url = true ->
  urlparse env url = Raise e ->
  quick_site_check env url timeout = Ok (0%Z, {[ "error" := PStr (exn_str e) ]}).
Proof.
  intros Hweb Hurl Hparsed. unfold quick_site_check.
  rewrite Hweb, Hurl, Hparsed. reflexivity.
Qed.

Lemma quick_site_check_fetch_error env url timeout parsed e :
  WEBCHECK_AVAILABLE env = true ->
  PyStr.nonempty url = true ->
  urlparse env url = Ok parsed ->
  requests_get env url timeout = Raise e ->
  quick_site_check env url timeout = Ok (0%Z, {[ "error" := PStr (exn_str e) ]}).
Proof.
  intros Hweb Hurl Hparsed Hresp. unfold quick_site_check.
  rewrite Hweb, Hurl, Hparsed. cbn [negb orb bind]. rewrite Hresp. reflexivity.
Qed.

Lemma quick_site_check_status env url timeout parsed resp :
  WEBCHECK_AVAILABLE env = true ->
  PyStr.nonempty url = true ->
  urlparse env url = Ok parsed ->
  requests_get env url timeout = Ok resp ->
  resp_status_code resp <> 200%Z ->
  quick_site_check env url timeout
  = Ok (0%Z, {[ "http_status" := PInt (resp_status_code resp) ]}).
Proof.
  intros Hweb Hurl Hparsed Hresp Hstatus. unfold quick_site_check.
  rewrite Hweb, Hurl, Hparsed. cbn [negb orb bind]. rewrite Hresp. cbn [bind].
  apply Z.eqb_neq in Hstatus. rewrite Hstatus. reflexivity.
Qed.

Lemma quick_site_check_bad_page env url timeout parsed resp e :
  WEBCHECK_AVAILABLE env = true ->
  PyStr.nonempty url = true ->
  urlparse env url = Ok parsed ->
  requests_get env url timeout = Ok resp ->
  resp_status_code resp = 200%Z ->
  BeautifulSoup env (resp_text resp) = Raise e ->
  quick_site_check env url timeout = Ok (0%Z, {[ "error" := PStr (exn_str e) ]}).
Proof.
  intros Hweb Hurl Hparsed Hresp Hstatus Hpage. unfold quick_site_check.
  rewrite Hweb, Hurl, Hparsed. cbn [negb orb bind]. rewrite Hresp. cbn [bind].
  rewrite Hstatus. cbn [Z.eqb Pos.eqb negb]. rewrite Hpage. reflexivity.
Qed.

(** The body of the [try] block once the page is fetched and parsed. *)
Lemma quick_site_check_page env url timeout parsed resp page :
  WEBCHECK_AVAILABLE env = true ->
  PyStr.nonempty url = true ->
  urlparse env url = Ok parsed ->
  requests_get env url timeout = Ok resp ->
  resp_status_code resp = 200%Z ->
  BeautifulSoup env (resp_text resp) = Ok page ->
  let awards :=
    site_awards (String.eqb (url_scheme parsed) "https")
      (soup_find_meta page "viewport") (soup_find_meta page "description")
      (has_contact page) (has_analytics (resp_text resp)) in
  quick_site_check env url timeout
  = Ok (Z.min awards 20, {[ "site_score" := PInt awards ]}).
Proof.
  intros Hweb Hurl Hparsed Hresp Hstatus Hpage awards. subst awards.
  unfold quick_site_check.
  rewrite Hweb, Hurl, Hparsed. cbn [negb orb bind try_except].
  rewrite Hresp. cbn [bind]. rewrite Hstatus. cbn [Z.eqb Pos.eqb negb].
  rewrite Hpage. cbn [bind].
  unfold site_awards, has_contact, has_analytics.
  destruct (String.eqb (url_scheme parsed) "https"),
    (soup_find_meta page "viewport"), (soup_find_meta page "description"),
    (existsb _ (soup_anchor_hrefs page)),
    (PyStr.contains "gtag(" (resp_text resp) || PyStr.contains "analytics.js" (resp_text resp)
     || PyStr.contains "ga('" (resp_text resp)
     || PyStr.contains "google-analytics" (resp_text resp));
    reflexivity.
Qed.

(** On a path that ends with score 0, every clause of the contract follows
    from the value returned and from the facts that select the path. *)
Ltac zero_score_path run :=
  eexists; eexists; split; [ exact run | ];
  repeat split; intros; try lia; congruence.

(** C6. [quick_site_check] returns for every url, timeout and environment,
    with a score between 0 and 20.  The score is 0 when the web checks are
    unavailable, when the fetch raises (network error, timeout), when the
    status is not 200, and when [urlparse] or the parser of the page raises.
    Otherwise it is the sum of the five awards, which never exceeds the cap
    of 20. *)
Theorem quick_site_check_contract env url timeout :
  exists score details,
    quick_site_check env url timeout = Ok (score, details)
    /\ (0 <= score <= 20)%Z
    /\ (WEBCHECK_AVAILABLE env = false -> score = 0%Z)
    /\ (forall e, urlparse env url = Raise e -> score = 0%Z)
    /\ (forall e, requests_get env url timeout = Raise e -> score = 0%Z)
    /\ (forall resp,
          requests_get env url timeout = Ok resp ->
          resp_status_code resp <> 200%Z -> score = 0%Z)
    /\ (forall resp e,
          requests_get env url timeout = Ok resp ->
          BeautifulSoup env (resp_text resp) = Raise e -> score = 0%Z)
    /\ (forall parsed resp page,
          WEBCHECK_AVAILABLE env = true ->
          PyStr.nonempty url = true ->
          urlparse env url = Ok parsed ->
          requests_get env url timeout = Ok resp ->
          resp_status_code resp = 200%Z ->
          BeautifulSoup env (resp_text resp) = Ok page ->
          let awards :=
            site_awards (String.eqb (url_scheme parsed) "https")
              (soup_find_meta page "viewport") (soup_find_meta page "description")
              (has_contact page) (has_analytics (resp_text resp)) in
          score = Z.min awards 20 /\ score = awards).
Proof.
  destruct (WEBCHECK_AVAILABLE env) eqn:Hweb;
    [ destruct (PyStr.nonempty url) eqn:Hurl;
      [ destruct (urlparse env url) as [ parsed | e1 ] eqn:Hparsed;
        [ destruct (requests_get env url timeout) as [ resp | e2 ] eqn:Hresp;
          [ destruct (Z.eq_dec (resp_status_code resp) 200%Z) as [ Hstatus | Hstatus ];
            [ destruct (BeautifulSoup env (resp_text resp)) as [ page | e3 ] eqn:Hpage
            | ] | ] | ] | ] | ].
  - (* the page is fetched and parsed *)
    pose proof (site_awards_range (String.eqb (url_scheme parsed) "https")
                  (soup_find_meta page "viewport") (soup_find_meta page "description")
                  (has_contact page) (has_analytics (resp_text resp))) as Hrange.
    eexists; eexists.
    split; [ exact (quick_site_check_page env url timeout parsed resp page
                      Hweb Hurl Hparsed Hresp Hstatus Hpage) | ].
    split; [ lia | ].
    repeat split; intros; try discriminate; try congruence;
      repeat match goal with x := _ |- _ => subst x end;
      replace parsed0 with parsed by congruence;
      replace page0 with page by congruence;
      replace resp0 with resp by congruence; lia.
  - zero_score_path
      (quick_site_check_bad_page env url timeout parsed resp e3
         Hweb Hurl Hparsed Hresp Hstatus Hpage).
  - zero_score_path
      (quick_site_check_status env url timeout parsed resp Hweb Hurl Hparsed Hresp Hstatus).
  - zero_score_path
      (quick_site_check_fetch_error env url timeout parsed e2 Hweb Hurl Hparsed Hresp).
  - zero_score_path (quick_site_check_bad_url env url timeout e1 Hweb Hurl Hparsed).
  - zero_score_path (quick_site_check_disabled env url timeout (or_intror Hurl)).
  - zero_score_path (quick_site_check_disabled env url timeout (or_introl Hweb)).
Qed.

Example quick_site_check_full_page :
  quick_site_check full_page_env "https://example.com" 5
  = Ok (20%Z, {[ "site_score" := PInt 20 ]}).
Proof. vm_compute. reflexivity. Qed.

Example quick_site_check_not_found :
  quick_site_check not_found_env "https://example.com" 5
  = Ok (0%Z, {[ "http_status" := PInt 404 ]}).
Proof. vm_compute. reflexivity. Qed.

Example quick_site_check_timeout :
  quick_site_check timeout_env "https://example.com" 5
  = Ok (0%Z, {[ "error" := PStr "Read timed out." ]}).
Proof. vm_compute. reflexivity. Qed.

(** ** The website link filter *)

(** [_valid_website_href] never raises. *)
Lemma valid_website_href_returns env href :
  exists b, _valid_website_href env href = Ok b.
Proof.
  unfold _valid_website_href.
  destruct (negb (PyStr.nonempty href) || negb (PyStr.startswith "http" href)); [ eauto | ].
  destruct (urlparse env href) as [ parsed | e ]; cbn [bind]; [ | eauto ].
  destruct (existsb _ blacklist); [ eauto | ].
  destruct (existsb _ asset_extensions); eauto.
Qed.

(** C9, as the code has it.  [_valid_website_href] returns for every link,
    and returns true exactly when the link is not empty, starts with
    [http], parses, has a lowercased network location that contains no
    entry of the denylist, and does not itself, lowercased and taken as a
    whole with its query and fragment, end with an asset extension. *)
Theorem valid_website_href_spec env href :
  exists b,
    _valid_website_href env href = Ok b
    /\ (b = true <->
        href <> ""
        /\ PyStr.startswith "http" href = true
        /\ (exists parsed,
              urlparse env href = Ok parsed
              /\ forall entry, In entry blacklist ->
                   PyStr.contains entry (PyStr.lower (url_netloc parsed)) = false)
        /\ forall ext, In ext asset_extensions ->
             PyStr.endswith ext (PyStr.lower href) = false).
Proof.
  unfold _valid_website_href.
  destruct href as [ | c href' ] eqn:Ehref.
  { exists false. split; [ reflexivity | ]. split; [ discriminate | ]. intros [ H _ ]. congruence. }
  rewrite <- Ehref. replace (PyStr.nonempty href) with true by (subst; reflexivity).
  cbn [negb orb].
  destruct (PyStr.startswith "http" href) eqn:Hhttp; cbn [negb].
  2: { exists false. split; [ reflexivity | ]. split; [ discriminate | ].
       intros (_ & H & _). discriminate. }
  destruct (urlparse env href) as [ parsed | e ] eqn:Hparsed; cbn [bind].
  2: { exists false. split; [ reflexivity | ]. split; [ discriminate | ].
       intros (_ & _ & (parsed & H & _) & _). discriminate. }
  destruct (existsb _ blacklist) eqn:Hblack.
  { exists false. split; [ reflexivity | ]. split; [ discriminate | ].
    intros (_ & _ & (parsed' & Hp' & Hall) & _).
    injection Hp' as <-. apply existsb_false_iff in Hall. congruence. }
  destruct (existsb _ asset_extensions) eqn:Hext.
  { exists false. split; [ reflexivity | ]. split; [ discriminate | ].
    intros (_ & _ & _ & Hall). apply existsb_false_iff in Hall. congruence. }
  exists true. split; [ reflexivity | ]. split; [ | reflexivity ].
  intros _. split; [ subst; discriminate | ]. split; [ reflexivity | ].
  split.
  - exists parsed. split; [ reflexivity | ].
    apply (existsb_false_iff
             (fun b => PyStr.contains b (PyStr.lower (url_netloc parsed))) blacklist).
    exact Hblack.
  - apply (existsb_false_iff
             (fun ext => PyStr.endswith ext (PyStr.lower href)) asset_extensions).
    exact Hext.
Qed.

(** C9, as stated, fails in three places.  The path of the first link
    ends with [.js], so the specification's wording rejects it, but its
    query string follows the path and the code, which looks at the end of
    the whole link, accepts it.  The scheme of the second link is [httpx],
    not HTTP(S), and the code, which looks at the first four characters,
    accepts it.  The host of the third link is [example.org], and the code,
    which looks at the network location with its user information, refuses
    it for the [google.com] there.  The fourth link has an HTTP scheme in
    capitals, which the code refuses. *)
Lemma valid_website_href_counterexamples :
  (Urllib.urlparse "http://example.com/app.js?v=2"
   = Ok {| url_scheme := "http"; url_netloc := "example.com"; url_path := "/app.js" |}
   /\ isAcceptableWebsiteLink_spec offline_env "http://example.com/app.js?v=2" = false
   /\ _valid_website_href offline_env "http://example.com/app.js?v=2" = Ok true)
  /\ (Urllib.urlparse "httpx://example.com/"
      = Ok {| url_scheme := "httpx"; url_netloc := "example.com"; url_path := "/" |}
      /\ isAcceptableWebsiteLink_spec offline_env "httpx://example.com/" = false
      /\ _valid_website_href offline_env "httpx://example.com/" = Ok true)
  /\ (Urllib.urlparse "http://google.com@example.org/"
      = Ok {| url_scheme := "http"; url_netloc := "google.com@example.org";
              url_path := "/" |}
      /\ host_of "google.com@example.org" = "example.org"
      /\ isAcceptableWebsiteLink_spec offline_env "http://google.com@example.org/" = true
      /\ _valid_website_href offline_env "http://google.com@example.org/" = Ok false)
  /\ (Urllib.urlparse "HTTP://example.com/"
      = Ok {| url_scheme := "http"; url_netloc := "example.com"; url_path := "/" |}
      /\ isAcceptableWebsiteLink_spec offline_env "HTTP://example.com/" = true
      /\ _valid_website_href offline_env "HTTP://example.com/" = Ok false).
Proof. vm_compute. repeat split. Qed.

(** A host written with the Kelvin sign lowers into the denylist. *)
Example valid_website_href_kelvin_host :
  _valid_website_href offline_env "http://doubleclicK.net/" = Ok false.
Proof. vm_compute. reflexivity. Qed.

(** In the other direction, a link whose query string ends with [.js] is
    refused by the code whatever [urlparse] answers, while the
    specification's wording accepts it. *)
Example valid_website_href_query_rejected env :
  _valid_website_href env "https://example.com/?next=app.js" = Ok false
  /\ isAcceptableWebsiteLink_spec offline_env "https://example.com/?next=app.js" = true.
Proof.
  split; [ | vm_compute; reflexivity ].
  unfold _valid_website_href.
  destruct (urlparse env _) as [ parsed | e ]; cbn [bind]; [ | reflexivity ].
  destruct (existsb _ blacklist); reflexivity.
Qed.

(** ** The scenarios of the test suite *)

(** [test_brand_disqualifier] *)
Example test_brand_disqualifier :
  classify_lead offline_env kajaria_row = Ok (name_match, name_match, 0%Z).
Proof. vm_compute. reflexivity. Qed.

(** [test_strong_offline_disqualifier] *)
Example test_strong_offline_disqualifier :
  classify_lead offline_env local_store_row = Ok (offline_presence, offline_presence, 0%Z).
Proof. vm_compute. reflexivity. Qed.

(** [test_site_score_integration], with a page worth 15 in place of the
    stub: 10 for the website, 15 for the site, 16 for the rating and 4 for
    the reviews. *)
Example test_site_score_integration :
  site_score_of plain_page_env "https://example.com" = 15%Z
  /\ classify_lead plain_page_env local_tiles_row
     = Ok (medium_priority,
           "Medium opportunity (score=45). Score computed from maps signals", 45%Z).
Proof. vm_compute. split; reflexivity. Qed.

(** * The rest of the pipeline *)

(** ** The job queue of [main] *)

(** Reading a job after [pop] and item assignment. *)
Lemma row_get_insert_ne (d : py_dict) k k' v : k <> k' -> row_get (<[k := v]> d) k' = row_get d k'.
Proof. intros H. unfold row_get. now rewrite lookup_insert_ne. Qed.

Lemma row_get_insert_eq (d : py_dict) k v : row_get (<[k := v]> d) k = v.
Proof. unfold row_get. now rewrite lookup_insert_eq. Qed.

Lemma row_get_delete_ne (d : py_dict) k k' : k <> k' -> row_get (delete k d) k' = row_get d k'.
Proof. intros H. unfold row_get. now rewrite lookup_delete_ne. Qed.

Lemma row_get_delete_eq (d : py_dict) k : row_get (delete k d) k = PNone.
Proof. unfold row_get. now rewrite lookup_delete_eq. Qed.

Ltac row_simpl :=
  repeat (rewrite row_get_insert_eq
          || rewrite row_get_delete_eq
          || (rewrite row_get_insert_ne by discriminate)
          || (rewrite row_get_delete_ne by discriminate)).

(** The jobs a loop appends. *)
Lemma for_each_Forall {A B} (P : B -> Prop) (body : A -> result (list B)) l out :
  (forall a xs, body a = Ok xs -> Forall P xs) ->
  for_each body l = Ok out -> Forall P out.
Proof.
  intros Hbody. revert out. induction l as [ | a l IH ]; cbn [for_each]; intros out.
  - intros [= <-]. constructor.
  - destruct (body a) as [ xs | ] eqn:Ha; cbn [bind]; [ | discriminate ].
    destruct (for_each body l) as [ ys | ]; cbn [bind]; [ | discriminate ].
    intros [= <-]. apply Forall_app. split; [ eapply Hbody; eassumption | now apply IH ].
Qed.

Lemma for_each_flat_map {A B} (g : A -> list B) (body : A -> result (list B)) l :
  (forall a, In a l -> body a = Ok (g a)) ->
  for_each body l = Ok (flat_map g l).
Proof.
  induction l as [ | a l IH ]; intros H; cbn [for_each flat_map]; [ reflexivity | ].
  rewrite (H a (or_introl eq_refl)). cbn [bind].
  rewrite IH by (intros; apply H; now right). reflexivity.
Qed.






Lemma map_flat_map {A B C} (f : B -> C) (g : A -> list B) l :
  map f (flat_map g l) = flat_map (fun a => map f (g a)) l.
Proof.
  induction l as [ | a l IH ]; cbn [flat_map map]; [ reflexivity | ].
  now rewrite map_app, IH.
Qed.

Lemma flat_map_ext_in {A B} (f g : A -> list B) l :
  (forall a, In a l -> f a = g a) -> flat_map f l = flat_map g l.
Proof.
  induction l as [ | a l IH ]; intros H; cbn [flat_map]; [ reflexivity | ].
  rewrite (H a (or_introl eq_refl)), IH; [ reflexivity | ].
  intros; apply H; now right.
Qed.

Lemma truthy_list l : truthy (PList l) = true <-> l <> [].
Proof. destruct l; cbn; split; congruence. Qed.

(** X13. A job with a list of categories and a list of cities expands to
    one job per pair, category by category and city by city: the pairs of
    query and city of the expanded jobs are the product of the two lists.
    Each expanded job has lost the four list keys and agrees with the raw
    job on every key other than these, [query] and [city]. *)
Theorem expand_job_product repr (job : py_dict) cats cities :
  py_or (row_get job "categories") (row_get job "category_list") = PList cats ->
  py_or (row_get job "cities") (row_get job "city_list") = PList cities ->
  cats <> [] -> cities <> [] ->
  exists out,
    expand_job repr job = Ok out
    /\ map (fun j => (row_get j "query", row_get j "city")) out = list_prod cats cities
    /\ Forall
         (fun j : py_dict =>
            Forall (fun k => j !! k = None) list_keys
            /\ forall k, ~ In k ("query" :: "city" :: list_keys) -> j !! k = job !! k)
         out.
Proof.
  intros Hcats Hcities Hc Hd.
  set (new := fun cat city : pyval =>
                <[ "city" := city ]>
                  (<[ "query" := cat ]>
                     (delete "city_list"
                        (delete "cities" (delete "category_list" (delete "categories" job)))))).
  exists (flat_map (fun cat => map (new cat) cities) cats).
  split; [ | split ].
  - unfold expand_job. rewrite Hcats, Hcities.
    rewrite (proj2 (truthy_list cats) Hc), (proj2 (truthy_list cities) Hd).
    cbn [andb py_iter bind].
    apply for_each_flat_map. intros cat _. reflexivity.
  - rewrite map_flat_map. unfold list_prod.
    induction cats as [ | cat cats' IH ] in |- *; [ reflexivity | ].
    cbn [flat_map]. f_equal; [ | ].
    + rewrite map_map. apply map_ext. intros city. unfold new. now row_simpl.
    + clear. induction cats' as [ | c l IH ]; [ reflexivity | ].
      cbn [flat_map]. rewrite IH. f_equal.
      rewrite map_map. apply map_ext. intros city. unfold new. now row_simpl.
  - apply List.Forall_forall. intros j Hj.
    apply in_flat_map in Hj as (cat & _ & Hj). apply in_map_iff in Hj as (city & <- & _).
    unfold new. split.
    + repeat constructor;
        repeat (rewrite lookup_insert_ne by discriminate);
        repeat (rewrite lookup_delete_eq || rewrite lookup_delete_ne by discriminate);
        reflexivity.
    + intros k Hk. cbn [In list_keys] in Hk.
      repeat (rewrite lookup_insert_ne by (intros E; apply Hk; subst k; auto 10)).
      repeat (rewrite lookup_delete_ne by (intros E; apply Hk; subst k; auto 10)).
      reflexivity.
Qed.

Lemma expand_job_product_witness :
  exists out,
    expand_job plain_repr tiles_marble_job = Ok out
    /\ map (fun j => (row_get j "query", row_get j "city")) out
       = [ (PStr "tiles shop", PStr "jaipur"); (PStr "tiles shop", PStr "delhi");
           (PStr "marble dealer", PStr "jaipur"); (PStr "marble dealer", PStr "delhi") ]
    /\ Forall (fun j : py_dict => row_get j "scrolls" = PInt 3) out.
Proof.
  destruct (expand_job_product plain_repr tiles_marble_job
              [PStr "tiles shop"; PStr "marble dealer"] [PStr "jaipur"; PStr "delhi"]
              ltac:(vm_compute; reflexivity) ltac:(vm_compute; reflexivity)
              ltac:(discriminate) ltac:(discriminate))
    as (out & Hout & Hpairs & Hkeys).
  exists out. split; [ exact Hout | ]. split; [ exact Hpairs | ].
  eapply List.Forall_impl; [ | exact Hkeys ].
  intros j [ _ Hsame ]. unfold row_get. rewrite Hsame.
  - vm_compute. reflexivity.
  - unfold list_keys. cbn [In]. intros H.
    repeat (destruct H as [ H | H ]; [ discriminate | ]). exact H.
Defined.

Lemma truthy_py_or a b : truthy (py_or a b) = truthy a || truthy b.
Proof. unfold py_or. destruct (truthy a) eqn:Ha; [ exact Ha | reflexivity ]. Qed.

Example utf8_chars_sample : utf8_chars "café 1" = [ "c"; "a"; "f"; "é"; " "; "1" ].
Proof. reflexivity. Qed.

(** The characters of a string are not empty. *)
Lemma utf8_chars_nonempty s : Forall (fun ch => PyStr.nonempty ch = true) (utf8_chars s).
Proof.
  induction s as [ | c s IH ]; [ constructor | ].
  cbn [utf8_chars]. destruct s as [ | d s ]; [ repeat constructor | ].
  destruct (is_continuation d).
  - destruct (utf8_chars (String d s)) as [ | first rest ]; [ repeat constructor | ].
    inversion IH; subst. constructor; [ reflexivity | assumption ].
  - constructor; [ reflexivity | exact IH ].
Qed.

(** The characters of a string make up the string. *)
Lemma utf8_chars_concat s : fold_right String.append "" (utf8_chars s) = s.
Proof.
  induction s as [ | c s IH ]; [ reflexivity | ].
  cbn [utf8_chars]. destruct s as [ | d s ]; [ reflexivity | ].
  destruct (is_continuation d).
  - destruct (utf8_chars (String d s)) as [ | first rest ]; [ discriminate IH | ].
    cbn [fold_right] in *.
    change (String c first ++ fold_right String.append "" rest)
      with (String c (first ++ fold_right String.append "" rest)).
    now rewrite IH.
  - cbn [fold_right].
    change (String c "" ++ fold_right String.append "" (utf8_chars (String d s)))
      with (String c (fold_right String.append "" (utf8_chars (String d s)))).
    now rewrite IH.
Qed.

(** X14. Categories given as one string, with no city at all, are iterated
    character by character: the job expands to one job per character of
    the string, and the search string of each is that single character. *)
Theorem expand_job_string_categories repr (job : py_dict) s :
  py_or (row_get job "categories") (row_get job "category_list") = PStr s ->
  s <> "" ->
  truthy (py_or (row_get job "cities") (row_get job "city_list")) = false ->
  truthy (py_or (row_get job "city") (row_get job "city_name")) = false ->
  exists out,
    expand_job repr job = Ok out
    /\ map (fun j => search_query_of repr j) out = map PStr (utf8_chars s)
    /\ fold_right String.append "" (utf8_chars s) = s.
Proof.
  intros Hcats Hs Hcities Hcity.
  eexists. split; [ | split ].
  - unfold expand_job. rewrite Hcats, Hcities, Hcity.
    replace (truthy (PStr s)) with true by (destruct s; [ congruence | reflexivity ]).
    cbn [andb py_iter bind]. reflexivity.
  - rewrite !map_map. apply map_ext_in. intros ch Hch.
    unfold search_query_of. row_simpl.
    pose proof (utf8_chars_nonempty s) as Hne.
    rewrite List.Forall_forall in Hne. specialize (Hne ch Hch).
    cbn [truthy]. rewrite Hne. reflexivity.
  - apply utf8_chars_concat.
Qed.

Lemma expand_job_string_categories_witness :
  exists out,
    expand_job plain_repr string_categories_job = Ok out
    /\ map (fun j => search_query_of plain_repr j) out
       = [ PStr "t"; PStr "i"; PStr "l"; PStr "e"; PStr "s" ].
Proof.
  destruct (expand_job_string_categories plain_repr string_categories_job "tiles")
    as (out & Hout & Hqueries & _).
  - vm_compute. reflexivity.
  - discriminate.
  - vm_compute. reflexivity.
  - vm_compute. reflexivity.
  - exists out. split; [ exact Hout | exact Hqueries ].
Defined.

(** X15. Categories that are truthy but not iterable (a number) make the
    whole expansion raise: the jobs expanded before the offending job are
    lost with it. *)
Theorem expand_jobs_not_iterable repr before (job : py_dict) after done e :
  expand_jobs repr before = Ok done ->
  truthy (py_or (row_get job "categories") (row_get job "category_list")) = true ->
  py_iter (py_or (row_get job "categories") (row_get job "category_list")) = Raise e ->
  expand_jobs repr (before ++ job :: after) = Raise e.
Proof.
  intros Hbefore Hcats Hiter.
  assert (Hjob : expand_job repr job = Raise e).
  { unfold expand_job. rewrite Hcats, Hiter.
    destruct (truthy (py_or (row_get job "cities") (row_get job "city_list"))); cbn [andb bind];
      [ reflexivity | ].
    destruct (truthy (py_or (row_get job "city") (row_get job "city_name"))); reflexivity. }
  unfold expand_jobs in *. revert done Hbefore.
  induction before as [ | b before IH ]; intros done Hbefore; cbn [app for_each].
  - rewrite Hjob. reflexivity.
  - cbn [for_each] in Hbefore.
    destruct (expand_job repr b) as [ xs | ]; cbn [bind] in *; [ | discriminate ].
    destruct (for_each (expand_job repr) before) as [ ys | ]; cbn [bind] in *; [ | discriminate ].
    rewrite (IH ys eq_refl). reflexivity.
Qed.

Lemma expand_jobs_not_iterable_witness :
  expand_jobs plain_repr
    ([tiles_marble_job] ++ number_categories_job :: [string_categories_job])
  = Raise (Exn TypeError "'int' object is not iterable").
Proof.
  destruct (expand_jobs plain_repr [tiles_marble_job]) as [ done | e ] eqn:Hdone.
  - apply (expand_jobs_not_iterable plain_repr [tiles_marble_job] number_categories_job
             [string_categories_job] done
             (Exn TypeError "'int' object is not iterable") Hdone).
    + vm_compute. reflexivity.
    + vm_compute. reflexivity.
  - assert (Hruns : match expand_jobs plain_repr [tiles_marble_job] with
                     | Ok _ => True
                     | Raise _ => False
                     end) by (vm_compute; exact I).
    rewrite Hdone in Hruns. destruct Hruns.
Defined.

(** X16. A job that carries a [search] string keeps it in every job it
    expands to, unless it has categories but neither cities nor city; and
    [main] runs [search] when there is one.  So the categories and cities
    of such a job multiply the same search instead of varying it. *)
Theorem expand_job_keeps_search repr (job : py_dict) out :
  truthy (row_get job "search") = true ->
  expand_job repr job = Ok out ->
  truthy (py_or (row_get job "cities") (row_get job "city_list")) = true
  \/ truthy (py_or (row_get job "city") (row_get job "city_name")) = true
  \/ truthy (py_or (row_get job "categories") (row_get job "category_list")) = false ->
  Forall (fun j => search_query_of repr j = row_get job "search") out.
Proof.
  intros Hsearch Hrun Hcase.
  assert (Hkeep : forall j : py_dict,
             row_get j "search" = row_get job "search" ->
             search_query_of repr j = row_get job "search").
  { intros j Hj. unfold search_query_of. rewrite Hj, Hsearch. reflexivity. }
  revert Hrun. unfold expand_job.
  destruct (truthy (py_or (row_get job "categories") (row_get job "category_list"))) eqn:Hcats;
    destruct (truthy (py_or (row_get job "cities") (row_get job "city_list"))) eqn:Hcities;
    cbn [andb].
  - destruct (py_iter _) as [ cat_list | ]; cbn [bind]; [ | discriminate ].
    apply for_each_Forall. intros cat xs.
    destruct (py_iter _) as [ city_list | ]; cbn [bind]; [ | discriminate ].
    intros [= <-]. apply Forall_map, Forall_forall. intros city _.
    apply Hkeep. now row_simpl.
  - destruct Hcase as [ H | [ Hcity | H ] ]; try discriminate.
    rewrite Hcity.
    destruct (py_iter _) as [ cat_list | ]; cbn [bind]; [ | discriminate ].
    intros [= <-]. apply Forall_map, Forall_forall. intros cat _.
    apply Hkeep. now row_simpl.
  - assert (Hq : truthy (py_or (py_or (row_get job "query") (row_get job "category"))
                           (row_get job "search")) = true).
    { rewrite truthy_py_or, Hsearch. apply orb_true_r. }
    rewrite Hq.
    destruct (py_iter _) as [ city_list | ]; cbn [bind]; [ | discriminate ].
    intros [= <-]. apply Forall_map, Forall_forall. intros city _.
    apply Hkeep. now row_simpl.
  - intros [= <-]. constructor; [ | constructor ]. now apply Hkeep.
Qed.

Lemma expand_job_keeps_search_witness :
  exists out,
    expand_job plain_repr search_and_lists_job = Ok out
    /\ Forall (fun j => search_query_of plain_repr j = PStr "tiles shop in jaipur") out.
Proof.
  destruct (expand_job plain_repr search_and_lists_job) as [ out | e ] eqn:Hout.
  - exists out. split; [ reflexivity | ].
    apply (expand_job_keeps_search plain_repr search_and_lists_job out).
    + vm_compute. reflexivity.
    + exact Hout.
    + left. vm_compute. reflexivity.
  - assert (Hruns : match expand_job plain_repr search_and_lists_job with
                     | Ok _ => True
                     | Raise _ => False
                     end) by (vm_compute; exact I).
    rewrite Hout in Hruns. destruct Hruns.
Defined.

Lemma contains_char c s : PyStr.contains (String c "") s = Urllib.has_char c s.
Proof.
  induction s as [ | d s IH ]; [ reflexivity | ].
  cbn [PyStr.contains PyStr.startswith Urllib.has_char].
  rewrite IH, andb_true_r. reflexivity.
Qed.

Lemma has_char_append c a b :
  Urllib.has_char c (a ++ b) = Urllib.has_char c a || Urllib.has_char c b.
Proof.
  induction a as [ | d a IH ]; [ reflexivity | ].
  change (String d a ++ b) with (String d (a ++ b)).
  cbn [Urllib.has_char]. rewrite IH. apply orb_assoc.
Qed.

Lemma has_char_replaced a b s : a <> b -> Urllib.has_char a (replace_char a b s) = false.
Proof.
  intros Hab. induction s as [ | d s IH ]; [ reflexivity | ].
  cbn [replace_char Urllib.has_char]. rewrite IH, orb_false_r.
  destruct (Ascii.eqb_spec d a) as [ -> | Hda ].
  - now apply Ascii.eqb_neq.
  - apply Ascii.eqb_neq. congruence.
Qed.

Lemma has_char_replace_other c a b s :
  c <> b -> Urllib.has_char c s = false -> Urllib.has_char c (replace_char a b s) = false.
Proof.
  intros Hcb. induction s as [ | d s IH ]; [ reflexivity | ].
  cbn [replace_char Urllib.has_char]. intros H.
  apply orb_false_iff in H as [ Hd Hs ]. rewrite (IH Hs), orb_false_r.
  destruct (Ascii.eqb d a); [ now apply Ascii.eqb_neq | exact Hd ].
Qed.

Lemma replace_char_length a b s : String.length (replace_char a b s) = String.length s.
Proof. induction s as [ | c s IH ]; cbn [replace_char String.length]; congruence. Qed.

Lemma replace_char_get a b s i :
  String.get i (replace_char a b s)
  = option_map (fun c => if Ascii.eqb c a then b else c) (String.get i s).
Proof.
  revert i. induction s as [ | c s IH ]; intros i; [ reflexivity | ].
  destruct i as [ | i ]; cbn [replace_char String.get option_map]; [ reflexivity | apply IH ].
Qed.

(** X18. The file name generated for a search string [s] is
    [leads_<safe>_<ts>.csv], where [safe] is [s] with an underscore in the
    place of each blank and of each slash, and every other character as it
    is.  The name contains no slash and no blank, provided the time stamp
    has none. *)
Theorem generated_name_safe s ts :
  exists safe,
    generated_name (PStr s) ts = Ok ("leads_" ++ safe ++ "_" ++ ts ++ ".csv")
    /\ String.length safe = String.length s
    /\ (forall i,
          String.get i safe
          = option_map
              (fun c => if Ascii.eqb c " " || Ascii.eqb c "/" then "_"%char else c)
              (String.get i s))
    /\ (PyStr.contains "/" ts = false ->
        PyStr.contains "/" ("leads_" ++ safe ++ "_" ++ ts ++ ".csv") = false)
    /\ (PyStr.contains " " ts = false ->
        PyStr.contains " " ("leads_" ++ safe ++ "_" ++ ts ++ ".csv") = false).
Proof.
  exists (replace_char "/" "_" (replace_char " " "_" s)).
  split; [ reflexivity | ].
  split; [ now rewrite !replace_char_length | ].
  split.
  - intros i. rewrite !replace_char_get.
    destruct (String.get i s) as [ c | ]; [ | reflexivity ]. cbn [option_map].
    destruct (Ascii.eqb_spec c " ") as [ -> | _ ]; [ reflexivity | ].
    destruct (Ascii.eqb c "/"); reflexivity.
  - rewrite !contains_char, !has_char_append.
    split; intros ->.
    + rewrite has_char_replaced by discriminate. reflexivity.
    + rewrite has_char_replace_other; [ reflexivity | discriminate | ].
      apply has_char_replaced. discriminate.
Qed.

(** On a search string of the queue. *)
Example generated_name_sample :
  generated_name (PStr "tiles shop in jaipur/amer") "20240101T000000Z"
  = Ok "leads_tiles_shop_in_jaipur_amer_20240101T000000Z.csv".
Proof. reflexivity. Qed.

(** X17. Without [search], the search string is always
    [<query> in <city>], with the defaults [tiles shop] and [jaipur]: the
    branch that would run the query alone is never taken, and the file name
    can always be generated. *)
Theorem search_query_without_search repr (job : py_dict) :
  truthy (row_get job "search") = false ->
  search_query_of repr job
  = PStr (py_str repr (py_or (py_or (row_get job "query") (row_get job "q"))
                         (PStr "tiles shop"))
          ++ " in " ++ py_str repr (py_or (row_get job "city") (PStr "jaipur")))
  /\ forall ts, exists name, generated_name (search_query_of repr job) ts = Ok name.
Proof.
  intros Hsearch.
  assert (E : search_query_of repr job
              = PStr (py_str repr (py_or (py_or (row_get job "query") (row_get job "q"))
                                     (PStr "tiles shop"))
                      ++ " in " ++ py_str repr (py_or (row_get job "city") (PStr "jaipur")))).
  { unfold search_query_of. rewrite Hsearch.
    rewrite (truthy_py_or (row_get job "city")). cbn [truthy PyStr.nonempty].
    rewrite orb_true_r. reflexivity. }
  split; [ exact E | ]. intros ts. rewrite E. eexists. reflexivity.
Qed.

Lemma search_query_without_search_witness :
  search_query_of plain_repr empty_job = PStr "tiles shop in jaipur"
  /\ forall ts, exists name, generated_name (search_query_of plain_repr empty_job) ts = Ok name.
Proof.
  destruct (search_query_without_search plain_repr empty_job
              ltac:(vm_compute; reflexivity))
    as [ Hquery Hname ].
  split; [ | exact Hname ].
  rewrite Hquery. vm_compute. reflexivity.
Defined.

(** ** Redirect links and the choice of the website *)

(** X8. [extract_website_from_google_redirect] raises exactly when the
    link is not empty and [urlparse] raises, with the exception of
    [urlparse]; [_valid_website_href] answers False on such a link. *)
Theorem extract_raises_iff lenv href e :
  (extract_website_from_google_redirect lenv href = Raise e
   <-> href <> "" /\ urlparse (link_env lenv) href = Raise e)
  /\ (urlparse (link_env lenv) href = Raise e ->
      _valid_website_href (link_env lenv) href = Ok false).
Proof.
  split.
  - unfold extract_website_from_google_redirect.
    destruct href as [ | c href' ] eqn:Ehref; cbn [PyStr.nonempty negb].
    + split; [ discriminate | intros [ H _ ]; congruence ].
    + rewrite <- Ehref.
      destruct (urlparse (link_env lenv) href) as [ parsed | e' ]; cbn [bind].
      * split; [ | intros [ _ H ]; discriminate ].
        destruct (_ && _); [ | discriminate ].
        destruct (_ !! _) as [ [ | q0 rest ] | ]; discriminate.
      * split; [ intros [= ->]; split; [ subst; discriminate | reflexivity ]
               | intros [ _ [= ->] ]; reflexivity ].
  - intros H. unfold _valid_website_href. rewrite H. cbn [bind].
    destruct (_ || _); reflexivity.
Qed.

(** X9. A non-empty link whose network location contains [google.com]
    is refused by [_valid_website_href].  The redirect step returns the
    unquoted first value of [q] when the path of the link starts with
    [/url] and [parse_qs] gives [q] a value, and the link itself in every
    other case. *)
Theorem google_host_refused lenv href parsed :
  href <> "" ->
  urlparse (link_env lenv) href = Ok parsed ->
  PyStr.contains "google.com" (url_netloc parsed) = true ->
  _valid_website_href (link_env lenv) href = Ok false
  /\ (PyStr.startswith "/url" (url_path parsed) = true ->
      forall q0 rest,
        parse_qs lenv (urlparse_query lenv href) !! "q" = Some (q0 :: rest) ->
        extract_website_from_google_redirect lenv href = Ok (Some (unquote lenv q0)))
  /\ (PyStr.startswith "/url" (url_path parsed) = false
      \/ parse_qs lenv (urlparse_query lenv href) !! "q" = None
      \/ parse_qs lenv (urlparse_query lenv href) !! "q" = Some [] ->
      extract_website_from_google_redirect lenv href = Ok (Some href)).
Proof.
  intros Hne Hparsed Hhost.
  assert (Hextract :
            extract_website_from_google_redirect lenv href
            = if PyStr.startswith "/url" (url_path parsed) then
                match parse_qs lenv (urlparse_query lenv href) !! "q" with
                | Some (q0 :: _) => Ok (Some (unquote lenv q0))
                | _ => Ok (Some href)
                end
              else Ok (Some href)).
  { unfold extract_website_from_google_redirect.
    replace (PyStr.nonempty href) with true by (destruct href; [ congruence | reflexivity ]).
    cbn [negb]. rewrite Hparsed. cbn [bind]. rewrite Hhost. reflexivity. }
  split; [ | split ].
  - unfold _valid_website_href. rewrite Hparsed. cbn [bind].
    destruct (_ || _); [ reflexivity | ].
    assert (Hlow : PyStr.contains "google.com" (PyStr.lower (url_netloc parsed)) = true).
    { apply PyStrFacts.contains_lower_plain; [ vm_compute; reflexivity | exact Hhost ]. }
    unfold blacklist. cbn [existsb]. rewrite Hlow. reflexivity.
  - intros Hpath q0 rest Hq. rewrite Hextract, Hpath, Hq. reflexivity.
  - intros [ Hpath | [ Hq | Hq ] ]; rewrite Hextract.
    + rewrite Hpath. reflexivity.
    + rewrite Hq. destruct (PyStr.startswith _ _); reflexivity.
    + rewrite Hq. destruct (PyStr.startswith _ _); reflexivity.
Qed.

Lemma google_host_refused_witness :
  (_valid_website_href offline_env bare_redirect_link = Ok false
   /\ extract_website_from_google_redirect link_stand_in bare_redirect_link
      = Ok (Some bare_redirect_link))
  /\ (_valid_website_href offline_env redirect_link = Ok false
      /\ extract_website_from_google_redirect link_stand_in redirect_link
         = Ok (Some "https://shop.example/tiles")).
Proof.
  split.
  - destruct (google_host_refused link_stand_in bare_redirect_link
                {| url_scheme := "https"; url_netloc := "www.google.com";
                   url_path := "/url" |}
                ltac:(discriminate) ltac:(vm_compute; reflexivity)
                ltac:(vm_compute; reflexivity)) as (Hvalid & _ & Hsame).
    split; [ exact Hvalid | ].
    apply Hsame. right. left. vm_compute. reflexivity.
  - destruct (google_host_refused link_stand_in redirect_link
                {| url_scheme := "https"; url_netloc := "www.google.com";
                   url_path := "/url" |}
                ltac:(discriminate) ltac:(vm_compute; reflexivity)
                ltac:(vm_compute; reflexivity)) as (Hvalid & Hredirect & _).
    split; [ exact Hvalid | ].
    rewrite (Hredirect ltac:(vm_compute; reflexivity) "https://shop.example/tiles" []
               ltac:(vm_compute; reflexivity)).
    vm_compute. reflexivity.
Defined.

Lemma scan_links_found lenv links w :
  scan_links lenv links = Ok (Some w) ->
  PyStr.nonempty w = true /\ _valid_website_href (link_env lenv) w = Ok true.
Proof.
  induction links as [ | link rest IH ]; cbn [scan_links]; [ discriminate | ].
  destruct link as [ href | ]; cbn [bind]; [ | discriminate ].
  destruct (has_link href); [ | exact IH ].
  destruct (extract_website_from_google_redirect _ _) as [ candidate | ]; cbn [bind];
    [ | discriminate ].
  destruct (has_link candidate) eqn:Hc.
  - destruct (_valid_website_href (link_env lenv) (default "" candidate))
      as [ [ | ] | ] eqn:Hv; cbn [bind]; [ | exact IH | discriminate ].
    intros [= ->]. auto.
  - cbn [bind]. exact IH.
Qed.

Lemma scan_buttons_found lenv buttons w :
  scan_buttons lenv buttons = Ok (Some w) ->
  PyStr.nonempty w = true /\ _valid_website_href (link_env lenv) w = Ok true.
Proof.
  induction buttons as [ | button rest IH ]; cbn [scan_buttons]; [ discriminate | ].
  destruct button as [ links | ]; cbn [bind]; [ | discriminate ].
  destruct (scan_links lenv links) as [ found | ] eqn:Hs; cbn [bind]; [ | discriminate ].
  destruct (has_link found); [ | exact IH ].
  intros [= ->]. exact (scan_links_found _ _ _ Hs).
Qed.

(** X10. The website of a record comes out of the redirect step of the
    authority button (method 1), or it is a non-empty link that
    [_valid_website_href] accepts (methods 2 and 3). *)
Theorem select_website_origin lenv page w :
  select_website lenv page = Some w ->
  (exists href,
      page_authority page = AuthorityHref (Some href)
      /\ extract_website_from_google_redirect lenv href = Ok (Some w))
  \/ (PyStr.nonempty w = true /\ _valid_website_href (link_env lenv) w = Ok true).
Proof.
  unfold select_website.
  destruct (page_opened page); [ | discriminate ].
  destruct (method_1 lenv (page_authority page)) as [ w1 | ] eqn:H1; [ | discriminate ].
  assert (Hfirst : w1 = Some w ->
            exists href,
              page_authority page = AuthorityHref (Some href)
              /\ extract_website_from_google_redirect lenv href = Ok (Some w)).
  { intros ->. unfold method_1 in H1.
    destruct (page_authority page) as [ | | [ href | ] ]; try discriminate.
    destruct (has_link (Some href)); [ | discriminate ].
    exists href. auto. }
  unfold method_3, method_2.
  destruct (has_link w1) eqn:Hw1.
  - rewrite Hw1. intros E. left. auto.
  - destruct (bind (page_buttons page) _) as [ found2 | ] eqn:H2.
    + destruct (has_link found2) eqn:Hf2.
      * rewrite Hf2. intros ->. right.
        destruct (page_buttons page) as [ bs | ]; cbn [bind] in H2; [ | discriminate ].
        exact (scan_buttons_found _ _ _ H2).
      * rewrite Hw1.
        destruct (bind (page_main_links page) _) as [ found3 | ] eqn:H3; [ | auto ].
        destruct (has_link found3) eqn:Hf3; [ | auto ].
        intros ->. right.
        destruct (page_main_links page) as [ ls | ]; cbn [bind] in H3; [ | discriminate ].
        exact (scan_links_found _ _ _ H3).
    + rewrite Hw1.
      destruct (bind (page_main_links page) _) as [ found3 | ] eqn:H3; [ | auto ].
      destruct (has_link found3) eqn:Hf3; [ | auto ].
      intros ->. right.
      destruct (page_main_links page) as [ ls | ]; cbn [bind] in H3; [ | discriminate ].
      exact (scan_links_found _ _ _ H3).
Qed.

Lemma select_website_origin_witness :
  select_website link_stand_in redirect_page = Some "https://shop.example/tiles"
  /\ _valid_website_href offline_env "https://shop.example/tiles" = Ok true.
Proof.
  assert (Hsel : select_website link_stand_in redirect_page
                 = Some "https://shop.example/tiles") by (vm_compute; reflexivity).
  split; [ exact Hsel | ].
  destruct (select_website_origin link_stand_in redirect_page
              "https://shop.example/tiles" Hsel) as [ (href & Hauthority & _) | [ _ H ] ].
  - discriminate Hauthority.
  - exact H.
Defined.

(** X11. A non-empty link behind the authority button is stored as the
    website as it comes out of the redirect step, whatever the other
    methods would find and whether or not [_valid_website_href] accepts
    it. *)
Theorem authority_link_unfiltered lenv page href w :
  page_opened page = Ok tt ->
  page_authority page = AuthorityHref (Some href) ->
  href <> "" ->
  extract_website_from_google_redirect lenv href = Ok (Some w) ->
  w <> "" ->
  select_website lenv page = Some w.
Proof.
  intros Hopen Hauth Hhref Hextract Hw.
  unfold select_website, method_1. rewrite Hopen, Hauth.
  replace (has_link (Some href)) with true by (destruct href; [ congruence | reflexivity ]).
  change (default "" (Some href)) with href. rewrite Hextract.
  unfold method_3, method_2.
  replace (has_link (Some w)) with true by (destruct w; [ congruence | reflexivity ]).
  replace (has_link (Some w)) with true by (destruct w; [ congruence | reflexivity ]).
  reflexivity.
Qed.

Lemma authority_link_unfiltered_witness :
  select_website link_stand_in maps_authority_page = Some maps_link
  /\ _valid_website_href offline_env maps_link = Ok false.
Proof.
  split; [ | vm_compute; reflexivity ].
  apply (authority_link_unfiltered link_stand_in maps_authority_page maps_link maps_link).
  - reflexivity.
  - reflexivity.
  - discriminate.
  - vm_compute. reflexivity.
  - discriminate.
Defined.

(** ** The classifier on the records of the scraper *)

Lemma field_text_total_str s : exists t, field_text (PStr s) = Some t.
Proof. destruct s; eexists; reflexivity. Qed.

Lemma field_text_none : field_text PNone = Some "".
Proof. reflexivity. Qed.

(** The scorer on typed records. *)
Lemma typed_record_scored env (row : py_dict) name website phone category :
  field_text (row_get row "business_name") = Some name ->
  field_text (row_get row "website") = Some website ->
  field_text (py_or (row_get row "phone") (row_get row "phone_number")) = Some phone ->
  field_text (row_get row "category") = Some category ->
  truthy (row_get row "has_website") = true
  \/ (exists rating reviews,
        field_number (row_get row "rating") = Some rating
        /\ field_number (row_get row "reviews") = Some reviews) ->
  exists score reason,
    _compute_lead_score env row = Ok (score, reason) /\ (0 <= score <= 100)%Z.
Proof.
  intros Hn Hw Hp Hc Hnum.
  assert (Hrun : exists score reason, _compute_lead_score env row = Ok (score, reason)).
  { destruct Hnum as [ Hsite | (rating & reviews & Hr & Hv) ].
    - rewrite (compute_lead_score_text env row name website phone category Hn Hw Hp Hc).
      destruct (brand_loop _ _ _) as [ [score reason] | ]; [ eauto | ].
      cbn zeta. rewrite Hsite. cbn [strong_offline negb bind].
      destruct (score_signals_returns env true (PyStr.strip website)
                  (py_or (row_get row "rating") (PInt 0))
                  (py_or (row_get row "reviews") (PInt 0)) (PyStr.strip phone)
                  (py_or (py_or (row_get row "photos") (row_get row "photo_count")) (PInt 0))
                  (PyStr.lower category)) as (z & -> & _).
      eauto.
    - exact (compute_lead_score_returns env row name website phone category
               Hn Hw Hp Hc rating reviews Hr Hv). }
  destruct Hrun as (score & reason & Hrun).
  exists score, reason. split; [ exact Hrun | ].
  destruct (compute_lead_score_cases _ _ _ _ Hrun)
    as [ [-> _] | (_ & w & p & c & Hz) ]; [ lia | ].
  destruct (py_round_clamp (total_of env row w p c)) as (z & Hz' & Hr).
  rewrite Hz in Hz'. injection Hz' as ->. exact Hr.
Qed.

(** [classify_lead] raises nothing of its own: it returns the score of the
    scorer. *)
Lemma classify_lead_passes_score env row score reason :
  _compute_lead_score env row = Ok (score, reason) ->
  exists lead_type explanation, classify_lead env row = Ok (lead_type, explanation, score).
Proof.
  intros Hrun. rewrite (classify_lead_of_score _ _ _ _ Hrun).
  destruct (is_disqualified score reason); [ eauto | ].
  destruct (70 <=? score)%Z; [ eauto | ].
  destruct (40 <=? score)%Z; eauto.
Qed.

(** X1. [classify_lead] returns, with a score between 0 and 100, on every
    record in which the four texts the scorer reads are text (a string, or
    a missing or falsy value): [business_name], [website], [category] and
    the phone, which is the value of [phone] or, when that is missing or
    falsy, of [phone_number]; and which either is flagged [has_website]
    (rating, reviews and photos may then hold anything) or has numbers, or
    nothing, as rating and reviews. *)
Theorem classify_lead_returns env (row : py_dict) name website phone category :
  field_text (row_get row "business_name") = Some name ->
  field_text (row_get row "website") = Some website ->
  field_text (py_or (row_get row "phone") (row_get row "phone_number")) = Some phone ->
  field_text (row_get row "category") = Some category ->
  truthy (row_get row "has_website") = true
  \/ (exists rating reviews,
        field_number (row_get row "rating") = Some rating
        /\ field_number (row_get row "reviews") = Some reviews) ->
  exists lead_type explanation score,
    classify_lead env row = Ok (lead_type, explanation, score)
    /\ (0 <= score <= 100)%Z.
Proof.
  intros Hn Hw Hp Hc Hnum.
  destruct (typed_record_scored env row name website phone category Hn Hw Hp Hc Hnum)
    as (score & reason & Hrun & Hrange).
  destruct (classify_lead_passes_score env row score reason Hrun)
    as (lead_type & explanation & Hclass).
  exists lead_type, explanation, score. split; [ exact Hclass | exact Hrange ].
Qed.

Lemma classify_lead_returns_witness :
  exists lead_type explanation score,
    classify_lead offline_env text_rating_site_row = Ok (lead_type, explanation, score)
    /\ (0 <= score <= 100)%Z.
Proof.
  apply (classify_lead_returns offline_env text_rating_site_row "Corner Shop" "" "" "").
  - vm_compute. reflexivity.
  - vm_compute. reflexivity.
  - vm_compute. reflexivity.
  - vm_compute. reflexivity.
  - left. vm_compute. reflexivity.
Defined.

Lemma field_number_scraped v :
  (v = PNone \/ (exists f, v = PFloat f) \/ (exists z, v = PInt z)) ->
  exists a, field_number v = Some a.
Proof.
  unfold field_number, py_or.
  intros [ -> | [ (f & ->) | (z & ->) ] ]; [ eexists; reflexivity | | ];
    destruct (truthy _); eexists; reflexivity.
Qed.

(** X2. [classify_lead] returns, with a score between 0 and 100, on every
    record in the form [scrape_google_maps] appends it: the types of its
    fields (text, a float or nothing for the rating, an integer or nothing
    for the reviews, text or nothing for website, phone and address) rule
    out every exception of the scorer, in every environment. *)
Theorem card_record_classified env name category rating reviews has_website website phone address :
  exists lead_type explanation score,
    classify_lead env
      (card_record name category rating reviews has_website website phone address)
    = Ok (lead_type, explanation, score)
    /\ (0 <= score <= 100)%Z.
Proof.
  set (row := card_record name category rating reviews has_website website phone address).
  assert (Hn : row_get row "business_name" = PStr name) by (vm_compute; reflexivity).
  assert (Hw : row_get row "website" = option_val PStr website) by (vm_compute; reflexivity).
  assert (Hp : exists p,
             field_text (py_or (row_get row "phone") (row_get row "phone_number")) = Some p).
  { replace (row_get row "phone_number") with PNone by (vm_compute; reflexivity).
    replace (row_get row "phone") with (option_val PStr phone) by (vm_compute; reflexivity).
    destruct phone as [ [ | c s ] | ]; eexists; reflexivity. }
  assert (Hc : row_get row "category" = PStr category) by (vm_compute; reflexivity).
  assert (Hr : row_get row "rating" = option_val PFloat rating) by (vm_compute; reflexivity).
  assert (Hv : row_get row "reviews" = option_val PInt reviews) by (vm_compute; reflexivity).
  assert (Htext : forall o, exists t, field_text (option_val PStr o) = Some t).
  { intros [ s | ]; [ apply field_text_total_str | eexists; reflexivity ]. }
  destruct (field_text_total_str name) as (n & Hn').
  destruct (Htext website) as (w & Hw').
  destruct Hp as (p & Hp').
  destruct (field_text_total_str category) as (c & Hc').
  destruct (field_number_scraped (option_val PFloat rating)) as (a & Ha);
    [ destruct rating; cbn; eauto | ].
  destruct (field_number_scraped (option_val PInt reviews)) as (b & Hb);
    [ destruct reviews; cbn; eauto | ].
  destruct (typed_record_scored env row n w p c) as (score & reason & Hrun & Hrange);
    rewrite ?Hn, ?Hw, ?Hc; try assumption.
  { right. rewrite Hr, Hv. eauto. }
  destruct (classify_lead_passes_score env row score reason Hrun)
    as (lead_type & explanation & Hclass).
  exists lead_type, explanation, score. split; [ exact Hclass | exact Hrange ].
Qed.

(** ** Domains and the denylist *)

Lemma existsb_false_In {A : Type} (f : A -> bool) (l : list A) x :
  existsb f l = false -> In x l -> f x = false.
Proof.
  intros H Hin. destruct (f x) eqn:Hfx; [ | reflexivity ].
  assert (existsb f l = true) by (apply existsb_exists; eauto). congruence.
Qed.

(** X6. [_extract_domain] returns a lower-case string, the empty string
    when [urlparse] raises; no entry of the denylist occurs in the domain of
    a link that [_valid_website_href] accepts. *)
Theorem extract_domain_spec env url :
  PyStr.lower (_extract_domain env url) = _extract_domain env url
  /\ (forall e, urlparse env url = Raise e -> _extract_domain env url = "")
  /\ (_valid_website_href env url = Ok true ->
      forall entry, In entry blacklist ->
        PyStr.contains entry (_extract_domain env url) = false).
Proof.
  unfold _extract_domain, _valid_website_href.
  destruct (urlparse env url) as [ parsed | e ]; cbn [bind try_or].
  - split; [ apply PyStrFacts.lower_idempotent | ]. split; [ discriminate | ].
    destruct (_ || _); [ discriminate | ].
    destruct (existsb _ blacklist) eqn:Hb; [ discriminate | ].
    intros _ entry Hin.
    exact (existsb_false_In
             (fun b => PyStr.contains b (PyStr.lower (url_netloc parsed))) _ _ Hb Hin).
  - split; [ reflexivity | ]. split; [ reflexivity | ].
    destruct (_ || _); discriminate.
Qed.

Lemma startswith_shorter a b s :
  PyStr.startswith (a ++ b) s = true -> PyStr.startswith a s = true.
Proof.
  revert s. induction a as [ | c a IH ]; intros s; [ reflexivity | ].
  change (String c a ++ b) with (String c (a ++ b)).
  destruct s as [ | d s ]; cbn [PyStr.startswith]; [ discriminate | ].
  intros H. apply andb_true_iff in H as [ -> H ]. exact (IH _ H).
Qed.

Lemma contains_shorter a b s :
  PyStr.contains (a ++ b) s = true -> PyStr.contains a s = true.
Proof.
  induction s as [ | d s IH ]; cbn [PyStr.contains]; intros H;
    apply orb_true_iff in H as [ H | H ]; try discriminate.
  - now rewrite (startswith_shorter _ _ _ H).
  - now rewrite (startswith_shorter _ _ _ H).
  - rewrite (IH H). apply orb_true_r.
Qed.

(** X7. The denylist entry [g.co] is matched as a substring: every link
    whose lowercased network location contains [g.com] is refused. *)
Theorem g_com_hosts_refused env href parsed :
  urlparse env href = Ok parsed ->
  PyStr.contains "g.com" (PyStr.lower (url_netloc parsed)) = true ->
  _valid_website_href env href = Ok false.
Proof.
  intros Hparsed Hhost. unfold _valid_website_href. rewrite Hparsed. cbn [bind].
  destruct (_ || _); [ reflexivity | ].
  assert (Hgco : PyStr.contains "g.co" (PyStr.lower (url_netloc parsed)) = true)
    by exact (contains_shorter "g.co" "m" _ Hhost).
  assert (Hb : existsb (fun b => PyStr.contains b (PyStr.lower (url_netloc parsed))) blacklist
               = true).
  { apply existsb_exists. exists "g.co". split; [ | exact Hgco ].
    unfold blacklist. cbn [In]. auto 12. }
  rewrite Hb. reflexivity.
Qed.

Lemma g_com_hosts_refused_witness :
  _valid_website_href offline_env "https://www.bing.com/" = Ok false.
Proof.
  apply (g_com_hosts_refused offline_env "https://www.bing.com/"
           {| url_scheme := "https"; url_netloc := "www.bing.com"; url_path := "/" |}).
  - vm_compute. reflexivity.
  - vm_compute. reflexivity.
Defined.

(** ** Ratings that are not numbers *)

Lemma quick_site_check_range env url timeout score details :
  quick_site_check env url timeout = Ok (score, details) -> (0 <= score <= 20)%Z.
Proof.
  destruct (WEBCHECK_AVAILABLE env) eqn:Hweb;
    [ destruct (PyStr.nonempty url) eqn:Hurl | ].
  2: rewrite (quick_site_check_disabled env url timeout (or_intror Hurl));
     intros [= <- _]; lia.
  2: rewrite (quick_site_check_disabled env url timeout (or_introl Hweb));
     intros [= <- _]; lia.
  destruct (urlparse env url) as [ parsed | e1 ] eqn:Hparsed.
  2: rewrite (quick_site_check_bad_url env url timeout e1 Hweb Hurl Hparsed);
     intros [= <- _]; lia.
  destruct (requests_get env url timeout) as [ resp | e2 ] eqn:Hresp.
  2: rewrite (quick_site_check_fetch_error env url timeout parsed e2 Hweb Hurl Hparsed Hresp);
     intros [= <- _]; lia.
  destruct (Z.eq_dec (resp_status_code resp) 200%Z) as [ Hstatus | Hstatus ].
  2: rewrite (quick_site_check_status env url timeout parsed resp
                Hweb Hurl Hparsed Hresp Hstatus);
     intros [= <- _]; lia.
  destruct (BeautifulSoup env (resp_text resp)) as [ page | e3 ] eqn:Hpage.
  2: rewrite (quick_site_check_bad_page env url timeout parsed resp e3
                Hweb Hurl Hparsed Hresp Hstatus Hpage);
     intros [= <- _]; lia.
  rewrite (quick_site_check_page env url timeout parsed resp page
             Hweb Hurl Hparsed Hresp Hstatus Hpage).
  pose proof (site_awards_range (String.eqb (url_scheme parsed) "https")
                (soup_find_meta page "viewport") (soup_find_meta page "description")
                (has_contact page) (has_analytics (resp_text resp))).
  intros [= <- _]. lia.
Qed.

Lemma site_score_of_range env website : (0 <= site_score_of env website <= 20)%Z.
Proof.
  unfold site_score_of.
  destruct (PyStr.nonempty website && WEBCHECK_AVAILABLE env); cbn [try_or]; [ | lia ].
  destruct (quick_site_check env website 5) as [ [score details] | ] eqn:Hrun;
    cbn [bind try_or]; [ | lia ].
  exact (quick_site_check_range _ _ _ _ _ Hrun).
Qed.

Lemma add_zero_r x :
  x <> S754_zero true -> PyFloat.add x (S754_zero false) = x.
Proof. destruct x as [ [ | ] | | | ]; intros H; try reflexivity. congruence. Qed.

Lemma small_Z_cases z :
  (0 <= z <= 20)%Z -> In z (map Z.of_nat (seq 0 21)).
Proof.
  intros H. apply in_map_iff. exists (Z.to_nat z). split; [ lia | ].
  apply in_seq. lia.
Qed.

Lemma website_base_not_negative_zero z :
  (0 <= z <= 20)%Z ->
  PyFloat.add (PyFloat.add PyFloat.f0 (PyFloat.of_Z 10)) (PyFloat.of_Z z) <> S754_zero true.
Proof.
  intros H. apply small_Z_cases in H.
  assert (Hall : forallb
                   (fun z =>
                      match PyFloat.add (PyFloat.add PyFloat.f0 (PyFloat.of_Z 10)) (PyFloat.of_Z z)
                      with S754_zero true => false | _ => true end)
                   (map Z.of_nat (seq 0 21)) = true) by (vm_compute; reflexivity).
  rewrite forallb_forall in Hall. specialize (Hall z H).
  intros E. rewrite E in Hall. discriminate.
Qed.

(** Step 3 of the scorer on a rating that [float] cannot convert. *)
Lemma score_signals_unparseable_rating env has_website website rating reviews phone photos
    category e :
  py_float env rating = Raise e ->
  score_signals env has_website website rating reviews phone photos category
  = score_signals env has_website website (PInt 0) reviews phone photos category.
Proof.
  intros Hrating. unfold score_signals. f_equal. f_equal.
  unfold signals_total. rewrite Hrating.
  change (py_float env (PInt 0)) with (Ok (S754_zero false) : result spec_float).
  cbn [bind try_or].
  change (PyFloat.mul (PyFloat.div (S754_zero false) PyFloat.f5) (PyFloat.of_Z 20))
    with (S754_zero false).
  rewrite add_zero_r; [ reflexivity | ].
  destruct has_website; [ | discriminate ].
  apply website_base_not_negative_zero.
  pose proof (site_score_of_range env website). lia.
Qed.

(** X3. On a record flagged [has_website], a rating that [float] cannot
    convert is scored exactly like a rating of 0: the scorer returns the
    same result as on the record with [rating] set to 0. *)
Theorem unparseable_rating_scores_as_zero env (row : py_dict) e :
  truthy (row_get row "has_website") = true ->
  py_float env (row_get row "rating") = Raise e ->
  _compute_lead_score env row = _compute_lead_score env (<[ "rating" := PInt 0 ]> row).
Proof.
  intros Hweb Hfloat.
  unfold _compute_lead_score.
  set (row' := <[ "rating" := PInt 0 ]> row).
  assert (Hother : forall k, k <> "rating" -> row_get row' k = row_get row k)
    by (intros k Hk; apply row_get_insert_ne; congruence).
  replace (row_get row' "business_name") with (row_get row "business_name")
    by (symmetry; apply Hother; discriminate).
  replace (row_get row' "reviews") with (row_get row "reviews")
    by (symmetry; apply Hother; discriminate).
  replace (row_get row' "has_website") with (row_get row "has_website")
    by (symmetry; apply Hother; discriminate).
  replace (row_get row' "website") with (row_get row "website")
    by (symmetry; apply Hother; discriminate).
  replace (row_get row' "phone") with (row_get row "phone")
    by (symmetry; apply Hother; discriminate).
  replace (row_get row' "phone_number") with (row_get row "phone_number")
    by (symmetry; apply Hother; discriminate).
  replace (row_get row' "photos") with (row_get row "photos")
    by (symmetry; apply Hother; discriminate).
  replace (row_get row' "photo_count") with (row_get row "photo_count")
    by (symmetry; apply Hother; discriminate).
  replace (row_get row' "category") with (row_get row "category")
    by (symmetry; apply Hother; discriminate).
  replace (row_get row' "rating") with (PInt 0)
    by (symmetry; apply row_get_insert_eq).
  rewrite Hweb.
  change (py_or (PInt 0) (PInt 0)) with (PInt 0).
  destruct (str_lower (py_or (row_get row "business_name") (PStr ""))) as [ name | ];
    [ | reflexivity ].
  cbn [bind].
  destruct (str_strip (py_or (row_get row "website") (PStr ""))) as [ website | ];
    [ | reflexivity ].
  cbn [bind].
  destruct (str_strip _) as [ phone | ]; [ | reflexivity ].
  cbn [bind].
  destruct (str_lower _) as [ category | ]; [ | reflexivity ].
  cbn [bind].
  destruct (brand_loop BRAND_KEYWORDS name website); [ reflexivity | ].
  unfold strong_offline. cbn [negb bind].
  assert (Hrating : py_or (row_get row "rating") (PInt 0) = row_get row "rating"
                     \/ py_or (row_get row "rating") (PInt 0) = PInt 0)
    by (unfold py_or; destruct (truthy (row_get row "rating")); auto).
  destruct Hrating as [ -> | -> ]; [ | reflexivity ].
  apply score_signals_unparseable_rating with (e := e). exact Hfloat.
Qed.

Lemma unparseable_rating_scores_as_zero_witness :
  _compute_lead_score offline_env text_rating_site_row
  = _compute_lead_score offline_env (<[ "rating" := PInt 0 ]> text_rating_site_row).
Proof.
  apply (unparseable_rating_scores_as_zero offline_env text_rating_site_row
           (Exn ValueError "could not convert string to float")).
  - vm_compute. reflexivity.
  - vm_compute. reflexivity.
Defined.


(** ** What the scorer reads *)

(** X4. The scorer and the classifier read ten keys only: records that
    agree on them get the same score, reason and class, whatever else they
    hold. *)
Theorem scorer_reads_ten_keys env (row row' : py_dict) :
  Forall (fun k => row_get row k = row_get row' k) record_keys ->
  _compute_lead_score env row = _compute_lead_score env row'
  /\ classify_lead env row = classify_lead env row'.
Proof.
  intros H.
  assert (E : _compute_lead_score env row = _compute_lead_score env row').
  { unfold record_keys in H.
    repeat match goal with
           | H : Forall _ (_ :: _) |- _ =>
               let Hk := fresh "Hk" in
               apply Forall_cons_iff in H; destruct H as [Hk H]
           end.
    unfold _compute_lead_score.
    repeat match goal with
           | Hk : row_get row ?k = row_get row' ?k |- _ =>
               replace (row_get row k) with (row_get row' k) by (symmetry; exact Hk);
               clear Hk
           end.
    reflexivity. }
  split; [ exact E | ]. unfold classify_lead. rewrite E. reflexivity.
Qed.

Lemma scorer_reads_ten_keys_witness :
  _compute_lead_score offline_env kajaria_row
  = _compute_lead_score offline_env kajaria_address_row
  /\ classify_lead offline_env kajaria_row = classify_lead offline_env kajaria_address_row.
Proof.
  apply (scorer_reads_ten_keys offline_env kajaria_row kajaria_address_row).
  unfold record_keys. repeat constructor; vm_compute; reflexivity.
Defined.

Lemma str_lower_text n : str_lower (py_or (PStr n) (PStr "")) = Ok (PyStr.lower n).
Proof. destruct n; reflexivity. Qed.

(** X5. The letter case of the business name and of the category plays no
    role: records that differ in these two fields only, and there only by
    case, get the same result. *)
Theorem letter_case_ignored env (row row' : py_dict) n n' c c' :
  row_get row "business_name" = PStr n -> row_get row' "business_name" = PStr n' ->
  PyStr.lower n = PyStr.lower n' ->
  row_get row "category" = PStr c -> row_get row' "category" = PStr c' ->
  PyStr.lower c = PyStr.lower c' ->
  (forall k, In k record_keys -> k <> "business_name" -> k <> "category" ->
             row_get row k = row_get row' k) ->
  _compute_lead_score env row = _compute_lead_score env row'.
Proof.
  intros Hn Hn' En Hc Hc' Ec Hrest.
  unfold _compute_lead_score.
  rewrite Hn, Hn', Hc, Hc', !str_lower_text, En, Ec.
  repeat match goal with
         | |- context [ row_get row ?k ] =>
             replace (row_get row k) with (row_get row' k)
               by (symmetry; apply Hrest; [ cbn; auto 12 | discriminate | discriminate ])
         end.
  reflexivity.
Qed.

Lemma letter_case_ignored_witness :
  _compute_lead_score offline_env (spelled_row "LOCAL TILES" "Tile Store")
  = _compute_lead_score offline_env (spelled_row "Local Tiles" "tile store").
Proof.
  apply (letter_case_ignored offline_env
           (spelled_row "LOCAL TILES" "Tile Store") (spelled_row "Local Tiles" "tile store")
           "LOCAL TILES" "Local Tiles" "Tile Store" "tile store").
  - vm_compute. reflexivity.
  - vm_compute. reflexivity.
  - vm_compute. reflexivity.
  - vm_compute. reflexivity.
  - vm_compute. reflexivity.
  - vm_compute. reflexivity.
  - unfold record_keys. cbn [In]. intros k Hk Hname Hcategory.
    repeat (destruct Hk as [ <- | Hk ];
            [ first [ vm_compute; reflexivity | congruence ] | ]).
    destruct Hk.
Defined.
